(** * Donation platform: idempotent webhooks, ledger transfers, outbox, notifications

    A shallow embedding of the core of the payment, bank, donation and
    notification services, with the properties their specification states.

    Conventions of the embedding.
    - Monetary values are counted in cents, as [Z]. A [Numeric(12,2)] column
      is a [Decimal] in Python and a validated request amount is a float
      rounded to two places; where the ledger computes with both, the amount
      says which of the two it is ([Bank.Number]).
    - A request body is the text that [body.decode()] yields; decoding it as
      JSON and validating it against the schema is a parameter of the handler.
    - UUIDs are 128-bit numbers ([N]); a fresh [uuid.uuid4()] and a reading of
      [datetime.utcnow()] are inputs of the operation that asks for them.
    - Time stamps are [Z] (microseconds since the epoch).
    - A relational table with a primary key is a [gmap] from the key to the
      row; a table with a serial key is the list of its rows in insertion order.
    - Status columns are strings, as in the models. *)

From Stdlib Require Import ZArith Lia List String Ascii.
From stdpp Require Import gmap strings list fin_maps.
Import ListNotations.
Local Open Scope string_scope.
Local Open Scope list_scope.
Local Open Scope stdpp_scope.
Local Open Scope Z_scope.

(* ===================================================================== *)
(** ** Text helpers: what [str], [lower] and [hex] do in the sources      *)
(* ===================================================================== *)

Module Text.

Definition bytes_of (s : string) : list Z :=
  (fun c => Z.of_N (N_of_ascii c)) <$> list_ascii_of_string s.

Definition hex_digit (d : Z) : ascii :=
  ascii_of_N (Z.to_N (if d <? 10 then 48 + d else 87 + d)).

(** [digits] hexadecimal digits of [x], most significant first. *)
Fixpoint hex_fixed (digits : nat) (x : Z) : string :=
  match digits with
  | O => EmptyString
  | S n => String.append (hex_fixed n (x / 16)) (String (hex_digit (x mod 16)) EmptyString)
  end.

Definition hex_value (c : ascii) : option Z :=
  let n := Z.of_N (N_of_ascii c) in
  if (48 <=? n) && (n <=? 57) then Some (n - 48)
  else if (97 <=? n) && (n <=? 102) then Some (n - 87)
  else if (65 <=? n) && (n <=? 70) then Some (n - 55)
  else None.

Fixpoint parse_hex_from (acc : Z) (s : string) : option Z :=
  match s with
  | EmptyString => Some acc
  | String c rest =>
      match hex_value c with
      | Some d => parse_hex_from (16 * acc + d) rest
      | None => None
      end
  end.

Definition parse_hex (s : string) : option Z := parse_hex_from 0 s.

(** Decimal rendering of a natural number, [str(n)]. *)
Fixpoint dec_digits (fuel : nat) (n : Z) (acc : string) : string :=
  match fuel with
  | O => acc
  | S f =>
      let acc' := String (ascii_of_N (Z.to_N (48 + n mod 10))) acc in
      if n <? 10 then acc' else dec_digits f (n / 10) acc'
  end.

Definition str_nat (n : Z) : string := dec_digits (S (Z.to_nat (Z.log2 n))) n EmptyString.

Definition str_int (n : Z) : string :=
  if n <? 0 then String.append "-" (str_nat (- n)) else str_nat n.

(** [str(d)] for a [Decimal] with two places, given in cents: ["425.00"]. *)
Definition str_decimal (cents : Z) : string :=
  let a := Z.abs cents in
  String.append (if cents <? 0 then "-" else "")
    (String.append (str_nat (a / 100))
       (String.append "." (String.append (str_nat (a mod 100 / 10)) (str_nat (a mod 10))))).

(** [str(x)] for a float that was rounded to two places, given in cents:
    the shortest form, with at least one place: ["75.0"], ["75.5"], ["75.25"]. *)
Definition str_float (cents : Z) : string :=
  let a := Z.abs cents in
  String.append (if cents <? 0 then "-" else "")
    (String.append (str_nat (a / 100))
       (String.append "."
          (if a mod 10 =? 0 then str_nat (a mod 100 / 10)
           else String.append (str_nat (a mod 100 / 10)) (str_nat (a mod 10))))).

Definition lower_ascii (c : ascii) : ascii :=
  let n := N_of_ascii c in
  if ((65 <=? n) && (n <=? 90))%N then ascii_of_N (n + 32) else c.

(** [str(u)] for a UUID: 32 hexadecimal digits cut 8-4-4-4-12. *)
Definition str_uuid (u : N) : string :=
  let h := hex_fixed 32 (Z.of_N u) in
  String.append (String.substring 0 8 h)
    (String.append "-" (String.append (String.substring 8 4 h)
      (String.append "-" (String.append (String.substring 12 4 h)
        (String.append "-" (String.append (String.substring 16 4 h)
          (String.append "-" (String.substring 20 12 h)))))))).

(** Decimal rendering on at least [width] digits, as [{n:0{width}d}]. *)
Definition str_padded (width : nat) (n : Z) : string :=
  let d := str_nat n in
  String.append (string_of_list_ascii (repeat "0"%char (width - String.length d)%nat)) d.

(** Proleptic Gregorian date of a day number counted from 1970-01-01. *)
Definition civil_from_days (days : Z) : Z * Z * Z :=
  let z := days + 719468 in
  let era := z / 146097 in
  let doe := z - era * 146097 in
  let yoe := (doe - doe / 1460 + doe / 36524 - doe / 146096) / 365 in
  let doy := doe - (365 * yoe + yoe / 4 - yoe / 100) in
  let mp := (5 * doy + 2) / 153 in
  let d := doy - (153 * mp + 2) / 5 + 1 in
  let m := if mp <? 10 then mp + 3 else mp - 9 in
  (if m <=? 2 then yoe + era * 400 + 1 else yoe + era * 400, m, d).

(** [datetime.isoformat()] of an instant given in microseconds since the
    epoch; the fraction is printed only when it is not zero. *)
Definition isoformat (t : Z) : string :=
  let us := t mod 1000000 in
  let secs := t / 1000000 in
  let '(y, m, d) := civil_from_days (secs / 86400) in
  let sod := secs mod 86400 in
  String.append (str_padded 4 y) (String.append "-" (String.append (str_padded 2 m)
    (String.append "-" (String.append (str_padded 2 d) (String.append "T"
      (String.append (str_padded 2 (sod / 3600)) (String.append ":"
        (String.append (str_padded 2 (sod mod 3600 / 60)) (String.append ":"
          (String.append (str_padded 2 (sod mod 60))
            (if us =? 0 then EmptyString
             else String.append "." (str_padded 6 us)))))))))))).

(** Truth value of an optional text in a Python condition. *)
Definition truthy (s : option string) : bool :=
  match s with
  | Some (String _ _) => true
  | _ => false
  end.

(** [s.lower()] on ASCII text. *)
Fixpoint lower (s : string) : string :=
  match s with
  | EmptyString => EmptyString
  | String c rest => String (lower_ascii c) (lower rest)
  end.

End Text.

(* ===================================================================== *)
(** ** SHA-256, as [hashlib.sha256(data).hexdigest()]                     *)
(* ===================================================================== *)

Module Sha256.

Definition mask32 : Z := 4294967295.
Definition w32 (x : Z) : Z := Z.land x mask32.
Definition add32 (a b : Z) : Z := w32 (a + b).
Definition rotr (n x : Z) : Z := Z.lor (Z.shiftr x n) (w32 (Z.shiftl x (32 - n))).
Definition xor3 (a b c : Z) : Z := Z.lxor (Z.lxor a b) c.

Definition ch (x y z : Z) : Z := Z.lxor (Z.land x y) (Z.land (Z.lxor x mask32) z).
Definition maj (x y z : Z) : Z := xor3 (Z.land x y) (Z.land x z) (Z.land y z).
Definition bsig0 (x : Z) : Z := xor3 (rotr 2 x) (rotr 13 x) (rotr 22 x).
Definition bsig1 (x : Z) : Z := xor3 (rotr 6 x) (rotr 11 x) (rotr 25 x).
Definition ssig0 (x : Z) : Z := xor3 (rotr 7 x) (rotr 18 x) (Z.shiftr x 3).
Definition ssig1 (x : Z) : Z := xor3 (rotr 17 x) (rotr 19 x) (Z.shiftr x 10).

(** Cuts a text of hexadecimal digits into 32-bit words. *)
Fixpoint words_of_hex (fuel : nat) (s : string) : list Z :=
  match fuel with
  | O => []
  | S f =>
      match Text.parse_hex (String.substring 0 8 s) with
      | Some w => w :: words_of_hex f (String.substring 8 (String.length s - 8) s)
      | None => []
      end
  end.

(** The round constants and the initial hash value of FIPS 180-4. *)
Definition round_constants : list Z := Eval vm_compute in
  words_of_hex 64
    ("428a2f9871374491b5c0fbcfe9b5dba53956c25b59f111f1923f82a4ab1c5ed5" +:+
     "d807aa9812835b01243185be550c7dc372be5d7480deb1fe9bdc06a7c19bf174" +:+
     "e49b69c1efbe47860fc19dc6240ca1cc2de92c6f4a7484aa5cb0a9dc76f988da" +:+
     "983e5152a831c66db00327c8bf597fc7c6e00bf3d5a7914706ca635114292967" +:+
     "27b70a852e1b21384d2c6dfc53380d13650a7354766a0abb81c2c92e92722c85" +:+
     "a2bfe8a1a81a664bc24b8b70c76c51a3d192e819d6990624f40e3585106aa070" +:+
     "19a4c1161e376c082748774c34b0bcb5391c0cb34ed8aa4a5b9cca4f682e6ff3" +:+
     "748f82ee78a5636f84c878148cc7020890befffaa4506cebbef9a3f7c67178f2").

Definition initial_hash : list Z := Eval vm_compute in
  words_of_hex 8 "6a09e667bb67ae853c6ef372a54ff53a510e527f9b05688c1f83d9ab5be0cd19".

(** Padding: one bit, zeros up to 56 modulo 64, the bit length on 8 bytes. *)
Fixpoint be_bytes (n : nat) (x : Z) : list Z :=
  match n with
  | O => []
  | S k => be_bytes k (x / 256) ++ [x mod 256]
  end.

Definition pad (msg : list Z) : list Z :=
  let len := Z.of_nat (length msg) in
  msg ++ [128] ++ replicate (Z.to_nat ((55 - len) mod 64)) 0 ++ be_bytes 8 (8 * len).

Fixpoint words_of_bytes (fuel : nat) (bs : list Z) : list Z :=
  match fuel, bs with
  | S f, b0 :: b1 :: b2 :: b3 :: rest =>
      (((b0 * 256 + b1) * 256 + b2) * 256 + b3) :: words_of_bytes f rest
  | _, _ => []
  end.

Record regs := Regs { ra : Z; rb : Z; rc : Z; rd : Z; re : Z; rf : Z; rg : Z; rh : Z }.

Definition nth_word (i : nat) (ws : list Z) : Z := nth i ws 0.

(** One round: the window holds the sixteen latest schedule words. *)
Definition round (st : regs * list Z) (k : Z) : regs * list Z :=
  let '(r, win) := st in
  let wt := nth_word 0 win in
  let t1 := add32 (add32 (add32 (add32 (rh r) (bsig1 (re r))) (ch (re r) (rf r) (rg r))) k) wt in
  let t2 := add32 (bsig0 (ra r)) (maj (ra r) (rb r) (rc r)) in
  let next := add32 (add32 (add32 (ssig1 (nth_word 14 win)) (nth_word 9 win))
                      (ssig0 (nth_word 1 win))) wt in
  (Regs (add32 t1 t2) (ra r) (rb r) (rc r) (add32 (rd r) t1) (re r) (rf r) (rg r),
   tl win ++ [next]).

Definition regs_of (h : list Z) : regs :=
  Regs (nth_word 0 h) (nth_word 1 h) (nth_word 2 h) (nth_word 3 h)
       (nth_word 4 h) (nth_word 5 h) (nth_word 6 h) (nth_word 7 h).

Definition compress (h : list Z) (block : list Z) : list Z :=
  let r := fst (fold_left round round_constants (regs_of h, block)) in
  zip_with add32 h [ra r; rb r; rc r; rd r; re r; rf r; rg r; rh r].

Fixpoint blocks (fuel : nat) (h : list Z) (ws : list Z) : list Z :=
  match fuel, ws with
  | S f, _ :: _ => blocks f (compress h (take 16 ws)) (drop 16 ws)
  | _, _ => h
  end.

Definition digest (msg : list Z) : list Z :=
  let padded := pad msg in
  let ws := words_of_bytes (length padded) padded in
  blocks (length ws) initial_hash ws.

Definition hexdigest (s : string) : string :=
  foldr (fun w acc => String.append (Text.hex_fixed 8 w) acc) EmptyString
        (digest (Text.bytes_of s)).

End Sha256.

(* ===================================================================== *)
(** ** JSON objects handed to [json.dumps]                                *)
(* ===================================================================== *)

(** A response body is the rendering by [json.dumps] of a dictionary; the
  embedding keeps the dictionary, of which the rendering is a function.
  [Num] is a number with two decimal places, given in cents. *)
Module Json.

#[warnings="-register-all"] Inductive value : Type :=
| Str (s : string)
| Int (n : Z)
| Num (cents : Z)
| Obj (fields : list (string * value))
| Null.

Definition opt_str (s : option string) : value :=
  match s with Some x => Str x | None => Null end.

Definition opt_num (n : option Z) : value :=
  match n with Some x => Num x | None => Null end.

Definition dict : Type := list (string * value).

(** Truth value of an optional dictionary in a Python condition. *)
Definition truthy (d : option dict) : bool :=
  match d with
  | Some (_ :: _) => true
  | _ => false
  end.

End Json.

(* ===================================================================== *)
(** ** Payment service: webhook ingestion                                  *)
(* ===================================================================== *)

Module Payment.

(** app/models.py *)
Record PaymentTransaction := {
  pt_donation_id : N;
  payment_intent_id : string;
  pt_amount : Z;
  pt_currency : string;
  pt_status : string;
  pt_gateway : string;
  gateway_response : option Json.dict;
  pt_version : Z;
  pt_created_at : Z;
  pt_updated_at : Z }.

Record IdempotencyKey := {
  response_body : Json.dict;
  response_status : Z;
  ik_created_at : Z;
  expires_at : Z }.

Record PaymentStateHistory := {
  payment_id : N;
  from_status : option string;
  to_status : string;
  event_id : option string;
  event_timestamp : Z;
  received_at : Z;
  psh_version : Z }.

(** app/schemas.py. [timestamp: datetime] is read from the text of the body:
    [we_timestamp] is the instant, [we_tzinfo] the offset from UTC when the
    text carries one (an offset-aware [datetime]) and [None] when it carries
    none (an offset-naive one, as the [DateTime] columns are). *)
Record WebhookEvent := {
  event_type : string;
  we_payment_intent_id : string;
  we_status : string;
  we_timestamp : Z;
  we_tzinfo : option Z;
  we_data : option Json.dict }.

(** An entry of the Redis cache: the stored pair and the instant at which
    [setex] lets it lapse. *)
Record CacheEntry := {
  ce_body : Json.dict;
  ce_status : Z;
  ce_until : Z }.

(** The stores of the service: three tables and the cache. *)
Record Store := {
  payment_transactions : gmap N PaymentTransaction;
  payment_state_history : list PaymentStateHistory;
  idempotency_keys : gmap string IdempotencyKey;
  redis : gmap string CacheEntry }.

Record Request := {
  req_body : string;
  x_idempotency_key : option string }.

Record Response := {
  content : Json.dict;
  status_code : Z }.

(** app/config.py: [idempotency_ttl = 86400] seconds. *)
Definition idempotency_ttl : Z := 86400 * 1000000.

(** utils/state_machine.py *)
Definition VALID_TRANSITIONS : gmap string (list string) :=
  list_to_map
    [ ("INITIATED", ["AUTHORIZED"; "FAILED"]);
      ("AUTHORIZED", ["CAPTURED"; "FAILED"; "REFUNDED"]);
      ("CAPTURED", ["REFUNDED"]);
      ("FAILED", []);
      ("REFUNDED", []) ].

Definition get_allowed_transitions (current_status : string) : list string :=
  default [] (VALID_TRANSITIONS !! current_status).

Definition validate_state_transition (current_status new_status : string) : bool :=
  bool_decide (new_status ∈ default [] (VALID_TRANSITIONS !! current_status)).

(** utils/idempotency.py *)
Definition generate_idempotency_key (content : string) : string :=
  Sha256.hexdigest content.

Definition redis_get (now : Z) (name : string) (r : gmap string CacheEntry)
  : option CacheEntry :=
  match r !! name with
  | Some e => if now <? ce_until e then Some e else None
  | None => None
  end.

Definition redis_setex (now : Z) (name : string) (ttl : Z) (body : Json.dict) (status : Z)
    (r : gmap string CacheEntry) : gmap string CacheEntry :=
  <[ name := {| ce_body := body; ce_status := status; ce_until := now + ttl |} ]> r.

Definition check_idempotency_cache (now : Z) (key : string) (s : Store)
  : option (Json.dict * Z) :=
  match redis_get now ("idem:" +:+ key) (redis s) with
  | Some e => Some (ce_body e, ce_status e)
  | None => None
  end.

Definition check_idempotency_db (now : Z) (key : string) (s : Store)
  : option (Json.dict * Z) * Store :=
  match idempotency_keys s !! key with
  | Some existing =>
      (Some (response_body existing, response_status existing),
       {| payment_transactions := payment_transactions s;
          payment_state_history := payment_state_history s;
          idempotency_keys := idempotency_keys s;
          redis := redis_setex now ("idem:" +:+ key) idempotency_ttl
                     (response_body existing) (response_status existing) (redis s) |})
  | None => (None, s)
  end.

(** The insertion into the table is given up when the key is taken
    ([IntegrityError], then [rollback]). *)
Definition save_idempotency_record (now : Z) (key : string) (body : Json.dict)
    (status : Z) (s : Store) : Store :=
  {| payment_transactions := payment_transactions s;
     payment_state_history := payment_state_history s;
     idempotency_keys :=
       match idempotency_keys s !! key with
       | Some _ => idempotency_keys s
       | None =>
           <[ key := {| response_body := body; response_status := status;
                        ik_created_at := now;
                        expires_at := now + idempotency_ttl |} ]> (idempotency_keys s)
       end;
     redis := redis_setex now ("idem:" +:+ key) idempotency_ttl body status (redis s) |}.

(** [db.query(PaymentTransaction).filter_by(payment_intent_id=...).first()] *)
Definition find_payment (intent : string) (s : Store) : option (N * PaymentTransaction) :=
  snd <$> list_find (fun kv => payment_intent_id (snd kv) = intent)
                    (map_to_list (payment_transactions s)).

(** The header, or the hash of the body when the header is missing or empty. *)
Definition idempotency_key_of (req : Request) : string :=
  match x_idempotency_key req with
  | Some k => if bool_decide (k = "") then generate_idempotency_key (req_body req) else k
  | None => generate_idempotency_key (req_body req)
  end.

(** Lines 201-218 of app/api/payments.py: the accepted transition, as the
    row is after the commit. [updated_at] is declared with
    [onupdate=datetime.utcnow] (app/models.py): the UPDATE carries the columns
    whose value has changed, and the column gets the reading [now] of the
    clock when the time stamp assigned to it is the one it already holds. *)
Definition apply_transition (now : Z) (ev : WebhookEvent) (payment : PaymentTransaction)
  : PaymentTransaction :=
  {| pt_donation_id := pt_donation_id payment;
     payment_intent_id := payment_intent_id payment;
     pt_amount := pt_amount payment;
     pt_currency := pt_currency payment;
     pt_status := we_status ev;
     pt_gateway := pt_gateway payment;
     gateway_response :=
       if Json.truthy (we_data ev) then we_data ev else gateway_response payment;
     pt_version := pt_version payment + 1;
     pt_created_at := pt_created_at payment;
     pt_updated_at :=
       if we_timestamp ev =? pt_updated_at payment then now else we_timestamp ev |}.

Definition not_found_body : Json.dict := [("error", Json.Str "Payment not found")].

(** The text of the [TypeError] of [aware < naive]. *)
Definition naive_and_aware : string :=
  "can't compare offset-naive and offset-aware datetimes".

Definition out_of_order_body : Json.dict :=
  [ ("status", Json.Str "ignored");
    ("reason", Json.Str "out_of_order");
    ("message", Json.Str "Event is older than current state") ].

Definition invalid_transition_body (current proposed : string) : Json.dict :=
  [ ("status", Json.Str "rejected");
    ("reason", Json.Str "invalid_transition");
    ("message", Json.Str ("Invalid state transition: " +:+ current +:+ " -> " +:+ proposed)) ].

Definition processed_body (pid : N) (old_status : string) (p : PaymentTransaction)
  : Json.dict :=
  [ ("status", Json.Str "processed");
    ("payment_id", Json.Str (Text.str_uuid pid));
    ("old_status", Json.Str old_status);
    ("new_status", Json.Str (pt_status p));
    ("version", Json.Int (pt_version p)) ].

Section Handler.

(** The [WebhookEvent] built from [json.loads(body_str)], or the text of
    the exception that decoding or validation raises. *)
Variable load_event : string -> string + WebhookEvent.

(** The first-time path of [handle_webhook] (from line 139 on). Tracing,
    metrics, printing and the publication of the event to the broker (whose
    failure [publish_payment_event] swallows) touch none of the stores and
    are left out. An exception ends in [rollback] and a 500 that is not kept. *)
Definition process_webhook (now : Z) (key body_str : string) (s : Store)
  : Response * Store :=
  match load_event body_str with
  | inl err => ({| content := [("error", Json.Str err)]; status_code := 500 |}, s)
  | inr ev =>
      match find_payment (we_payment_intent_id ev) s with
      | None =>
          ({| content := not_found_body; status_code := 404 |},
           save_idempotency_record now key not_found_body 404 s)
      | Some (pid, payment) =>
          if bool_decide (is_Some (we_tzinfo ev)) then
            (* [webhook_event.timestamp < payment.updated_at] raises *)
            ({| content := [("error", Json.Str naive_and_aware)]; status_code := 500 |}, s)
          else if we_timestamp ev <? pt_updated_at payment then
            ({| content := out_of_order_body; status_code := 200 |},
             save_idempotency_record now key out_of_order_body 200 s)
          else if negb (validate_state_transition (pt_status payment) (we_status ev)) then
            let body := invalid_transition_body (pt_status payment) (we_status ev) in
            ({| content := body; status_code := 400 |},
             save_idempotency_record now key body 400 s)
          else
            let old_status := pt_status payment in
            let payment' := apply_transition now ev payment in
            let state_history :=
              {| payment_id := pid;
                 from_status := Some old_status;
                 to_status := we_status ev;
                 event_id := Some key;
                 event_timestamp := we_timestamp ev;
                 received_at := now;
                 psh_version := pt_version payment' |} in
            let committed :=
              {| payment_transactions := <[ pid := payment' ]> (payment_transactions s);
                 payment_state_history := payment_state_history s ++ [state_history];
                 idempotency_keys := idempotency_keys s;
                 redis := redis s |} in
            let body := processed_body pid old_status payment' in
            ({| content := body; status_code := 200 |},
             save_idempotency_record now key body 200 committed)
      end
  end.

(** [handle_webhook]: cache, then table, then the first-time path. *)
Definition handle_webhook (now : Z) (req : Request) (s : Store) : Response * Store :=
  let key := idempotency_key_of req in
  match check_idempotency_cache now key s with
  | Some (body, status) => ({| content := body; status_code := status |}, s)
  | None =>
      match check_idempotency_db now key s with
      | (Some (body, status), warmed) =>
          ({| content := body; status_code := status |}, warmed)
      | (None, _) => process_webhook now key (req_body req) s
      end
  end.

(** A run of the service: requests handled one after the other, each at
    its own instant. *)
Fixpoint handle_all (reqs : list (Z * Request)) (s : Store) : Store :=
  match reqs with
  | [] => s
  | (now, req) :: rest => handle_all rest (snd (handle_webhook now req s))
  end.

End Handler.

End Payment.

(* ===================================================================== *)
(** ** Python exceptions that cross a function boundary                    *)
(* ===================================================================== *)

Inductive exn : Type :=
| Exception (msg : string)
| ValueError (msg : string)
| HTTPException (status : Z) (detail : string).

(* ===================================================================== *)
(** ** Bank service: accounts, ledger and peer-to-peer transfers           *)
(* ===================================================================== *)

Module Bank.

(** app/models.py *)
Record BankAccount := {
  user_id : N;
  account_number : string;
  account_holder_name : string;
  email : string;
  balance : Z;
  ba_currency : string;
  ba_status : string;
  ba_created_at : Z;
  ba_updated_at : Z;
  ba_version : Z }.

Record Transaction := {
  transaction_type : string;
  from_account_id : option N;
  to_account_id : option N;
  amount : Z;
  tx_currency : string;
  tx_status : string;
  reference : option string;
  description : option string;
  tx_created_at : Z;
  completed_at : option Z }.

(** [TransactionResponse.from_orm]: the identifier and the columns. *)
Definition TransactionResponse : Type := N * Transaction.

(** An amount as Python holds it. A [Numeric(12,2)] column loads as a
    [Decimal] with two places, given by its cents. The amount of a validated
    [TransferCreate] is a float, the one that [round(v, 2)] returns: the
    double nearest to a number of cents, given by that number. *)
Inductive Number : Type :=
| Decimal (cents : Z)
| Float (cents : Z).

(** The integer nearest to [num/den], ties to the even one. *)
Definition round_half_even (num den : Z) : Z :=
  let q := num / den in
  let r := num mod den in
  if 2 * r <? den then q
  else if den <? 2 * r then q + 1
  else if Z.even q then q else q + 1.

(** The double nearest to [cents/100], for [0 < cents] below the overflow
    threshold: [(m, s)] with [2^52 <= m <= 2^53] stands for [m / 2^s] when
    [0 <= s] and for [m * 2^(-s)] otherwise. *)
Definition nearest_double (cents : Z) : Z * Z :=
  let scaled s := if 0 <=? s then (cents * 2 ^ s, 100) else (cents, 100 * 2 ^ (- s)) in
  let s1 := 59 - Z.log2 cents in
  let s := if fst (scaled s1) <? 2 ^ 53 * snd (scaled s1) then s1 else s1 - 1 in
  (round_half_even (fst (scaled s)) (snd (scaled s)), s).

(** [balance < amount] for a balance of [c] cents: Python compares a
    [Decimal] with a float on their exact values. *)
Definition decimal_lt (c : Z) (amount : Number) : bool :=
  match amount with
  | Decimal x => c <? x
  | Float k =>
      if k =? 0 then c <? 0
      else
        let '(m, s) := nearest_double (Z.abs k) in
        if 0 <? k
        then (if 0 <=? s then c * 2 ^ s <? 100 * m else c <? 100 * m * 2 ^ (- s))
        else (if 0 <=? s then 100 * m <? (- c) * 2 ^ s else 100 * m * 2 ^ (- s) <? - c)
  end.

(** [str(amount)] *)
Definition str_number (amount : Number) : string :=
  match amount with
  | Decimal x => Text.str_decimal x
  | Float k => Text.str_float k
  end.

Record TransferIdempotency := {
  transaction_id : N;
  ti_response_body : TransactionResponse;
  ti_response_status : Z;
  ti_expires_at : Z }.

Record Database := {
  bank_accounts : gmap N BankAccount;
  transactions : gmap N Transaction;
  transfer_idempotency : gmap string TransferIdempotency }.

(** A cached response with the instant at which [setex] lets it lapse. *)
Definition Redis : Type := gmap string (TransactionResponse * Z).

(** What survives a crash of the process: the committed tables and the cache. *)
Record World := {
  database : Database;
  cache : Redis }.

(** A database session. [pending] holds the flushed, uncommitted writes;
    [checkpoints] lists the world after each commit and each cache write,
    oldest first. *)
Record Session := {
  durable : Database;
  pending : Database;
  redis : Redis;
  checkpoints : list World }.

Definition open_session (w : World) : Session :=
  {| durable := database w; pending := database w; redis := cache w; checkpoints := [] |}.

Definition world_of (db : Session) : World :=
  {| database := durable db; cache := redis db |}.

Definition commit (db : Session) : Session :=
  {| durable := pending db; pending := pending db; redis := redis db;
     checkpoints := checkpoints db ++ [ {| database := pending db; cache := redis db |} ] |}.

Definition rollback (db : Session) : Session :=
  {| durable := durable db; pending := durable db; redis := redis db;
     checkpoints := checkpoints db |}.

Definition with_pending (p : Database) (db : Session) : Session :=
  {| durable := durable db; pending := p; redis := redis db; checkpoints := checkpoints db |}.

Definition setex (now : Z) (name : string) (ttl : Z) (v : TransactionResponse)
    (db : Session) : Session :=
  let r := <[ name := (v, now + ttl) ]> (redis db) in
  {| durable := durable db; pending := pending db; redis := r;
     checkpoints := checkpoints db ++ [ {| database := durable db; cache := r |} ] |}.

Definition redis_get (now : Z) (name : string) (r : Redis) : option TransactionResponse :=
  match r !! name with
  | Some (v, until) => if now <? until then Some v else None
  | None => None
  end.

(** A row reached through a query: [None] when the query found nothing. *)
Definition load_account (ref : option N) (d : Database) : option (N * BankAccount) :=
  match ref with
  | Some id => match bank_accounts d !! id with
               | Some a => Some (id, a)
               | None => None
               end
  | None => None
  end.

Definition find_account (number : string) (d : Database) : option (N * BankAccount) :=
  snd <$> list_find (fun kv => account_number (snd kv) = number)
                    (map_to_list (bank_accounts d)).

(** [account.balance -= amount; account.updated_at = utcnow(); account.version += 1] *)
Definition debit (amount now : Z) (a : BankAccount) : BankAccount :=
  {| user_id := user_id a; account_number := account_number a;
     account_holder_name := account_holder_name a; email := email a;
     balance := balance a - amount;
     ba_currency := ba_currency a; ba_status := ba_status a;
     ba_created_at := ba_created_at a; ba_updated_at := now;
     ba_version := ba_version a + 1 |}.

(** [account.balance += amount; account.updated_at = utcnow(); account.version += 1] *)
Definition credit (amount now : Z) (a : BankAccount) : BankAccount :=
  {| user_id := user_id a; account_number := account_number a;
     account_holder_name := account_holder_name a; email := email a;
     balance := balance a + amount;
     ba_currency := ba_currency a; ba_status := ba_status a;
     ba_created_at := ba_created_at a; ba_updated_at := now;
     ba_version := ba_version a + 1 |}.

Definition set_tx_status (st : string) (done : option Z) (t : Transaction) : Transaction :=
  {| transaction_type := transaction_type t;
     from_account_id := from_account_id t; to_account_id := to_account_id t;
     amount := amount t; tx_currency := tx_currency t;
     tx_status := st;
     reference := reference t; description := description t;
     tx_created_at := tx_created_at t;
     completed_at := done |}.

Definition none_has_no_id : string := "'NoneType' object has no attribute 'id'".
Definition duplicate_key : string := "duplicate key value violates unique constraint".
Definition decimal_minus_float : string :=
  "unsupported operand type(s) for -=: 'decimal.Decimal' and 'float'".

(** utils/ledger.py, [execute_transfer]. The two accounts are rows of the
    session: debiting and crediting act on the session's copy of each row,
    so that both updates reach the same row when the two coincide.
    [tx_id] is the fresh [uuid4()], [now] the clock. The balance of a row is
    a [Decimal]: [from_account.balance -= amount] raises [TypeError] when the
    amount is a float, after the entry was flushed; the handler of the
    exception rolls back, commits nothing and raises. *)
Definition execute_transfer (from_account to_account : option N) (amount : Number)
    (description : string) (tx_id : N) (now : Z) (db : Session)
  : (exn + TransactionResponse) * Session :=
  match load_account from_account (pending db), load_account to_account (pending db) with
  | Some (from_id, from_row), Some (to_id, _) =>
      match transactions (pending db) !! tx_id with
      | Some _ =>
          (* [flush] raises; [rollback], then a commit of nothing *)
          (inl (Exception ("Transfer failed: " +:+ duplicate_key)), commit (rollback db))
      | None =>
          match amount with
          | Float _ =>
              (inl (Exception ("Transfer failed: " +:+ decimal_minus_float)),
               commit (rollback db))
          | Decimal amount =>
              let transaction :=
                {| transaction_type := "TRANSFER";
                   from_account_id := Some from_id;
                   to_account_id := Some to_id;
                   amount := amount;
                   tx_currency := ba_currency from_row;
                   tx_status := "PENDING";
                   reference := None;
                   description := Some description;
                   tx_created_at := now;
                   completed_at := None |} in
              let accounts1 := alter (debit amount now) from_id (bank_accounts (pending db)) in
              let accounts2 := alter (credit amount now) to_id accounts1 in
              let completed := set_tx_status "COMPLETED" (Some now) transaction in
              let p := {| bank_accounts := accounts2;
                          transactions := <[ tx_id := completed ]> (transactions (pending db));
                          transfer_idempotency := transfer_idempotency (pending db) |} in
              (inr (tx_id, completed), commit (with_pending p db))
          end
      end
  | _, _ =>
      (inl (Exception ("Transfer failed: " +:+ none_has_no_id)), rollback db)
  end.

(** utils/ledger.py, [reverse_transaction]. *)
Definition reverse_transaction (transaction_id : N) (tx_id : N) (now : Z) (db : Session)
  : (exn + TransactionResponse) * Session :=
  match transactions (pending db) !! transaction_id with
  | None => (inl (ValueError "Transaction not found"), db)
  | Some original =>
      if negb (bool_decide (tx_status original = "COMPLETED")) then
        (inl (ValueError "Only completed transactions can be reversed"), db)
      else if negb (bool_decide (transaction_type original = "TRANSFER")) then
        (inl (ValueError "Only transfers can be reversed"), db)
      else
        let from_account := fst <$> load_account (from_account_id original) (pending db) in
        let to_account := fst <$> load_account (to_account_id original) (pending db) in
        match execute_transfer to_account from_account (Decimal (amount original))
                ("Reversal of transaction " +:+ Text.str_uuid transaction_id)
                tx_id now db with
        | (inl e, db') => (inl e, db')
        | (inr reversal, db') =>
            let p := {| bank_accounts := bank_accounts (pending db');
                        transactions :=
                          alter (fun t => set_tx_status "REVERSED" (completed_at t) t)
                                transaction_id (transactions (pending db'));
                        transfer_idempotency := transfer_idempotency (pending db') |} in
            (inr reversal, commit (with_pending p db'))
        end
  end.

(** utils/validation.py *)
Definition validate_account_status (account : BankAccount) : bool * string :=
  if negb (bool_decide (ba_status account = "ACTIVE"))
  then (false, "Account is " +:+ Text.lower (ba_status account))
  else (true, "").

Definition validate_sufficient_balance (account : BankAccount) (amount : Number)
  : bool * string :=
  if decimal_lt (balance account) amount
  then (false, "Insufficient balance. Available: " +:+ Text.str_decimal (balance account)
               +:+ ", Required: " +:+ str_number amount)
  else (true, "").

Definition validate_transfer (from_account to_account : N * BankAccount) (amount : Number)
  : bool * string :=
  let '(is_valid, error) := validate_account_status (snd from_account) in
  if negb is_valid then (false, "Source account error: " +:+ error) else
  let '(is_valid, error) := validate_account_status (snd to_account) in
  if negb is_valid then (false, "Destination account error: " +:+ error) else
  let '(is_valid, error) := validate_sufficient_balance (snd from_account) amount in
  if negb is_valid then (false, error) else
  if bool_decide (fst from_account = fst to_account)
  then (false, "Cannot transfer to same account") else
  if negb (bool_decide (ba_currency (snd from_account) = ba_currency (snd to_account)))
  then (false, "Currency mismatch: " +:+ ba_currency (snd from_account) +:+ " vs "
               +:+ ba_currency (snd to_account))
  else (true, "").

(** app/schemas.py, [TransferCreate], after validation: [tc_amount] is the
    float [Float (tc_amount t)], the amount sent rounded to two places. *)
Record TransferCreate := {
  from_account_number : string;
  to_account_number : string;
  tc_amount : Z;
  tc_description : option string;
  idempotency_key : option string }.

(** [amount: float = Field(gt=0, le=1000000)] with its validator. The bounds
    are tested on the float as it was sent, whose value is the fraction
    [num/den]; the validator then returns [round(v, 2)], here in cents. *)
Definition validate_amount (num : Z) (den : positive) : option Z :=
  if (0 <? num) && (num <=? 1000000 * Z.pos den)
  then Some (round_half_even (100 * num) (Z.pos den))
  else None.

(** The cache keeps a transfer response for 86400 seconds. *)
Definition transfer_ttl : Z := 86400 * 1000000.

(** The key that [create_transfer] derives when the header is missing. *)
Definition derived_key (t : TransferCreate) (now : Z) : string :=
  Sha256.hexdigest
    (from_account_number t +:+ ":" +:+ to_account_number t +:+ ":"
     +:+ Text.str_float (tc_amount t) +:+ ":" +:+ Text.isoformat now).

Definition transfer_key (x_idempotency_key : option string) (t : TransferCreate) (now : Z)
  : string :=
  match x_idempotency_key with
  | Some k => if Text.truthy (Some k) then k else derived_key t now
  | None => derived_key t now
  end.

(** app/api/transactions.py, [create_transfer], on a session. Tracing,
    metrics, printing and the publication of [TransferCompleted] touch none
    of the stores and are left out. *)
Definition create_transfer_in (transfer_data : TransferCreate)
    (x_idempotency_key : option string) (tx_id : N) (now : Z) (db : Session)
  : (exn + TransactionResponse) * Session :=
  let key := transfer_key x_idempotency_key transfer_data now in
  match redis_get now ("transfer:" +:+ key) (redis db) with
  | Some cached => (inr cached, db)
  | None =>
      match transfer_idempotency (pending db) !! key with
      | Some existing =>
          (inr (ti_response_body existing),
           setex now ("transfer:" +:+ key) transfer_ttl (ti_response_body existing) db)
      | None =>
          let from_account := find_account (from_account_number transfer_data) (pending db) in
          let to_account := find_account (to_account_number transfer_data) (pending db) in
          match from_account, to_account with
          | None, _ =>
              (inl (HTTPException 404
                      ("Source account " +:+ from_account_number transfer_data +:+ " not found")),
               db)
          | Some _, None =>
              (inl (HTTPException 404
                      ("Destination account " +:+ to_account_number transfer_data
                       +:+ " not found")),
               db)
          | Some from_row, Some to_row =>
              let '(is_valid, error_message) :=
                validate_transfer from_row to_row (Float (tc_amount transfer_data)) in
              if negb is_valid then (inl (HTTPException 400 error_message), db) else
              let description :=
                if Text.truthy (tc_description transfer_data)
                then default "" (tc_description transfer_data)
                else "Transfer to " +:+ account_holder_name (snd to_row) in
              match execute_transfer (Some (fst from_row)) (Some (fst to_row))
                      (Float (tc_amount transfer_data)) description tx_id now db with
              | (inl (Exception msg), db1) =>
                  (inl (HTTPException 500 ("Transfer failed: " +:+ msg)), rollback db1)
              | (inl e, db1) => (inl e, db1)
              | (inr response, db1) =>
                  let db2 := setex now ("transfer:" +:+ key) transfer_ttl response db1 in
                  match transfer_idempotency (pending db2) !! key with
                  | Some _ =>
                      (inl (HTTPException 500 ("Transfer failed: " +:+ duplicate_key)),
                       rollback db2)
                  | None =>
                      let idem_record :=
                        {| transaction_id := fst response;
                           ti_response_body := response;
                           ti_response_status := 201;
                           ti_expires_at := now + transfer_ttl |} in
                      let p := {| bank_accounts := bank_accounts (pending db2);
                                  transactions := transactions (pending db2);
                                  transfer_idempotency :=
                                    <[ key := idem_record ]> (transfer_idempotency (pending db2)) |} in
                      (inr response, commit (with_pending p db2))
                  end
              end
          end
      end
  end.

(** A request served from start to end: its own session, closed at the end. *)
Definition create_transfer (transfer_data : TransferCreate)
    (x_idempotency_key : option string) (tx_id : N) (now : Z) (w : World)
  : (exn + TransactionResponse) * World * list World :=
  let '(outcome, db) :=
    create_transfer_in transfer_data x_idempotency_key tx_id now (open_session w) in
  (outcome, world_of db, checkpoints db).

(** The sum of the balances of all accounts. *)
Definition total_balance (d : Database) : Z :=
  map_fold (fun _ a acc => balance a + acc) 0 (bank_accounts d).

Definition balance_of (id : N) (d : Database) : option Z :=
  balance <$> bank_accounts d !! id.

Definition version_of (id : N) (d : Database) : option Z :=
  ba_version <$> bank_accounts d !! id.

(** The operations of the TRANSFER class. *)
Inductive Operation : Type :=
| Request (transfer_data : TransferCreate) (x_idempotency_key : option string)
          (tx_id : N) (now : Z)
| Direct (from_account to_account : option N) (amount : Number) (description : string)
         (tx_id : N) (now : Z)
| Reversal (transaction_id : N) (tx_id : N) (now : Z).

Definition perform (op : Operation) (w : World) : World :=
  match op with
  | Request t k tx_id now => snd (fst (create_transfer t k tx_id now w))
  | Direct f t a d tx_id now =>
      world_of (snd (execute_transfer f t a d tx_id now (open_session w)))
  | Reversal id tx_id now =>
      world_of (snd (reverse_transaction id tx_id now (open_session w)))
  end.

Definition perform_all (ops : list Operation) (w : World) : World :=
  fold_left (fun acc op => perform op acc) ops w.

End Bank.

(* ===================================================================== *)
(** ** Donation service: pledges and the transactional outbox              *)
(* ===================================================================== *)

Module Donation.

(** app/models.py *)
Record Donation := {
  campaign_id : N;
  donor_email : string;
  d_amount : Z;
  d_currency : string;
  d_status : string;
  d_payment_intent_id : option string;
  d_created_at : Z;
  d_updated_at : Z;
  d_version : Z;
  extra_data : option Json.dict }.

Record OutboxEvent := {
  aggregate_id : N;
  event_type : string;
  payload : Json.dict;
  ob_created_at : Z;
  processed_at : option Z;
  retry_count : Z }.

(** The two tables; the outbox has a serial key and is listed in
    insertion order. *)
Record Database := {
  donations : gmap N Donation;
  outbox_events : list OutboxEvent }.

Record Session := {
  durable : Database;
  pending : Database }.

Definition open_session (d : Database) : Session := {| durable := d; pending := d |}.
Definition commit (db : Session) : Session := {| durable := pending db; pending := pending db |}.
Definition rollback (db : Session) : Session := {| durable := durable db; pending := durable db |}.

(** app/schemas.py, [DonationCreate], after validation. *)
Record DonationCreate := {
  dc_campaign_id : N;
  dc_donor_email : string;
  dc_amount : Z;
  dc_currency : string;
  dc_extra_data : option Json.dict }.

Definition DonationResponse : Type := N * Donation.

(** The calls of [create_donation] that reach the database or build the
    event, each of which may raise. *)
Inductive Step : Type := AtFlush | AtOutbox | AtCommit | AtRefresh.

Definition raises (fault : option (Step * string)) (here : Step) : option string :=
  match fault with
  | Some (AtFlush, msg) => match here with AtFlush => Some msg | _ => None end
  | Some (AtOutbox, msg) => match here with AtOutbox => Some msg | _ => None end
  | Some (AtCommit, msg) => match here with AtCommit => Some msg | _ => None end
  | Some (AtRefresh, msg) => match here with AtRefresh => Some msg | _ => None end
  | None => None
  end.

(** utils/outbox.py, [create_outbox_event]: the event is added to the
    session, not committed. *)
Definition create_outbox_event (now : Z) (db : Session) (id : N) (donation : Donation)
    (kind : string) : OutboxEvent * Session :=
  let event :=
    {| aggregate_id := id;
       event_type := kind;
       payload :=
         [ ("id", Json.Str (Text.str_uuid id));
           ("campaign_id", Json.Str (Text.str_uuid (campaign_id donation)));
           ("donor_email", Json.Str (donor_email donation));
           ("amount", Json.Num (d_amount donation));
           ("currency", Json.Str (d_currency donation));
           ("status", Json.Str (d_status donation));
           ("payment_intent_id", Json.opt_str (d_payment_intent_id donation));
           ("created_at", Json.Str (Text.isoformat (d_created_at donation)));
           ("updated_at", Json.Str (Text.isoformat (d_updated_at donation)));
           ("extra_data",
            match extra_data donation with Some d => Json.Obj d | None => Json.Null end) ];
       ob_created_at := now;
       processed_at := None;
       retry_count := 0 |} in
  (event,
   {| durable := durable db;
      pending := {| donations := donations (pending db);
                    outbox_events := outbox_events (pending db) ++ [event] |} |}).

Definition failed (db : Session) (msg : string) : (exn + DonationResponse) * Database :=
  (inl (HTTPException 500 ("Failed to create donation: " +:+ msg)), durable (rollback db)).

(** app/api/donations.py, [create_donation]. [id] is the fresh [uuid4()];
    [fault] names the call that raises, if one does. *)
Definition create_donation (donation_data : DonationCreate) (id : N) (now : Z)
    (fault : option (Step * string)) (d : Database)
  : (exn + DonationResponse) * Database :=
  let db := open_session d in
  let donation :=
    {| campaign_id := dc_campaign_id donation_data;
       donor_email := dc_donor_email donation_data;
       d_amount := dc_amount donation_data;
       d_currency := dc_currency donation_data;
       d_status := "PENDING";
       d_payment_intent_id := None;
       d_created_at := now;
       d_updated_at := now;
       d_version := 1;
       extra_data := dc_extra_data donation_data |} in
  (* db.add(donation); db.flush() *)
  match raises fault AtFlush, donations (pending db) !! id with
  | Some msg, _ => failed db msg
  | None, Some _ => failed db Bank.duplicate_key
  | None, None =>
      let db1 := {| durable := durable db;
                    pending := {| donations := <[ id := donation ]> (donations (pending db));
                                  outbox_events := outbox_events (pending db) |} |} in
      (* create_outbox_event(db, donation, "DonationCreated") *)
      match raises fault AtOutbox with
      | Some msg => failed db1 msg
      | None =>
          let db2 := snd (create_outbox_event now db1 id donation "DonationCreated") in
          (* db.commit() *)
          match raises fault AtCommit with
          | Some msg => failed db2 msg
          | None =>
              let db3 := commit db2 in
              (* db.refresh(donation) *)
              match raises fault AtRefresh with
              | Some msg => failed db3 msg
              | None => (inr (id, donation), durable db3)
              end
          end
      end
  end.

(** The pledges and the [DonationCreated] events of a database. *)
Definition created_events (d : Database) : list N :=
  aggregate_id <$> filter (fun e => event_type e = "DonationCreated") (outbox_events d).

Fixpoint create_all (calls : list (DonationCreate * N * Z * option (Step * string)))
    (d : Database) : Database :=
  match calls with
  | [] => d
  | (data, id, now, fault) :: rest => create_all rest (snd (create_donation data id now fault d))
  end.

End Donation.

(* ===================================================================== *)
(** ** Notification service: the consumer of donation events               *)
(* ===================================================================== *)

Module Notification.

(** app/models.py *)
Record Notification := {
  donation_id : N;
  recipient : string;
  type : string;
  status : string;
  template_id : option string;
  payload : Json.dict;
  retry_count : Z;
  sent_at : option Z;
  created_at : Z }.

(** The fields that the callback reads from a decoded message; a field
    that is missing reads as [None]. *)
Record Payload := {
  p_id : option string;
  p_donor_email : option string;
  p_amount : option Z;
  p_status : option string;
  p_currency : option string }.

Record Event := {
  ev_event_type : option string;
  ev_payload : option Payload }.

(** A delivery of the broker; [body] is [None] when it is not a JSON object. *)
Record Delivery := {
  delivery_tag : Z;
  body : option Event }.

Record Email := {
  to : string;
  template : string;
  data : Json.dict }.

(** The table of the service, the mails handed to the provider, and the
    acknowledgements returned to the broker. *)
Record State := {
  notifications : gmap N Notification;
  mails : list Email;
  acks : list Z;
  nacks : list Z }.

Definition empty_payload : Payload :=
  {| p_id := None; p_donor_email := None; p_amount := None; p_status := None;
     p_currency := None |}.

(** [uuid.UUID(text)]: prefixes, braces and hyphens are dropped and 32
    hexadecimal digits must remain. *)
Definition strip_prefix (pre s : string) : string :=
  if String.prefix pre s then String.substring (String.length pre)
                                (String.length s - String.length pre) s else s.

Definition keep_hex (s : string) : string :=
  string_of_list_ascii
    (filter (fun c => c <> "-"%char /\ c <> "{"%char /\ c <> "}"%char)
            (list_ascii_of_string s)).

Definition parse_uuid (text : option string) : option N :=
  match text with
  | None => None
  | Some s =>
      let h := keep_hex (strip_prefix "uuid:" (strip_prefix "urn:" s)) in
      if (String.length h =? 32)%nat then Z.to_N <$> Text.parse_hex h else None
  end.

Definition nack (d : Delivery) (s : State) : State :=
  {| notifications := notifications s; mails := mails s; acks := acks s;
     nacks := nacks s ++ [delivery_tag d] |}.

(** utils/email.py, [send_email]: hands the mail over and returns whether
    it was accepted. *)
Definition send_email (accepted : bool) (recipient template_id : string) (data : Json.dict)
    (s : State) : bool * State :=
  (accepted,
   {| notifications := notifications s;
      mails := if accepted
               then mails s ++ [ {| to := recipient; template := template_id; data := data |} ]
               else mails s;
      acks := acks s; nacks := nacks s |}).

(** utils/consumer.py, the [callback] of [consume_donation_events].
    [id] is the fresh [uuid4()], [accepted] the answer of the mail provider.
    Any exception (a body that does not decode, a missing identifier or
    address, a key that is taken) ends in a negative acknowledgement. *)
Definition callback (d : Delivery) (id : N) (now : Z) (accepted : bool) (s : State) : State :=
  match body d with
  | None => nack d s
  | Some event =>
      let fields := default empty_payload (ev_payload event) in
      match parse_uuid (p_id fields), p_donor_email fields with
      | Some donation, Some donor_email =>
          let notification :=
            {| donation_id := donation;
               recipient := donor_email;
               type := "EMAIL";
               status := "PENDING";
               template_id := Some "donation_confirmation";
               payload := [ ("amount", Json.opt_num (p_amount fields));
                            ("status", Json.opt_str (p_status fields));
                            ("donation_id", Json.opt_str (p_id fields)) ];
               retry_count := 0;
               sent_at := None;
               created_at := now |} in
          match notifications s !! id with
          | Some _ => nack d s
          | None =>
              let s1 := {| notifications := <[ id := notification ]> (notifications s);
                           mails := mails s; acks := acks s; nacks := nacks s |} in
              let '(success, s2) :=
                send_email accepted donor_email "donation_confirmation"
                  [ ("amount", Json.opt_num (p_amount fields));
                    ("currency", Json.Str (default "USD" (p_currency fields)));
                    ("status", Json.opt_str (p_status fields)) ] s1 in
              let updated :=
                {| donation_id := donation; recipient := donor_email; type := "EMAIL";
                   status := if success then "SENT" else "FAILED";
                   template_id := Some "donation_confirmation";
                   payload := payload notification;
                   retry_count := if success then 0 else 1;
                   sent_at := if success then Some now else None;
                   created_at := now |} in
              {| notifications := <[ id := updated ]> (notifications s2);
                 mails := mails s2;
                 acks := acks s2 ++ [delivery_tag d];
                 nacks := nacks s2 |}
          end
      | _, _ => nack d s
      end
  end.

(** The rows and the mails that concern one donation. *)
Definition rows_for (donation : N) (s : State) : nat :=
  length (filter (fun kv => donation_id (snd kv) = donation) (map_to_list (notifications s))).

Definition mails_to (address : string) (s : State) : nat :=
  length (filter (fun m => to m = address) (mails s)).

Fixpoint consume (deliveries : list (Delivery * N * Z * bool)) (s : State) : State :=
  match deliveries with
  | [] => s
  | (d, id, now, accepted) :: rest => consume rest (callback d id now accepted s)
  end.

End Notification.

(** ** The vocabulary of the statements on the ledger *)

Module BankSpec.
Import Bank.

(** A session whose pending writes are all committed. *)
Definition clean (db : Session) : Prop := pending db = durable db.

Definition sum_balances (m : gmap N BankAccount) : Z :=
  map_fold (fun _ a acc => balance a + acc) 0 m.

(** The ledger entry that a transfer records. *)
Definition completed_entry (from_id to_id : N) (currency : string) (x : Z)
    (descr : string) (now : Z) : Transaction :=
  {| transaction_type := "TRANSFER";
     from_account_id := Some from_id;
     to_account_id := Some to_id;
     amount := x;
     tx_currency := currency;
     tx_status := "COMPLETED";
     reference := None;
     description := Some descr;
     tx_created_at := now;
     completed_at := Some now |}.

(** The tables after a transfer. *)
Definition moved (a b : N) (ra : BankAccount) (x : Z) (descr : string) (tx_id : N)
    (now : Z) (d : Database) : Database :=
  {| bank_accounts := alter (credit x now) b (alter (debit x now) a (bank_accounts d));
     transactions :=
       <[ tx_id := completed_entry a b (ba_currency ra) x descr now ]> (transactions d);
     transfer_idempotency := transfer_idempotency d |}.

Definition mark_reversed (id : N) (d : Database) : Database :=
  {| bank_accounts := bank_accounts d;
     transactions :=
       alter (fun t => set_tx_status "REVERSED" (completed_at t) t) id (transactions d);
     transfer_idempotency := transfer_idempotency d |}.

Definition reversal_text (id : N) : string :=
  "Reversal of transaction " +:+ Text.str_uuid id.

(** A request that finds no stored response under its key. *)
Definition first_time (t : TransferCreate) (hdr : option string) (now : Z) (w : World)
  : Prop :=
  redis_get now ("transfer:" +:+ transfer_key hdr t now) (cache w) = None
  /\ transfer_idempotency (database w) !! transfer_key hdr t now = None.

End BankSpec.

(** ** The vocabulary of the statements on the webhook *)

Module PaymentSpec.
Import Payment.

(** The response kept for a key by the table. *)
Definition stored (s : Store) (key : string) (body : Json.dict) (status : Z) : Prop :=
  exists rec, idempotency_keys s !! key = Some rec
              /\ response_body rec = body /\ response_status rec = status.

(** The cache holds nothing that the table does not hold. *)
Definition coherent (s : Store) : Prop :=
  forall key e, redis s !! ("idem:" +:+ key) = Some e -> stored s key (ce_body e) (ce_status e).

(** No response is kept for the key, in the cache or in the table. *)
Definition unseen (now : Z) (key : string) (s : Store) : Prop :=
  check_idempotency_cache now key s = None /\ idempotency_keys s !! key = None.

Definition same_tables (s s' : Store) : Prop :=
  payment_transactions s' = payment_transactions s
  /\ payment_state_history s' = payment_state_history s.

Definition history_row (now : Z) (key : string) (pid : N) (ev : WebhookEvent)
    (p : PaymentTransaction) : PaymentStateHistory :=
  {| payment_id := pid;
     from_status := Some (pt_status p);
     to_status := we_status ev;
     event_id := Some key;
     event_timestamp := we_timestamp ev;
     received_at := now;
     psh_version := pt_version p + 1 |}.

(** The tables after the transition that an event asks for was accepted. *)
Definition accepted (now : Z) (key : string) (pid : N) (ev : WebhookEvent)
    (p : PaymentTransaction) (s : Store) : Store :=
  {| payment_transactions := <[ pid := apply_transition now ev p ]> (payment_transactions s);
     payment_state_history := payment_state_history s ++ [history_row now key pid ev p];
     idempotency_keys := idempotency_keys s;
     redis := redis s |}.

Section Effects.

Variable load_event : string -> string + WebhookEvent.

(** What serving a request does to the tables: nothing, or one accepted
    transition of one payment. *)
Inductive effect (now : Z) (req : Request) (s s' : Store) : Prop :=
| Untouched : same_tables s s' -> effect now req s s'
| Transition (ev : WebhookEvent) (pid : N) (p : PaymentTransaction) :
    unseen now (idempotency_key_of req) s ->
    load_event (req_body req) = inr ev ->
    find_payment (we_payment_intent_id ev) s = Some (pid, p) ->
    we_tzinfo ev = None ->
    pt_updated_at p <= we_timestamp ev ->
    validate_state_transition (pt_status p) (we_status ev) = true ->
    same_tables (accepted now (idempotency_key_of req) pid ev p s) s' ->
    effect now req s s'.

(** Requests served by a clock that does not run backwards from [t], none
    of which carries an event stamped later than the clock reads. *)
Fixpoint punctual (t : Z) (reqs : list (Z * Request)) : Prop :=
  match reqs with
  | [] => True
  | (now, req) :: rest =>
      t <= now
      /\ (forall ev, load_event (req_body req) = inr ev -> we_timestamp ev <= now)
      /\ punctual now rest
  end.

End Effects.

End PaymentSpec.

(** ** The vocabulary of the statements on the pledges *)

Module DonationSpec.
Import Donation.

(** Every pledge has its [DonationCreated] event and conversely. *)
Definition paired (d : Database) : Prop :=
  forall id, is_Some (donations d !! id) <-> In id (created_events d).

(** The pledge row that [create_donation] writes. *)
Definition pledge (data : DonationCreate) (now : Z) : Donation :=
  {| campaign_id := dc_campaign_id data;
     donor_email := dc_donor_email data;
     d_amount := dc_amount data;
     d_currency := dc_currency data;
     d_status := "PENDING";
     d_payment_intent_id := None;
     d_created_at := now;
     d_updated_at := now;
     d_version := 1;
     extra_data := dc_extra_data data |}.

(** The transaction reaches its commit. *)
Definition commits (fault : option (Step * string)) (id : N) (d : Database) : Prop :=
  raises fault AtFlush = None /\ raises fault AtOutbox = None
  /\ raises fault AtCommit = None /\ donations d !! id = None.

End DonationSpec.

(* ===================================================================== *)
(** ** Worked scenarios                                                    *)
(* ===================================================================== *)

Module LedgerScenario.
Import Bank.

Definition account (number holder : string) (cents : Z) (state : string) : BankAccount :=
  {| user_id := 0; account_number := number; account_holder_name := holder;
     email := "donor@example.org"; balance := cents; ba_currency := "USD";
     ba_status := state; ba_created_at := 0; ba_updated_at := 0; ba_version := 1 |}.

Definition alice : N := 1.
Definition bob : N := 2.

(** Two active accounts: 500.00 and 100.00. *)
Definition tables : Database :=
  {| bank_accounts :=
       <[ alice := account "2025010100000001" "Alice" 50000 "ACTIVE" ]>
         (<[ bob := account "2025010100000002" "Bob" 10000 "ACTIVE" ]> ∅);
     transactions := ∅;
     transfer_idempotency := ∅ |}.

Definition world : World := {| database := tables; cache := ∅ |}.

(** A request to move 75.00 from the first account to the second. *)
Definition move75 : TransferCreate :=
  {| from_account_number := "2025010100000001";
     to_account_number := "2025010100000002";
     tc_amount := 7500;
     tc_description := None;
     idempotency_key := None |}.

(** 2025-01-01T00:00:00 and one second later, in microseconds. *)
Definition noon : Z := 1735689600000000.
Definition later : Z := 1735689601000000.


(** The ledger called with the stored amount of 75.00, from the first
    account to the second. *)
Definition settled : World :=
  perform (Direct (Some alice) (Some bob) (Decimal 7500) "rent" 77%N noon) world.

End LedgerScenario.

Module WebhookScenario.
Import Payment.

(** 2025-01-01T10:00:00 plus a number of seconds, in microseconds. *)
Definition ten_oclock (seconds : Z) : Z := (1735725600 + seconds) * 1000000.

Definition intent : PaymentTransaction :=
  {| pt_donation_id := 7; payment_intent_id := "pi_X"; pt_amount := 10000;
     pt_currency := "USD"; pt_status := "INITIATED"; pt_gateway := "stripe";
     gateway_response := None; pt_version := 1;
     pt_created_at := ten_oclock 5; pt_updated_at := ten_oclock 5 |}.

(** One payment intent, created at 10:00:05, and nothing else. *)
Definition store : Store :=
  {| payment_transactions := {[ 42%N := intent ]};
     payment_state_history := [];
     idempotency_keys := ∅;
     redis := ∅ |}.

Definition event (proposed : string) (stamp : Z) : WebhookEvent :=
  {| event_type := "payment_intent.updated"; we_payment_intent_id := "pi_X";
     we_status := proposed; we_timestamp := stamp; we_tzinfo := None; we_data := None |}.

(** The bodies that the gateway of the scenarios sends, with their reading. *)
Definition bodies : gmap string WebhookEvent :=
  list_to_map
    [ ("AUTHORIZED at 10:00:02", event "AUTHORIZED" (ten_oclock 2));
      ("CAPTURED at 10:00:02", event "CAPTURED" (ten_oclock 2));
      ("AUTHORIZED at 10:00:06", event "AUTHORIZED" (ten_oclock 6));
      ("CAPTURED at 10:00:08", event "CAPTURED" (ten_oclock 8));
      ("AUTHORIZED at 10:00:20", event "AUTHORIZED" (ten_oclock 20));
      ("CAPTURED at 10:00:20", event "CAPTURED" (ten_oclock 20));
      ("AUTHORIZED at 10:00:02Z",
       {| event_type := "payment_intent.updated"; we_payment_intent_id := "pi_X";
          we_status := "AUTHORIZED"; we_timestamp := ten_oclock 2;
          we_tzinfo := Some 0; we_data := None |}) ].

Definition decode (body : string) : string + WebhookEvent :=
  match bodies !! body with
  | Some ev => inr ev
  | None => inl "Expecting value: line 1 column 1 (char 0)"
  end.

Definition request (body key : string) : Request :=
  {| req_body := body; x_idempotency_key := Some key |}.

Definition post (now : Z) (body key : string) (s : Store) : Response * Store :=
  handle_webhook decode now (request body key) s.

(** The intent is authorized under the key K1, ... *)
Definition authorized : Response * Store :=
  post (ten_oclock 7) "AUTHORIZED at 10:00:06" "K1" store.

(** ... then captured under the key K2, ... *)
Definition captured : Response * Store :=
  post (ten_oclock 9) "CAPTURED at 10:00:08" "K2" (snd authorized).

(** ... and the gateway sends the first event again, under its key. *)
Definition redelivered : Response * Store :=
  post (ten_oclock 30) "AUTHORIZED at 10:00:06" "K1" (snd captured).

(** A capture sent under the key of the authorization. *)
Definition key_reused : Response * Store :=
  post (ten_oclock 9) "CAPTURED at 10:00:08" "K1" (snd authorized).

Definition status_of (s : Store) : option string :=
  pt_status <$> payment_transactions s !! 42%N.

Definition version_in (s : Store) : option Z :=
  pt_version <$> payment_transactions s !! 42%N.

Definition updated_in (s : Store) : option Z :=
  pt_updated_at <$> payment_transactions s !! 42%N.

(** The clock of the gateway is ahead: an authorization stamped 10:00:20 is
    served at 10:00:07, ... *)
Definition ahead : Response * Store :=
  post (ten_oclock 7) "AUTHORIZED at 10:00:20" "K3" store.

(** ... and the capture, which carries the same stamp, at 10:00:09. *)
Definition same_stamp : Response * Store :=
  post (ten_oclock 9) "CAPTURED at 10:00:20" "K4" (snd ahead).

End WebhookScenario.

Module NotificationScenario.
Import Notification.

Definition donation_text : string := "3f2a9c1e-5b7d-4e8f-9a0b-1c2d3e4f5a6b".

(** A [DonationCreated] message for a pledge of 100.00. *)
Definition message (tag : Z) : Delivery :=
  {| delivery_tag := tag;
     body := Some {| ev_event_type := Some "DonationCreated";
                     ev_payload := Some {| p_id := Some donation_text;
                                           p_donor_email := Some "donor@example.org";
                                           p_amount := Some 10000;
                                           p_status := Some "PENDING";
                                           p_currency := Some "USD" |} |} |}.

Definition idle : State := {| notifications := ∅; mails := []; acks := []; nacks := [] |}.

(** The broker delivers the same message twice. *)
Definition delivered_twice : State :=
  consume [ (message 1, 101%N, 0, true); (message 2, 102%N, 5000000, true) ] idle.

Definition donation : N := default 0%N (parse_uuid (Some donation_text)).

End NotificationScenario.

(* ===================================================================== *)
(** ** Payment service: the other endpoints of the intents                 *)
(* ===================================================================== *)

Module PaymentApi.
Import Payment.

(** app/schemas.py *)
Record PaymentIntentCreate := {
  pic_donation_id : N;
  pic_amount : Z;
  pic_currency : string;
  pic_gateway : string }.

(** [f"pi_{uuid.uuid4().hex[:24]}"] *)
Definition intent_name (u : N) : string :=
  "pi_" +:+ String.substring 0 24 (Text.hex_fixed 32 (Z.of_N u)).

(** The row that [create_payment_intent] adds; the columns [version],
    [created_at] and [updated_at] take their defaults. *)
Definition initiated (data : PaymentIntentCreate) (name : string) (now : Z)
  : PaymentTransaction :=
  {| pt_donation_id := pic_donation_id data;
     payment_intent_id := name;
     pt_amount := pic_amount data;
     pt_currency := pic_currency data;
     pt_status := "INITIATED";
     pt_gateway := pic_gateway data;
     gateway_response := Some [("client_secret", Json.Str (name +:+ "_secret_xxx"))];
     pt_version := 1;
     pt_created_at := now;
     pt_updated_at := now |}.

(** [create_payment_intent]: [u] and [id] are the two [uuid4()] drawn, in
    that order. The commit fails on a primary key or on a
    [payment_intent_id] that is taken (the column is unique); the handler
    then rolls back and answers 500. The response carries the row. *)
Definition create_payment_intent (data : PaymentIntentCreate) (u id : N) (now : Z)
    (s : Store) : (exn + N * PaymentTransaction) * Store :=
  let name := intent_name u in
  let payment := initiated data name now in
  match payment_transactions s !! id, find_payment name s with
  | None, None =>
      (inr (id, payment),
       {| payment_transactions := <[ id := payment ]> (payment_transactions s);
          payment_state_history := payment_state_history s;
          idempotency_keys := idempotency_keys s;
          redis := redis s |})
  | _, _ =>
      (inl (HTTPException 500
              ("Failed to create payment intent: " +:+ Bank.duplicate_key)), s)
  end.

(** [get_payment_status] *)
Definition get_payment_status (payment_id : N) (s : Store)
  : exn + N * PaymentTransaction :=
  match payment_transactions s !! payment_id with
  | None => inl (HTTPException 404 "Payment not found")
  | Some payment => inr (payment_id, payment)
  end.

(** [refund_payment]: only a captured intent is refunded. No row is added to
    [payment_state_history] and no idempotency key is read or kept. *)
Definition refund_payment (payment_id : N) (now : Z) (s : Store)
  : (exn + Json.dict) * Store :=
  match payment_transactions s !! payment_id with
  | None => (inl (HTTPException 404 "Payment not found"), s)
  | Some payment =>
      if negb (bool_decide (pt_status payment = "CAPTURED")) then
        (inl (HTTPException 400
                ("Cannot refund payment in status: " +:+ pt_status payment)), s)
      else
        let refunded :=
          {| pt_donation_id := pt_donation_id payment;
             payment_intent_id := payment_intent_id payment;
             pt_amount := pt_amount payment;
             pt_currency := pt_currency payment;
             pt_status := "REFUNDED";
             pt_gateway := pt_gateway payment;
             gateway_response := gateway_response payment;
             pt_version := pt_version payment + 1;
             pt_created_at := pt_created_at payment;
             pt_updated_at := now |} in
        (inr [("status", Json.Str "success"); ("message", Json.Str "Refund initiated")],
         {| payment_transactions := <[ payment_id := refunded ]> (payment_transactions s);
            payment_state_history := payment_state_history s;
            idempotency_keys := idempotency_keys s;
            redis := redis s |})
  end.

(** utils/messaging.py, [publish_payment_event]: the routing key of the
    message. *)
Definition routing_key (event_type : string) : string :=
  "payment." +:+ Text.lower event_type.

Section Service.

Variable load_event : string -> string + WebhookEvent.

(** The calls that the service answers. *)
Inductive Call :=
| CreateIntent (data : PaymentIntentCreate) (u id : N) (now : Z)
| Webhook (now : Z) (req : Request)
| Refund (payment_id : N) (now : Z).

Definition serve (c : Call) (s : Store) : Store :=
  match c with
  | CreateIntent data u id now => snd (create_payment_intent data u id now s)
  | Webhook now req => snd (handle_webhook load_event now req s)
  | Refund payment_id now => snd (refund_payment payment_id now s)
  end.

Definition serve_all (calls : list Call) (s : Store) : Store :=
  fold_left (fun acc c => serve c acc) calls s.

End Service.

(** The number of transitions that a status can still go through. *)
Definition steps_left (status : string) : Z :=
  if bool_decide (status = "INITIATED") then 3
  else if bool_decide (status = "AUTHORIZED") then 2
  else if bool_decide (status = "CAPTURED") then 1
  else 0.

(** The statuses of [path], one after the other, are a walk in the
    transition graph that starts from [cur]. *)
Fixpoint walks (cur : string) (path : list string) : bool :=
  match path with
  | [] => true
  | next :: rest => validate_state_transition cur next && walks next rest
  end.

(** No two intents share a [payment_intent_id]. *)
Definition unique_intents (s : Store) : Prop :=
  forall i j p q,
    payment_transactions s !! i = Some p -> payment_transactions s !! j = Some q ->
    payment_intent_id p = payment_intent_id q -> i = j.

(** The transition records of one intent. *)
Definition records_of (pid : N) (h : list PaymentStateHistory) : list PaymentStateHistory :=
  filter (fun r => payment_id r = pid) h.

End PaymentApi.

(* ===================================================================== *)
(** ** Bank service: accounts and the reading endpoints                    *)
(* ===================================================================== *)

Module BankApi.
Import Bank.

(** app/schemas.py, [AccountCreate], after validation. *)
Record AccountCreate := {
  ac_user_id : N;
  ac_account_holder_name : string;
  ac_email : string;
  initial_deposit : Z }.

(** utils/validation.py, [generate_account_number]: the date of the clock
    as [%Y%m%d], then [sequence], the number drawn by
    [random.randint(10000000, 99999999)]. *)
Definition generate_account_number (today : Z) (sequence : Z) : string :=
  let '(y, m, d) := Text.civil_from_days (today / 1000000 / 86400) in
  Text.str_padded 4 y +:+ Text.str_padded 2 m +:+ Text.str_padded 2 d
  +:+ Text.str_int sequence.

(** utils/ledger.py, [get_account_balance] *)
Definition get_account_balance (account_id : N) (d : Database) : exn + Z :=
  match bank_accounts d !! account_id with
  | None => inl (ValueError "Account not found")
  | Some account => inr (balance account)
  end.

(** [db.query(BankAccount).filter(BankAccount.user_id == ...).first()] *)
Definition find_user (user : N) (d : Database) : option (N * BankAccount) :=
  snd <$> list_find (fun kv => user_id (snd kv) = user) (map_to_list (bank_accounts d)).

(** The row that [create_account] adds; the columns [currency], [version],
    [created_at] and [updated_at] take their defaults. *)
Definition opened (account_data : AccountCreate) (number : string) (now : Z) : BankAccount :=
  {| user_id := ac_user_id account_data;
     account_number := number;
     account_holder_name := ac_account_holder_name account_data;
     email := ac_email account_data;
     balance := initial_deposit account_data;
     ba_currency := "USD";
     ba_status := "ACTIVE";
     ba_created_at := now;
     ba_updated_at := now;
     ba_version := 1 |}.

Definition with_accounts (accounts : gmap N BankAccount) (w : World) : World :=
  {| database := {| bank_accounts := accounts;
                    transactions := transactions (database w);
                    transfer_idempotency := transfer_idempotency (database w) |};
     cache := cache w |}.

(** app/api/accounts.py, [create_account]. [today] is the clock that
    [generate_account_number] reads, [sequence] the number it draws, [id]
    the fresh [uuid4()], [now] the clock at the insertion. The commit fails
    on a primary key or an account number that is taken; the handler then
    rolls back and answers 500. *)
Definition create_account (account_data : AccountCreate) (today sequence : Z) (id : N)
    (now : Z) (w : World) : (exn + N * BankAccount) * World :=
  match find_user (ac_user_id account_data) (database w) with
  | Some _ => (inl (HTTPException 400 "User already has a bank account"), w)
  | None =>
      let account_number := generate_account_number today sequence in
      let account := opened account_data account_number now in
      match bank_accounts (database w) !! id, find_account account_number (database w) with
      | None, None =>
          (inr (id, account), with_accounts (<[ id := account ]> (bank_accounts (database w))) w)
      | _, _ =>
          (inl (HTTPException 500 ("Failed to create account: " +:+ duplicate_key)), w)
      end
  end.

(** app/api/accounts.py, [get_account] *)
Definition get_account (account_number : string) (w : World) : exn + N * BankAccount :=
  match find_account account_number (database w) with
  | None => inl (HTTPException 404 "Account not found")
  | Some account => inr account
  end.

(** app/api/transactions.py, [get_transaction] *)
Definition get_transaction (transaction_id : N) (w : World) : exn + TransactionResponse :=
  match transactions (database w) !! transaction_id with
  | None => inl (HTTPException 404 "Transaction not found")
  | Some transaction => inr (transaction_id, transaction)
  end.

(** utils/events.py, [publish_transfer_event]: the routing key. *)
Definition routing_key (event_type : string) : string :=
  "bank." +:+ Text.lower event_type.

(** The calls that the service answers: the operations of the ledger and
    the opening of an account. *)
Inductive Call :=
| Ledger (op : Operation)
| OpenAccount (account_data : AccountCreate) (today sequence : Z) (id : N) (now : Z).

Definition serve (c : Call) (w : World) : World :=
  match c with
  | Ledger op => perform op w
  | OpenAccount data today sequence id now => snd (create_account data today sequence id now w)
  end.

Definition serve_all (calls : list Call) (w : World) : World :=
  fold_left (fun acc c => serve c acc) calls w.

(** Every user holds at most one account, and every number names at most
    one account. *)
Definition one_account_each (w : World) : Prop :=
  forall i j a b,
    bank_accounts (database w) !! i = Some a -> bank_accounts (database w) !! j = Some b ->
    user_id a = user_id b \/ account_number a = account_number b -> i = j.

(** The rows of [m'] are rows of [m], with the same holder and number. *)
Definition same_holders (m m' : gmap N BankAccount) : Prop :=
  forall j b', m' !! j = Some b' ->
    exists b, m !! j = Some b /\ user_id b = user_id b'
              /\ account_number b = account_number b'.

End BankApi.

Module IntentScenario.
Import Payment PaymentApi.

(** A pledge of 100.00 to be paid through Stripe. *)
Definition order : PaymentIntentCreate :=
  {| pic_donation_id := 7; pic_amount := 10000; pic_currency := "USD";
     pic_gateway := "stripe" |}.

(** The intent of the webhook scenario, captured and then refunded. *)
Definition refunded : Store :=
  snd (refund_payment 42%N (WebhookScenario.ten_oclock 20) (snd WebhookScenario.captured)).

(** A capture sent again under a new key, a second refund, and a new intent. *)
Definition calls : list Call :=
  [ Webhook (WebhookScenario.ten_oclock 30)
      (WebhookScenario.request "CAPTURED at 10:00:08" "K7");
    Refund 42%N (WebhookScenario.ten_oclock 40);
    CreateIntent order 5%N 43%N (WebhookScenario.ten_oclock 50) ].

(** The life of the intent of the webhook scenario: authorized, captured,
    refunded. *)
Definition life : list Call :=
  [ Webhook (WebhookScenario.ten_oclock 7)
      (WebhookScenario.request "AUTHORIZED at 10:00:06" "K1");
    Webhook (WebhookScenario.ten_oclock 9)
      (WebhookScenario.request "CAPTURED at 10:00:08" "K2");
    Refund 42%N (WebhookScenario.ten_oclock 20) ].

End IntentScenario.

Module AccountScenario.
Import Bank BankApi.

Definition nothing : World :=
  {| database := {| bank_accounts := ∅; transactions := ∅; transfer_idempotency := ∅ |};
     cache := ∅ |}.

Definition carol : AccountCreate :=
  {| ac_user_id := 11; ac_account_holder_name := "Carol";
     ac_email := "carol@example.org"; initial_deposit := 50000 |}.

Definition dave : AccountCreate :=
  {| ac_user_id := 12; ac_account_holder_name := "Dave";
     ac_email := "dave@example.org"; initial_deposit := 0 |}.

(** 75.00 from the account of Carol to the account of Dave. *)
Definition pay_dave : TransferCreate :=
  {| from_account_number := "2025010112345678";
     to_account_number := "2025010187654321";
     tc_amount := 7500;
     tc_description := Some "rent";
     idempotency_key := None |}.

(** Two accounts are opened, a second one is asked for Carol, and 75.00 are
    asked to go from the first account to the second. *)
Definition opening : list Call :=
  [ OpenAccount carol LedgerScenario.noon 12345678 1%N LedgerScenario.noon;
    OpenAccount dave LedgerScenario.noon 87654321 2%N LedgerScenario.noon;
    OpenAccount carol LedgerScenario.later 55555555 3%N LedgerScenario.later;
    Ledger (Request pay_dave (Some "key-9") 70%N LedgerScenario.later) ].

(** A request for 600.00 from an account that holds 500.00. *)
Definition move600 : TransferCreate :=
  {| from_account_number := "2025010100000001";
     to_account_number := "2025010100000002";
     tc_amount := 60000;
     tc_description := None;
     idempotency_key := None |}.

End AccountScenario.

(* ===================================================================== *)
(** * Properties                                                           *)
(* ===================================================================== *)

(** ** The hash agrees with the published test vectors *)

Example sha256_empty :
Sha256.hexdigest "" = "e3b0c44298fc1c149afbf4c8996fb92427ae41e4649b934ca495991b7852b855".
Proof. vm_compute. reflexivity. Qed.

Example sha256_abc :
Sha256.hexdigest "abc" = "ba7816bf8f01cfea414140de5dae2223b00361a396177a9cb410ff61f20015ad".
Proof. vm_compute. reflexivity. Qed.

Example sha256_two_blocks :
Sha256.hexdigest "abcdbcdecdefdefgefghfghighijhijkijkljklmklmnlmnomnopnopq"
= "248d6a61d20638b8e5c026930c3e6039a33ce45964ff2167f6ecedd419db06c1".
Proof. vm_compute. reflexivity. Qed.

(* ===================================================================== *)
(** ** Ledger                                                              *)
(* ===================================================================== *)

Module BankFacts.
Import Bank BankSpec.

Lemma clean_open w : clean (open_session w).
Proof. reflexivity. Qed.

Lemma clean_commit db : clean (commit db).
Proof. reflexivity. Qed.

Lemma clean_rollback db : clean (rollback db).
Proof. reflexivity. Qed.

Create HintDb ledger.
#[export] Hint Resolve clean_open clean_commit clean_rollback : ledger.

(** *** Sums of balances *)

Lemma sum_balances_insert (m : gmap N BankAccount) i a :
  m !! i = None -> sum_balances (<[i:=a]> m) = balance a + sum_balances m.
Proof.
  intros Hi. unfold sum_balances.
  rewrite map_fold_insert_L; [reflexivity | | assumption].
  intros. lia.
Qed.

Lemma sum_balances_alter (m : gmap N BankAccount) i a f :
  m !! i = Some a ->
  sum_balances (alter f i m) = sum_balances m - balance a + balance (f a).
Proof.
  intros Hi.
  assert (Hm : m = <[i:=a]> (delete i m)) by (symmetry; by apply insert_delete_id).
  rewrite Hm at 1 2.
  rewrite alter_insert_eq.
  rewrite !sum_balances_insert by apply lookup_delete_eq.
  lia.
Qed.

Lemma sum_balances_move (m : gmap N BankAccount) a b ra rb x now :
  m !! a = Some ra -> m !! b = Some rb ->
  sum_balances (alter (credit x now) b (alter (debit x now) a m)) = sum_balances m.
Proof.
  intros Ha Hb.
  destruct (decide (a = b)) as [->|Hne].
  - rewrite (sum_balances_alter _ b (debit x now ra)).
    + rewrite (sum_balances_alter _ b ra) by assumption. simpl. lia.
    + by rewrite lookup_alter_eq, Ha.
  - rewrite (sum_balances_alter _ b rb).
    + rewrite (sum_balances_alter _ a ra) by assumption. simpl. lia.
    + by rewrite lookup_alter_ne.
Qed.

(** *** Rows reached through queries *)

Lemma load_account_Some ref d id a :
  load_account ref d = Some (id, a) <-> ref = Some id /\ bank_accounts d !! id = Some a.
Proof.
  unfold load_account. split.
  - destruct ref as [i|]; [|discriminate].
    destruct (bank_accounts d !! i) eqn:E; [|discriminate].
    intros [= <- <-]. auto.
  - intros [-> ->]. reflexivity.
Qed.

Lemma find_account_Some number d id a :
  find_account number d = Some (id, a) ->
  bank_accounts d !! id = Some a /\ account_number a = number.
Proof.
  unfold find_account. intros H.
  apply fmap_Some in H as [[i [k x]] [Hfind Heq]]. simpl in Heq.
  injection Heq as <- <-.
  apply list_find_Some in Hfind as (Hl & Hp & _).
  split; [|exact Hp].
  apply elem_of_map_to_list. eapply list_elem_of_lookup_2. exact Hl.
Qed.

(** *** [execute_transfer] *)

Lemma execute_transfer_ok db a b ra rb x descr tx_id now :
  bank_accounts (pending db) !! a = Some ra ->
  bank_accounts (pending db) !! b = Some rb ->
  transactions (pending db) !! tx_id = None ->
  execute_transfer (Some a) (Some b) (Decimal x) descr tx_id now db
  = (inr (tx_id, completed_entry a b (ba_currency ra) x descr now),
     commit (with_pending (moved a b ra x descr tx_id now (pending db)) db)).
Proof.
  intros Ha Hb Hfresh. unfold execute_transfer, load_account.
  rewrite Ha, Hb, Hfresh. reflexivity.
Qed.

(** A float amount between two rows of the session: the first update raises. *)
Lemma execute_transfer_float db a b ra rb k descr tx_id now :
  bank_accounts (pending db) !! a = Some ra ->
  bank_accounts (pending db) !! b = Some rb ->
  transactions (pending db) !! tx_id = None ->
  execute_transfer (Some a) (Some b) (Float k) descr tx_id now db
  = (inl (Exception ("Transfer failed: " +:+ decimal_minus_float)), commit (rollback db)).
Proof.
  intros Ha Hb Hfresh. unfold execute_transfer, load_account.
  rewrite Ha, Hb, Hfresh. reflexivity.
Qed.

Lemma execute_transfer_inv f t amount descr tx_id now db r db' :
  execute_transfer f t amount descr tx_id now db = (inr r, db') ->
  exists a b ra rb x,
    f = Some a /\ t = Some b /\ amount = Decimal x /\
    bank_accounts (pending db) !! a = Some ra /\
    bank_accounts (pending db) !! b = Some rb /\
    transactions (pending db) !! tx_id = None /\
    r = (tx_id, completed_entry a b (ba_currency ra) x descr now) /\
    db' = commit (with_pending (moved a b ra x descr tx_id now (pending db)) db).
Proof.
  unfold execute_transfer.
  destruct (load_account f (pending db)) as [[a ra]|] eqn:Hf; [|discriminate].
  destruct (load_account t (pending db)) as [[b rb]|] eqn:Ht; [|discriminate].
  destruct (transactions (pending db) !! tx_id) eqn:Hx; [discriminate|].
  destruct amount as [x|k]; [|discriminate].
  apply load_account_Some in Hf as [-> Ha]. apply load_account_Some in Ht as [-> Hb].
  intros [= <- <-]. exists a, b, ra, rb, x. repeat split; auto.
Qed.

Lemma execute_transfer_failure f t amount descr tx_id now db e db' :
  execute_transfer f t amount descr tx_id now db = (inl e, db') ->
  durable db' = durable db /\ pending db' = durable db /\ redis db' = redis db
  /\ exists msg, e = Exception msg.
Proof.
  unfold execute_transfer.
  destruct (load_account f (pending db)) as [[a ra]|];
    [destruct (load_account t (pending db)) as [[b rb]|];
     [destruct (transactions (pending db) !! tx_id); [|destruct amount]|]|];
    intros [= <- <-]; simpl; eauto 6.
Qed.

Lemma balance_of_moved_from a b ra x descr tx_id now d :
  bank_accounts d !! a = Some ra -> a <> b ->
  balance_of a (moved a b ra x descr tx_id now d) = Some (balance ra - x)
  /\ version_of a (moved a b ra x descr tx_id now d) = Some (ba_version ra + 1).
Proof.
  intros Ha Hne. unfold balance_of, version_of, moved. simpl.
  rewrite lookup_alter_ne by congruence. rewrite lookup_alter_eq, Ha. auto.
Qed.

Lemma balance_of_moved_to a b ra rb x descr tx_id now d :
  bank_accounts d !! b = Some rb -> a <> b ->
  balance_of b (moved a b ra x descr tx_id now d) = Some (balance rb + x)
  /\ version_of b (moved a b ra x descr tx_id now d) = Some (ba_version rb + 1).
Proof.
  intros Hb Hne. unfold balance_of, version_of, moved. simpl.
  rewrite lookup_alter_eq. rewrite lookup_alter_ne by congruence. rewrite Hb. auto.
Qed.

Lemma balance_of_moved_other a b c ra x descr tx_id now d :
  c <> a -> c <> b ->
  bank_accounts (moved a b ra x descr tx_id now d) !! c = bank_accounts d !! c.
Proof.
  intros. unfold moved. simpl. by rewrite !lookup_alter_ne by congruence.
Qed.

Lemma total_balance_moved a b ra rb x descr tx_id now d :
  bank_accounts d !! a = Some ra -> bank_accounts d !! b = Some rb ->
  total_balance (moved a b ra x descr tx_id now d) = total_balance d.
Proof. intros. unfold total_balance, moved. simpl. by eapply sum_balances_move. Qed.

(** Whatever its outcome, a transfer leaves a clean session and keeps the
    sum of the balances. *)
Lemma execute_transfer_total f t x descr tx_id now db :
  clean db ->
  let db' := snd (execute_transfer f t x descr tx_id now db) in
  clean db' /\ total_balance (durable db') = total_balance (durable db).
Proof.
  intros Hc.
  destruct (execute_transfer f t x descr tx_id now db) as [[e|r] db'] eqn:E; simpl.
  - apply execute_transfer_failure in E as (Hd & Hp & _). unfold clean.
    rewrite Hd, Hp. auto.
  - apply execute_transfer_inv in E
      as (a & b & ra & rb & y & _ & _ & _ & Ha & Hb & _ & _ & ->).
    split; [auto with ledger|]. simpl.
    rewrite (total_balance_moved a b ra rb) by assumption. by rewrite Hc.
Qed.

(** *** [reverse_transaction] *)

Lemma reverse_transaction_ok db id orig a b ra rb tx_id now :
  transactions (pending db) !! id = Some orig ->
  tx_status orig = "COMPLETED" ->
  transaction_type orig = "TRANSFER" ->
  from_account_id orig = Some a ->
  to_account_id orig = Some b ->
  bank_accounts (pending db) !! a = Some ra ->
  bank_accounts (pending db) !! b = Some rb ->
  transactions (pending db) !! tx_id = None ->
  let db1 := commit (with_pending
                       (moved b a rb (amount orig) (reversal_text id) tx_id now (pending db)) db) in
  reverse_transaction id tx_id now db
  = (inr (tx_id, completed_entry b a (ba_currency rb) (amount orig) (reversal_text id) now),
     commit (with_pending (mark_reversed id (pending db1)) db1)).
Proof.
  intros Ho Hs Ht Hf Hto Ha Hb Hfresh db1. unfold reverse_transaction.
  rewrite Ho, Hs, Ht, Hf, Hto. simpl.
  rewrite Ha, Hb. simpl.
  change ("Reversal of transaction " +:+ Text.str_uuid id) with (reversal_text id).
  rewrite (execute_transfer_ok db b a rb ra) by assumption.
  reflexivity.
Qed.

Lemma reverse_transaction_rejects db id orig tx_id now :
  transactions (pending db) !! id = Some orig ->
  tx_status orig <> "COMPLETED" \/ transaction_type orig <> "TRANSFER" ->
  exists msg, reverse_transaction id tx_id now db = (inl (ValueError msg), db).
Proof.
  intros Ho Hbad. unfold reverse_transaction. rewrite Ho.
  destruct (decide (tx_status orig = "COMPLETED")) as [Hs|Hs].
  - rewrite bool_decide_eq_true_2 by assumption. simpl.
    destruct Hbad as [Hbad|Hbad]; [contradiction|].
    rewrite bool_decide_eq_false_2 by assumption. simpl. eauto.
  - rewrite bool_decide_eq_false_2 by assumption. simpl. eauto.
Qed.

Lemma reverse_transaction_missing db id tx_id now :
  transactions (pending db) !! id = None ->
  reverse_transaction id tx_id now db = (inl (ValueError "Transaction not found"), db).
Proof. intros Ho. unfold reverse_transaction. by rewrite Ho. Qed.

Lemma reverse_transaction_total id tx_id now db :
  clean db ->
  let db' := snd (reverse_transaction id tx_id now db) in
  clean db' /\ total_balance (durable db') = total_balance (durable db).
Proof.
  intros Hc. unfold reverse_transaction.
  destruct (transactions (pending db) !! id) as [orig|]; [|by auto].
  destruct (negb (bool_decide (tx_status orig = "COMPLETED"))); [by auto|].
  destruct (negb (bool_decide (transaction_type orig = "TRANSFER"))); [by auto|].
  match goal with |- context [execute_transfer ?f ?t ?x ?d ?i ?n ?s] =>
    pose proof (execute_transfer_total f t x d i n s Hc) as [Hc' Ht];
    destruct (execute_transfer f t x d i n s) as [[e|r] db1]
  end; simpl in *; [by auto|].
  split; [auto with ledger|]. rewrite <- Ht, <- Hc'. reflexivity.
Qed.

(** *** [validate_transfer] *)

Lemma validate_transfer_spec f t x :
  fst (validate_transfer f t x) = true
  <-> ba_status (snd f) = "ACTIVE" /\ ba_status (snd t) = "ACTIVE"
      /\ decimal_lt (balance (snd f)) x = false /\ fst f <> fst t
      /\ ba_currency (snd f) = ba_currency (snd t).
Proof.
  unfold validate_transfer, validate_account_status, validate_sufficient_balance.
  destruct (decimal_lt (balance (snd f)) x);
    repeat case_bool_decide; simpl; split; intros; try discriminate;
    intuition (try discriminate; try congruence).
Qed.

(** *** Comparing a balance with a float *)

Lemma round_half_even_bounds num den :
  0 < den ->
  2 * num - den <= 2 * den * round_half_even num den <= 2 * num + den.
Proof.
  intros Hden. unfold round_half_even.
  pose proof (Z.div_mod num den ltac:(lia)) as Hdm.
  pose proof (Z.mod_pos_bound num den Hden) as Hm.
  destruct (Z.ltb_spec (2 * (num mod den)) den); [nia|].
  destruct (Z.ltb_spec den (2 * (num mod den))); [nia|].
  destruct (Z.even (num / den)); nia.
Qed.

(** Below 2^53 cents a float amount is told from every balance but its own
    number of cents: a balance below it is short, a balance above it is
    enough. *)
Lemma decimal_lt_float c k :
  0 < k < 2 ^ 53 -> c <> k -> decimal_lt c (Float k) = (c <? k).
Proof.
  intros [Hk0 Hk] Hne. unfold decimal_lt.
  destruct (Z.eqb_spec k 0); [lia|].
  rewrite Z.abs_eq by lia. unfold nearest_double.
  pose proof (Z.log2_spec k Hk0) as [Hlo Hhi].
  assert (Hlog : 0 <= Z.log2 k < 53).
  { split; [apply Z.log2_nonneg|]. apply Z.log2_lt_pow2; lia. }
  set (s1 := 59 - Z.log2 k) in *.
  assert (Hs1 : 6 < s1) by lia.
  destruct (Z.leb_spec 0 s1) as [_|]; [|lia]. cbn [fst snd].
  set (s := if k * 2 ^ s1 <? 2 ^ 53 * 100 then s1 else s1 - 1).
  assert (Hs : 6 <= s) by (unfold s; destruct (_ <? _); lia).
  destruct (Z.leb_spec 0 s) as [_|]; [|lia]. cbn [fst snd].
  destruct (Z.ltb_spec 0 k) as [_|]; [|lia].
  pose proof (round_half_even_bounds (k * 2 ^ s) 100 ltac:(lia)) as Hr.
  set (m := round_half_even (k * 2 ^ s) 100) in *.
  assert (Hpow : 64 <= 2 ^ s).
  { change 64 with (2 ^ 6). apply Z.pow_le_mono_r; lia. }
  destruct (Z.ltb_spec c k); destruct (Z.ltb_spec (c * 2 ^ s) (100 * m)); try reflexivity; nia.
Qed.

(** *** [create_transfer] *)

(** A request that finds no response under its key ends in an error and
    leaves the world as it was: the accounts are missing, the transfer is
    refused, or the ledger raises on the float amount. *)
Lemma create_transfer_first_time t hdr tx_id now w :
  first_time t hdr now w ->
  exists status detail cps,
    create_transfer t hdr tx_id now w = (inl (HTTPException status detail), w, cps)
    /\ Forall (fun c => c = w) cps
    /\ (status = 404 \/ status = 400 \/ status = 500)
    /\ (forall from_row to_row,
          find_account (from_account_number t) (database w) = Some from_row ->
          find_account (to_account_number t) (database w) = Some to_row ->
          fst (validate_transfer from_row to_row (Float (tc_amount t))) = true ->
          transactions (database w) !! tx_id = None ->
          status = 500
          /\ detail = "Transfer failed: Transfer failed: " +:+ decimal_minus_float
          /\ cps = [w]).
Proof.
  intros [Hm1 Hm2]. unfold create_transfer, create_transfer_in. simpl.
  rewrite Hm1, Hm2. destruct w as [d c]. simpl in *.
  destruct (find_account (from_account_number t) d) as [[a ra]|] eqn:Hf.
  2:{ eexists _, _, _. split; [reflexivity|]. split; [constructor|]. split; [auto|].
      intros ? ? [=]. }
  destruct (find_account (to_account_number t) d) as [[b rb]|] eqn:Ht.
  2:{ eexists _, _, _. split; [reflexivity|]. split; [constructor|]. split; [auto|].
      intros ? ? _ [=]. }
  destruct (validate_transfer (a, ra) (b, rb) (Float (tc_amount t))) as [ok msg] eqn:Hv.
  destruct ok; simpl.
  2:{ eexists _, _, _. split; [reflexivity|]. split; [constructor|]. split; [auto|].
      intros ? ? [= <-] [= <-]. rewrite Hv. discriminate. }
  apply find_account_Some in Hf as [Ha _]. apply find_account_Some in Ht as [Hb _].
  unfold execute_transfer, load_account. simpl. rewrite Ha, Hb.
  destruct (transactions d !! tx_id) eqn:Hx; simpl.
  - eexists _, _, _. split; [reflexivity|]. split; [repeat constructor|]. split; [auto|].
    intros ? ? _ _ _ [=].
  - eexists _, _, _. split; [reflexivity|]. split; [repeat constructor|]. split; [auto|].
    intros ? ? _ _ _ _. auto.
Qed.

Lemma create_transfer_in_total t hdr tx_id now db :
  clean db ->
  total_balance (durable (snd (create_transfer_in t hdr tx_id now db)))
  = total_balance (durable db).
Proof.
  intros Hc. unfold create_transfer_in.
  destruct (redis_get _ _ _); [reflexivity|].
  destruct (transfer_idempotency (pending db) !! _); [reflexivity|].
  destruct (find_account (from_account_number t) (pending db)) as [from_row|]; [|reflexivity].
  destruct (find_account (to_account_number t) (pending db)) as [to_row|]; [|reflexivity].
  destruct (validate_transfer from_row to_row (Float (tc_amount t))) as [ok msg].
  destruct ok; simpl; [|reflexivity].
  match goal with |- context [execute_transfer ?f ?to ?x ?d ?i ?n ?s] =>
    pose proof (execute_transfer_total f to x d i n s Hc) as [Hc' Ht];
    destruct (execute_transfer f to x d i n s) as [[e|r] db1]
  end; simpl in *.
  - destruct e; simpl; assumption.
  - destruct (transfer_idempotency (pending db1) !! _); simpl; [assumption|].
    rewrite <- Ht, <- Hc'. reflexivity.
Qed.

(** *** Sequences of operations *)

Lemma perform_total op w :
  total_balance (database (perform op w)) = total_balance (database w).
Proof.
  destruct op as [t k tx_id now | f t a d tx_id now | id tx_id now]; simpl.
  - unfold create_transfer.
    pose proof (create_transfer_in_total t k tx_id now (open_session w) (ltac:(auto with ledger))) as H.
    destruct (create_transfer_in t k tx_id now (open_session w)) as [o db]. exact H.
  - apply (execute_transfer_total f t a d tx_id now (open_session w) (ltac:(auto with ledger))).
  - apply (reverse_transaction_total id tx_id now (open_session w) (ltac:(auto with ledger))).
Qed.

Lemma perform_all_total ops : forall w,
  total_balance (database (perform_all ops w)) = total_balance (database w).
Proof.
  induction ops as [|op ops IH]; intros w; [reflexivity|].
  unfold perform_all in *. simpl. rewrite IH. apply perform_total.
Qed.

End BankFacts.

(** ** Properties of the ledger *)

Lemma roundtrip_balances (m : gmap N Bank.BankAccount) a b ra rb x n1 n2 :
  m !! a = Some ra -> m !! b = Some rb ->
  let m' := alter (Bank.credit x n2) a (alter (Bank.debit x n2) b
              (alter (Bank.credit x n1) b (alter (Bank.debit x n1) a m))) in
  Bank.balance <$> m' !! a = Some (Bank.balance ra)
  /\ Bank.balance <$> m' !! b = Some (Bank.balance rb).
Proof.
  intros Ha Hb m'. subst m'.
  destruct (decide (a = b)) as [->|Hne].
  - rewrite !lookup_alter_eq, Ha. simpl. assert (ra = rb) as -> by congruence.
    split; f_equal; lia.
  - split.
    + rewrite lookup_alter_eq. do 2 (rewrite lookup_alter_ne by congruence).
      rewrite lookup_alter_eq, Ha. simpl. f_equal. lia.
    + rewrite lookup_alter_ne by congruence. rewrite !lookup_alter_eq.
      rewrite lookup_alter_ne by congruence. rewrite Hb. simpl. f_equal. lia.
Qed.

(** The refusals of [validate_transfer], with their texts. A balance of
    0.10 does not cover the float 0.1, which is above one tenth; a balance
    of 0.30 covers the float 0.3, which is below three tenths. *)
Example refused_transfers :
  Bank.validate_transfer
    (1%N, LedgerScenario.account "2025010100000001" "Alice" 10000 "ACTIVE")
    (2%N, LedgerScenario.account "2025010100000002" "Bob" 0 "ACTIVE") (Bank.Float 60000)
  = (false, "Insufficient balance. Available: 100.00, Required: 600.0")
  /\ Bank.validate_transfer
       (1%N, LedgerScenario.account "2025010100000001" "Alice" 10000 "SUSPENDED")
       (2%N, LedgerScenario.account "2025010100000002" "Bob" 0 "ACTIVE") (Bank.Float 100)
     = (false, "Source account error: Account is suspended")
  /\ Bank.validate_transfer
       (1%N, LedgerScenario.account "2025010100000001" "Alice" 10000 "ACTIVE")
       (1%N, LedgerScenario.account "2025010100000001" "Alice" 10000 "ACTIVE") (Bank.Float 100)
     = (false, "Cannot transfer to same account")
  /\ Bank.validate_transfer
       (1%N, LedgerScenario.account "2025010100000001" "Alice" 10 "ACTIVE")
       (2%N, LedgerScenario.account "2025010100000002" "Bob" 0 "ACTIVE") (Bank.Float 10)
     = (false, "Insufficient balance. Available: 0.10, Required: 0.1")
  /\ Bank.validate_transfer
       (1%N, LedgerScenario.account "2025010100000001" "Alice" 30 "ACTIVE")
       (2%N, LedgerScenario.account "2025010100000002" "Bob" 0 "ACTIVE") (Bank.Float 30)
     = (true, "").
Proof. repeat split; vm_compute; reflexivity. Qed.

(** The schema tests the amount before it rounds it: a thousandth is above
    zero and becomes 0.0, one eighth becomes 0.12, and zero is refused. *)
Example rounded_amounts :
  Bank.validate_amount 1 1000 = Some 0
  /\ Bank.validate_amount 1 8 = Some 12
  /\ Bank.validate_amount 0 1 = None
  /\ Bank.validate_amount 1000000 1 = Some 100000000
  /\ Bank.validate_amount 1000001 1 = None.
Proof. repeat split; vm_compute; reflexivity. Qed.

(** C2, as stated, fails when the two accounts are one. A transfer of 75.00
    from an account to itself completes: both updates reach the one row,
    whose balance is not lowered by the amount and whose version grows by
    two. *)
Lemma transfer_to_self :
  exists entry db',
    Bank.execute_transfer (Some LedgerScenario.alice) (Some LedgerScenario.alice)
      (Bank.Decimal 7500) "self" 9%N LedgerScenario.noon
      (Bank.open_session LedgerScenario.world)
    = (inr (9%N, entry), db')
    /\ Bank.tx_status entry = "COMPLETED"
    /\ Bank.amount entry = 7500
    /\ Bank.from_account_id entry = Some LedgerScenario.alice
    /\ Bank.to_account_id entry = Some LedgerScenario.alice
    /\ Bank.balance_of LedgerScenario.alice (Bank.database LedgerScenario.world) = Some 50000
    /\ Bank.version_of LedgerScenario.alice (Bank.database LedgerScenario.world) = Some 1
    /\ Bank.balance_of LedgerScenario.alice (Bank.durable db') = Some 50000
    /\ Bank.version_of LedgerScenario.alice (Bank.durable db') = Some 3.
Proof.
  eexists _, _. split.
  - apply (BankFacts.execute_transfer_ok _ LedgerScenario.alice LedgerScenario.alice
             (LedgerScenario.account "2025010100000001" "Alice" 50000 "ACTIVE")
             (LedgerScenario.account "2025010100000001" "Alice" 50000 "ACTIVE"));
      reflexivity.
  - repeat split; vm_compute; reflexivity.
Qed.

(** C2, amended. A transfer that completes is a call of [execute_transfer]
    with a [Decimal] amount [x] between two rows [a] and [b] of the session.
    When the two accounts are distinct, the balance of [a] is lower by
    exactly [x], the balance of [b] higher by exactly [x] and each of the two
    versions higher by exactly one; when they are one account, its balance is
    unchanged and its version higher by two. No other row is touched. Every
    such call completes when both rows exist and the identifier of the entry
    is fresh. No sequence of operations of the TRANSFER class (requests,
    direct calls, reversals) changes the sum of the balances of all
    accounts. *)
Theorem transfer_conserves_value :
  (forall f t amount descr tx_id now db r db',
      Bank.execute_transfer f t amount descr tx_id now db = (inr r, db') ->
      exists a b ra rb x,
        f = Some a /\ t = Some b /\ amount = Bank.Decimal x
        /\ Bank.bank_accounts (Bank.pending db) !! a = Some ra
        /\ Bank.bank_accounts (Bank.pending db) !! b = Some rb
        /\ fst r = tx_id
        /\ Bank.tx_status (snd r) = "COMPLETED" /\ Bank.amount (snd r) = x
        /\ Bank.from_account_id (snd r) = Some a /\ Bank.to_account_id (snd r) = Some b
        /\ (a <> b ->
            Bank.balance_of a (Bank.durable db') = Some (Bank.balance ra - x)
            /\ Bank.balance_of b (Bank.durable db') = Some (Bank.balance rb + x)
            /\ Bank.version_of a (Bank.durable db') = Some (Bank.ba_version ra + 1)
            /\ Bank.version_of b (Bank.durable db') = Some (Bank.ba_version rb + 1))
        /\ (a = b ->
            Bank.balance_of a (Bank.durable db') = Some (Bank.balance ra)
            /\ Bank.version_of a (Bank.durable db') = Some (Bank.ba_version ra + 2))
        /\ (forall c, c <> a -> c <> b ->
             Bank.bank_accounts (Bank.durable db') !! c
             = Bank.bank_accounts (Bank.pending db) !! c)
        /\ Bank.total_balance (Bank.durable db') = Bank.total_balance (Bank.pending db))
  /\ (forall db a b ra rb x descr tx_id now,
      Bank.bank_accounts (Bank.pending db) !! a = Some ra ->
      Bank.bank_accounts (Bank.pending db) !! b = Some rb ->
      Bank.transactions (Bank.pending db) !! tx_id = None ->
      exists entry db',
        Bank.execute_transfer (Some a) (Some b) (Bank.Decimal x) descr tx_id now db
        = (inr (tx_id, entry), db'))
  /\ (forall ops w,
      Bank.total_balance (Bank.database (Bank.perform_all ops w))
      = Bank.total_balance (Bank.database w)).
Proof.
  split; [|split].
  - intros f t amount descr tx_id now db r db' Hrun.
    apply BankFacts.execute_transfer_inv in Hrun
      as (a & b & ra & rb & x & -> & -> & -> & Ha & Hb & _ & -> & ->).
    exists a, b, ra, rb, x. simpl. repeat split; try assumption.
    + apply (BankFacts.balance_of_moved_from a b ra x descr tx_id now (Bank.pending db) Ha H).
    + apply (BankFacts.balance_of_moved_to a b ra rb x descr tx_id now (Bank.pending db) Hb H).
    + apply (BankFacts.balance_of_moved_from a b ra x descr tx_id now (Bank.pending db) Ha H).
    + apply (BankFacts.balance_of_moved_to a b ra rb x descr tx_id now (Bank.pending db) Hb H).
    + subst b. unfold Bank.balance_of. simpl. rewrite !lookup_alter_eq, Ha. simpl.
      f_equal. lia.
    + subst b. unfold Bank.version_of. simpl. rewrite !lookup_alter_eq, Ha. simpl.
      f_equal. lia.
    + intros c Hca Hcb.
      by apply (BankFacts.balance_of_moved_other a b c ra x descr tx_id now).
    + apply (BankFacts.total_balance_moved a b ra rb x descr tx_id now _ Ha Hb).
  - intros db a b ra rb x descr tx_id now Ha Hb Hfresh.
    eexists _, _. apply (BankFacts.execute_transfer_ok db a b ra rb); assumption.
  - apply BankFacts.perform_all_total.
Qed.

Lemma transfer_conserves_value_witness :
  exists entry db',
    Bank.execute_transfer (Some LedgerScenario.alice) (Some LedgerScenario.bob)
      (Bank.Decimal 7500) "rent" 77%N LedgerScenario.noon
      (Bank.open_session LedgerScenario.world)
    = (inr (77%N, entry), db')
    /\ Bank.balance_of LedgerScenario.alice (Bank.durable db') = Some 42500
    /\ Bank.balance_of LedgerScenario.bob (Bank.durable db') = Some 17500
    /\ Bank.version_of LedgerScenario.alice (Bank.durable db') = Some 2
    /\ Bank.version_of LedgerScenario.bob (Bank.durable db') = Some 2.
Proof.
  destruct transfer_conserves_value as (Hinv & Hrun & _).
  destruct (Hrun (Bank.open_session LedgerScenario.world) LedgerScenario.alice
              LedgerScenario.bob
              (LedgerScenario.account "2025010100000001" "Alice" 50000 "ACTIVE")
              (LedgerScenario.account "2025010100000002" "Bob" 10000 "ACTIVE")
              7500 "rent" 77%N LedgerScenario.noon)
    as (entry & db' & Hdone); [reflexivity | reflexivity | reflexivity |].
  destruct (Hinv _ _ _ _ _ _ _ _ _ Hdone)
    as (a & b & ra & rb & x & Hf & Ht & Hx & Ha & Hb & _ & _ & _ & _ & _ & Hdistinct & _).
  injection Hf as <-. injection Ht as <-. injection Hx as <-.
  vm_compute in Ha. injection Ha as <-. vm_compute in Hb. injection Hb as <-.
  destruct Hdistinct as (H1 & H2 & H3 & H4); [discriminate|].
  exists entry, db'. split; [exact Hdone|]. repeat split; assumption.
Defined.

(** C8. A COMPLETED TRANSFER of [x] from [a] to [b] can be reversed: the
    reversal is a fresh COMPLETED transfer of [x] from [b] to [a], the
    original entry becomes REVERSED, and reversing a transfer right after it
    was made brings both balances back to what they were before it. An entry
    that is not a COMPLETED TRANSFER (another status, another kind, or
    missing) is refused with an error and nothing is changed. *)
Theorem reversal_restores_balances :
  (forall db a b ra rb x descr id1 id2 now1 now2,
      Bank.bank_accounts (Bank.pending db) !! a = Some ra ->
      Bank.bank_accounts (Bank.pending db) !! b = Some rb ->
      Bank.transactions (Bank.pending db) !! id1 = None ->
      Bank.transactions (Bank.pending db) !! id2 = None ->
      id1 <> id2 ->
      exists entry db1 reversal db2,
        Bank.execute_transfer (Some a) (Some b) (Bank.Decimal x) descr id1 now1 db
        = (inr (id1, entry), db1)
        /\ Bank.reverse_transaction id1 id2 now2 db1 = (inr (id2, reversal), db2)
        /\ Bank.transaction_type reversal = "TRANSFER"
        /\ Bank.tx_status reversal = "COMPLETED"
        /\ Bank.from_account_id reversal = Some b
        /\ Bank.to_account_id reversal = Some a
        /\ Bank.amount reversal = x
        /\ Bank.tx_status <$> Bank.transactions (Bank.durable db2) !! id1 = Some "REVERSED"
        /\ Bank.balance_of a (Bank.durable db2) = Some (Bank.balance ra)
        /\ Bank.balance_of b (Bank.durable db2) = Some (Bank.balance rb))
  /\ (forall db id orig a b ra rb tx_id now,
      Bank.transactions (Bank.pending db) !! id = Some orig ->
      Bank.tx_status orig = "COMPLETED" ->
      Bank.transaction_type orig = "TRANSFER" ->
      Bank.from_account_id orig = Some a ->
      Bank.to_account_id orig = Some b ->
      Bank.bank_accounts (Bank.pending db) !! a = Some ra ->
      Bank.bank_accounts (Bank.pending db) !! b = Some rb ->
      Bank.transactions (Bank.pending db) !! tx_id = None ->
      exists reversal db',
        Bank.reverse_transaction id tx_id now db = (inr (tx_id, reversal), db')
        /\ Bank.tx_status reversal = "COMPLETED"
        /\ Bank.from_account_id reversal = Some b
        /\ Bank.to_account_id reversal = Some a
        /\ Bank.amount reversal = Bank.amount orig
        /\ Bank.tx_status <$> Bank.transactions (Bank.durable db') !! id = Some "REVERSED"
        /\ Bank.bank_accounts (Bank.durable db')
           = alter (Bank.credit (Bank.amount orig) now) a
               (alter (Bank.debit (Bank.amount orig) now) b (Bank.bank_accounts (Bank.pending db))))
  /\ (forall db id tx_id now,
      match Bank.transactions (Bank.pending db) !! id with
      | Some orig =>
          Bank.tx_status orig <> "COMPLETED" \/ Bank.transaction_type orig <> "TRANSFER"
      | None => True
      end ->
      exists msg, Bank.reverse_transaction id tx_id now db = (inl (ValueError msg), db)).
Proof.
  split; [|split].
  - intros db a b ra rb x descr id1 id2 now1 now2 Ha Hb Hf1 Hf2 Hne.
    rewrite (BankFacts.execute_transfer_ok db a b ra rb) by assumption.
    set (db1 := Bank.commit _).
    assert (Ho : Bank.transactions (Bank.pending db1) !! id1
                 = Some (BankSpec.completed_entry a b (Bank.ba_currency ra) x descr now1))
      by (simpl; apply lookup_insert_eq).
    assert (Hx : Bank.transactions (Bank.pending db1) !! id2 = None)
      by (simpl; rewrite lookup_insert_ne by congruence; assumption).
    assert (Ha1 : is_Some (Bank.bank_accounts (Bank.pending db1) !! a)).
    { simpl. rewrite !lookup_alter_is_Some. eauto. }
    assert (Hb1 : is_Some (Bank.bank_accounts (Bank.pending db1) !! b)).
    { simpl. rewrite !lookup_alter_is_Some. eauto. }
    destruct Ha1 as [ra1 Ha1], Hb1 as [rb1 Hb1].
    pose proof (BankFacts.reverse_transaction_ok db1 id1 _ a b ra1 rb1 id2 now2 Ho
                  eq_refl eq_refl eq_refl eq_refl Ha1 Hb1 Hx) as Hrev.
    simpl in Hrev.
    eexists _, db1, _, _. split; [reflexivity|]. split; [exact Hrev|].
    simpl. repeat split.
    + rewrite lookup_alter_eq. rewrite lookup_insert_ne by congruence.
      rewrite lookup_insert_eq. reflexivity.
    + apply (roundtrip_balances _ a b ra rb x now1 now2 Ha Hb).
    + apply (roundtrip_balances _ a b ra rb x now1 now2 Ha Hb).
  - intros db id orig a b ra rb tx_id now Ho Hs Ht Hf Hto Ha Hb Hx.
    pose proof (BankFacts.reverse_transaction_ok db id orig a b ra rb tx_id now
                  Ho Hs Ht Hf Hto Ha Hb Hx) as Hrev.
    simpl in Hrev.
    eexists _, _. split; [exact Hrev|]. simpl. repeat split.
    rewrite lookup_alter_eq.
    rewrite lookup_insert_ne by (intros ->; congruence).
    rewrite Ho. reflexivity.
  - intros db id tx_id now Hbad.
    destruct (Bank.transactions (Bank.pending db) !! id) as [orig|] eqn:Ho.
    + by apply (BankFacts.reverse_transaction_rejects db id orig).
    + eexists. by apply BankFacts.reverse_transaction_missing.
Qed.

Lemma reversal_restores_balances_witness :
  exists entry db1 reversal db2,
    Bank.execute_transfer (Some LedgerScenario.alice) (Some LedgerScenario.bob)
      (Bank.Decimal 7500) "rent" 77%N LedgerScenario.noon
      (Bank.open_session LedgerScenario.world)
    = (inr (77%N, entry), db1)
    /\ Bank.reverse_transaction 77%N 78%N LedgerScenario.later db1 = (inr (78%N, reversal), db2)
    /\ Bank.tx_status <$> Bank.transactions (Bank.durable db2) !! 77%N = Some "REVERSED"
    /\ Bank.balance_of LedgerScenario.alice (Bank.durable db2) = Some 50000
    /\ Bank.balance_of LedgerScenario.bob (Bank.durable db2) = Some 10000.
Proof.
  destruct reversal_restores_balances as [H _].
  destruct (H (Bank.open_session LedgerScenario.world) LedgerScenario.alice LedgerScenario.bob
              (LedgerScenario.account "2025010100000001" "Alice" 50000 "ACTIVE")
              (LedgerScenario.account "2025010100000002" "Bob" 10000 "ACTIVE")
              7500 "rent" 77%N 78%N LedgerScenario.noon LedgerScenario.later)
    as (entry & db1 & reversal & db2 & H1 & H2 & _ & _ & _ & _ & _ & H3 & H4 & H5);
    [reflexivity | reflexivity | reflexivity | reflexivity | discriminate |].
  exists entry, db1, reversal, db2. repeat split; assumption.
Defined.

(** C10. [execute_transfer] checks nothing. With a [Decimal] amount, whenever
    both accounts are rows of the session and the identifier of the entry is
    fresh, it debits the source, credits the destination and records a
    COMPLETED entry, whatever the amount (zero, negative, above the
    balance), the status or currency of the accounts, and whether or not the
    two rows are the same. With a float amount, which is what its signature
    announces and what the endpoint passes, the debit raises: the call ends
    in an exception and no row is changed. The guards are those of the
    endpoint: [validate_transfer] accepts exactly the transfers between two
    distinct ACTIVE accounts of one currency whose source balance is not
    below the amount, the endpoint answers 400 without a write when it
    refuses, and the schema asks for an amount above zero before it rounds
    it to two places (so that 0.0 can come out of it). A call with a
    [Decimal] amount can leave an ACTIVE account with a negative balance. *)
Theorem execute_transfer_unguarded :
  (forall db a b ra rb x descr tx_id now,
      Bank.bank_accounts (Bank.pending db) !! a = Some ra ->
      Bank.bank_accounts (Bank.pending db) !! b = Some rb ->
      Bank.transactions (Bank.pending db) !! tx_id = None ->
      exists entry db',
        Bank.execute_transfer (Some a) (Some b) (Bank.Decimal x) descr tx_id now db
        = (inr (tx_id, entry), db')
        /\ Bank.tx_status entry = "COMPLETED"
        /\ Bank.amount entry = x
        /\ Bank.from_account_id entry = Some a
        /\ Bank.to_account_id entry = Some b
        /\ Bank.transactions (Bank.durable db') !! tx_id = Some entry
        /\ (a <> b ->
            Bank.balance_of a (Bank.durable db') = Some (Bank.balance ra - x)
            /\ Bank.balance_of b (Bank.durable db') = Some (Bank.balance rb + x))
        /\ (a = b -> Bank.balance_of a (Bank.durable db') = Some (Bank.balance ra))
        /\ Bank.ba_status <$> Bank.bank_accounts (Bank.durable db') !! a
           = Some (Bank.ba_status ra)
        /\ Bank.ba_status <$> Bank.bank_accounts (Bank.durable db') !! b
           = Some (Bank.ba_status rb))
  /\ (forall db a b ra rb k descr tx_id now,
      Bank.bank_accounts (Bank.pending db) !! a = Some ra ->
      Bank.bank_accounts (Bank.pending db) !! b = Some rb ->
      Bank.transactions (Bank.pending db) !! tx_id = None ->
      exists db',
        Bank.execute_transfer (Some a) (Some b) (Bank.Float k) descr tx_id now db
        = (inl (Exception
                  "Transfer failed: unsupported operand type(s) for -=: 'decimal.Decimal' and 'float'"),
           db')
        /\ Bank.durable db' = Bank.durable db
        /\ Bank.pending db' = Bank.durable db)
  /\ (forall f t x,
      fst (Bank.validate_transfer f t x) = true
      <-> Bank.ba_status (snd f) = "ACTIVE" /\ Bank.ba_status (snd t) = "ACTIVE"
          /\ Bank.decimal_lt (Bank.balance (snd f)) x = false /\ fst f <> fst t
          /\ Bank.ba_currency (snd f) = Bank.ba_currency (snd t))
  /\ (forall c x, Bank.decimal_lt c (Bank.Decimal x) = false <-> x <= c)
  /\ (forall c k, 0 < k < 2 ^ 53 -> c <> k ->
        (Bank.decimal_lt c (Bank.Float k) = false <-> k < c))
  /\ (forall t hdr tx_id now w f t',
      BankSpec.first_time t hdr now w ->
      Bank.find_account (Bank.from_account_number t) (Bank.database w) = Some f ->
      Bank.find_account (Bank.to_account_number t) (Bank.database w) = Some t' ->
      fst (Bank.validate_transfer f t' (Bank.Float (Bank.tc_amount t))) = false ->
      exists msg, Bank.create_transfer t hdr tx_id now w = (inl (HTTPException 400 msg), w, []))
  /\ (forall num den k,
      Bank.validate_amount num den = Some k -> 0 < num /\ 0 <= k <= 100000000)
  /\ Bank.validate_amount 1 1000 = Some 0
  /\ (exists row db',
      db' = snd (Bank.execute_transfer (Some LedgerScenario.bob) (Some LedgerScenario.alice)
                   (Bank.Decimal 60000) "direct" 9%N LedgerScenario.noon
                   (Bank.open_session LedgerScenario.world))
      /\ Bank.bank_accounts (Bank.durable db') !! LedgerScenario.bob = Some row
      /\ Bank.ba_status row = "ACTIVE"
      /\ Bank.balance row = -50000).
Proof.
  split; [|split; [|split; [|split; [|split; [|split; [|split; [|split]]]]]]].
  - intros db a b ra rb x descr tx_id now Ha Hb Hx.
    eexists _, _. split; [apply (BankFacts.execute_transfer_ok db a b ra rb); assumption|].
    simpl. split; [reflexivity|]. split; [reflexivity|]. split; [reflexivity|].
    split; [reflexivity|]. split; [apply lookup_insert_eq|].
    split; [|split; [|split]].
    + intros Hne. split.
      * apply (BankFacts.balance_of_moved_from a b ra x descr tx_id now (Bank.pending db) Ha Hne).
      * apply (BankFacts.balance_of_moved_to a b ra rb x descr tx_id now (Bank.pending db)
                 Hb Hne).
    + intros <-. unfold Bank.balance_of, BankSpec.moved. simpl.
      rewrite !lookup_alter_eq, Ha. simpl. f_equal. lia.
    + unfold BankSpec.moved. simpl. destruct (decide (a = b)) as [<-|Hne].
      * rewrite !lookup_alter_eq, Ha. reflexivity.
      * rewrite lookup_alter_ne, lookup_alter_eq, Ha by congruence. reflexivity.
    + unfold BankSpec.moved. simpl. destruct (decide (a = b)) as [<-|Hne].
      * rewrite !lookup_alter_eq, Ha. assert (rb = ra) as -> by congruence. reflexivity.
      * rewrite lookup_alter_eq, lookup_alter_ne, Hb by congruence. reflexivity.
  - intros db a b ra rb k descr tx_id now Ha Hb Hx.
    eexists. split; [apply (BankFacts.execute_transfer_float db a b ra rb); assumption|].
    split; reflexivity.
  - apply BankFacts.validate_transfer_spec.
  - intros c x. simpl. rewrite Z.ltb_ge. reflexivity.
  - intros c k Hk Hne. rewrite (BankFacts.decimal_lt_float c k Hk Hne), Z.ltb_ge. lia.
  - intros t hdr tx_id now w f t' [Hm1 Hm2] Hf Ht Hv.
    unfold Bank.create_transfer, Bank.create_transfer_in. simpl.
    rewrite Hm1, Hm2, Hf, Ht.
    destruct (Bank.validate_transfer f t' (Bank.Float (Bank.tc_amount t))) as [ok msg].
    simpl in Hv. subst ok. simpl. destruct w. eauto.
  - intros num den k. unfold Bank.validate_amount.
    destruct (Z.ltb_spec 0 num); [|discriminate].
    destruct (Z.leb_spec num (1000000 * Z.pos den)); [|discriminate].
    simpl. intros [= <-].
    pose proof (BankFacts.round_half_even_bounds (100 * num) (Z.pos den) ltac:(lia)).
    nia.
  - vm_compute. reflexivity.
  - eexists _, _. split; [reflexivity|]. vm_compute. repeat split.
Qed.

Lemma execute_transfer_unguarded_witness :
  (exists entry db',
      Bank.execute_transfer (Some LedgerScenario.bob) (Some LedgerScenario.alice)
        (Bank.Decimal (-2500)) "negative" 9%N LedgerScenario.noon
        (Bank.open_session LedgerScenario.world)
      = (inr (9%N, entry), db')
      /\ Bank.tx_status entry = "COMPLETED"
      /\ Bank.amount entry = -2500
      /\ Bank.balance_of LedgerScenario.bob (Bank.durable db') = Some 12500
      /\ Bank.balance_of LedgerScenario.alice (Bank.durable db') = Some 47500)
  /\ (exists db',
      Bank.execute_transfer (Some LedgerScenario.alice) (Some LedgerScenario.bob)
        (Bank.Float 7500) "rent" 77%N LedgerScenario.noon
        (Bank.open_session LedgerScenario.world)
      = (inl (Exception
                "Transfer failed: unsupported operand type(s) for -=: 'decimal.Decimal' and 'float'"),
         db')
      /\ Bank.durable db' = Bank.database LedgerScenario.world).
Proof.
  destruct execute_transfer_unguarded as (H & Hfloat & _).
  split.
  - destruct (H (Bank.open_session LedgerScenario.world) LedgerScenario.bob LedgerScenario.alice
                (LedgerScenario.account "2025010100000002" "Bob" 10000 "ACTIVE")
                (LedgerScenario.account "2025010100000001" "Alice" 50000 "ACTIVE")
                (-2500) "negative" 9%N LedgerScenario.noon)
      as (entry & db' & Hrun & Hs & Hx & _ & _ & _ & Hdistinct & _);
      [reflexivity | reflexivity | reflexivity |].
    destruct Hdistinct as [Hb Ha]; [discriminate|].
    exists entry, db'. repeat split; assumption.
  - destruct (Hfloat (Bank.open_session LedgerScenario.world) LedgerScenario.alice
                LedgerScenario.bob
                (LedgerScenario.account "2025010100000001" "Alice" 50000 "ACTIVE")
                (LedgerScenario.account "2025010100000002" "Bob" 10000 "ACTIVE")
                7500 "rent" 77%N LedgerScenario.noon)
      as (db' & Hrun & Hd & _); [reflexivity | reflexivity | reflexivity |].
    exists db'. split; assumption.
Defined.



(* ===================================================================== *)
(** ** Webhook ingestion                                                   *)
(* ===================================================================== *)

Module PaymentFacts.
Import Payment PaymentSpec.

Lemma idem_name_inj k k' : "idem:" +:+ k = "idem:" +:+ k' -> k = k'.
Proof. cbv [String.append]. congruence. Qed.

Lemma coherent_empty_cache s : redis s = ∅ -> coherent s.
Proof. intros H key e. rewrite H, lookup_empty. discriminate. Qed.

Lemma find_payment_Some intent s pid p :
  find_payment intent s = Some (pid, p) ->
  payment_transactions s !! pid = Some p /\ payment_intent_id p = intent.
Proof.
  unfold find_payment. intros H.
  apply fmap_Some in H as [[i [k x]] [Hfind Heq]]. simpl in Heq.
  injection Heq as <- <-.
  apply list_find_Some in Hfind as (Hl & Hp & _).
  split; [|exact Hp].
  apply elem_of_map_to_list. eapply list_elem_of_lookup_2. exact Hl.
Qed.

(** *** Saving a response *)

Lemma save_tables now key body status s :
  same_tables s (save_idempotency_record now key body status s).
Proof. split; reflexivity. Qed.

Lemma save_stored now key body status s :
  idempotency_keys s !! key = None ->
  stored (save_idempotency_record now key body status s) key body status.
Proof.
  intros Hk. unfold stored, save_idempotency_record. simpl. rewrite Hk.
  eexists. split; [apply lookup_insert_eq|]. split; reflexivity.
Qed.

Lemma save_keeps now key body status s k b st :
  stored s k b st -> stored (save_idempotency_record now key body status s) k b st.
Proof.
  intros (rec & Hrec & Hb & Hs). unfold stored, save_idempotency_record. simpl.
  destruct (idempotency_keys s !! key) eqn:Hk; [eauto|].
  exists rec. split; [|auto].
  rewrite lookup_insert_ne; [assumption|]. intros ->. congruence.
Qed.

Lemma save_coherent now key body status s :
  idempotency_keys s !! key = None ->
  coherent s -> coherent (save_idempotency_record now key body status s).
Proof.
  intros Hk Hc k e He.
  destruct (decide (k = key)) as [->|Hne].
  - unfold save_idempotency_record, redis_setex in He. simpl in He.
    rewrite lookup_insert_eq in He. injection He as <-. simpl.
    by apply save_stored.
  - apply save_keeps. apply Hc.
    unfold save_idempotency_record, redis_setex in He. simpl in He.
    rewrite lookup_insert_ne in He; [assumption|].
    intros Heq. apply Hne. symmetry. by apply idem_name_inj.
Qed.

Lemma save_cached now key body status s t :
  t < now + idempotency_ttl ->
  check_idempotency_cache t key (save_idempotency_record now key body status s)
  = Some (body, status).
Proof.
  intros Ht. unfold check_idempotency_cache, redis_get, save_idempotency_record, redis_setex.
  simpl. rewrite lookup_insert_eq. simpl.
  destruct (Z.ltb_spec t (now + idempotency_ttl)); [reflexivity|lia].
Qed.

(** *** The two lookups *)

Lemma cache_hit_stored now key s body status :
  coherent s -> check_idempotency_cache now key s = Some (body, status) ->
  stored s key body status.
Proof.
  intros Hc. unfold check_idempotency_cache, redis_get.
  destruct (redis s !! ("idem:" +:+ key)) as [e|] eqn:He; [|discriminate].
  destruct (now <? ce_until e); [|discriminate].
  intros [= <- <-]. by apply Hc.
Qed.

Lemma db_hit now key s rec :
  idempotency_keys s !! key = Some rec ->
  exists warmed,
    check_idempotency_db now key s = (Some (response_body rec, response_status rec), warmed)
    /\ same_tables s warmed
    /\ idempotency_keys warmed = idempotency_keys s
    /\ (coherent s -> coherent warmed).
Proof.
  intros Hrec. unfold check_idempotency_db. rewrite Hrec.
  eexists. split; [reflexivity|]. split; [split; reflexivity|]. split; [reflexivity|].
  intros Hc k e He. unfold stored. simpl in *. unfold redis_setex in He.
  destruct (decide (k = key)) as [->|Hne].
  - rewrite lookup_insert_eq in He. injection He as <-. simpl. eauto.
  - rewrite lookup_insert_ne in He.
    + apply (Hc k e He).
    + intros Heq. apply Hne. symmetry. by apply idem_name_inj.
Qed.

Lemma db_miss now key s :
  idempotency_keys s !! key = None -> check_idempotency_db now key s = (None, s).
Proof. intros H. unfold check_idempotency_db. by rewrite H. Qed.

Lemma stored_ext s s' key body status :
  idempotency_keys s' = idempotency_keys s -> stored s key body status ->
  stored s' key body status.
Proof. intros H (rec & Hrec & Hb). exists rec. by rewrite H. Qed.

Lemma coherent_ext s s' :
  redis s' = redis s -> idempotency_keys s' = idempotency_keys s ->
  coherent s -> coherent s'.
Proof.
  intros Hr Hk Hc key e He. rewrite Hr in He.
  apply (stored_ext s); [assumption|]. by apply Hc.
Qed.

Lemma stored_unique s key b st b' st' :
  stored s key b st -> stored s key b' st' -> b' = b /\ st' = st.
Proof.
  intros (rec & Hrec & <- & <-) (rec' & Hrec' & <- & <-).
  assert (rec' = rec) as -> by congruence. auto.
Qed.

(** *** The handler, for any decoder of the body *)

Section WithDecoder.

Variable load_event : string -> string + WebhookEvent.

Lemma handle_unseen now req s :
  unseen now (idempotency_key_of req) s ->
  handle_webhook load_event now req s
  = process_webhook load_event now (idempotency_key_of req) (req_body req) s.
Proof.
  intros [Hc Hd]. unfold handle_webhook. rewrite Hc. by rewrite db_miss.
Qed.

(** The ends of the first-time path. *)
Lemma process_undecodable now key body s err :
  load_event body = inl err ->
  process_webhook load_event now key body s
  = ({| content := [("error", Json.Str err)]; status_code := 500 |}, s).
Proof. intros H. unfold process_webhook. by rewrite H. Qed.

Lemma process_not_found now key body s ev :
  load_event body = inr ev ->
  find_payment (we_payment_intent_id ev) s = None ->
  process_webhook load_event now key body s
  = ({| content := not_found_body; status_code := 404 |},
     save_idempotency_record now key not_found_body 404 s).
Proof. intros H1 H2. unfold process_webhook. by rewrite H1, H2. Qed.

Lemma process_aware now key body s ev pid p offset :
  load_event body = inr ev ->
  find_payment (we_payment_intent_id ev) s = Some (pid, p) ->
  we_tzinfo ev = Some offset ->
  process_webhook load_event now key body s
  = ({| content := [("error", Json.Str naive_and_aware)]; status_code := 500 |}, s).
Proof. intros H1 H2 H3. unfold process_webhook. by rewrite H1, H2, H3. Qed.

Lemma process_stale now key body s ev pid p :
  load_event body = inr ev ->
  find_payment (we_payment_intent_id ev) s = Some (pid, p) ->
  we_tzinfo ev = None ->
  we_timestamp ev < pt_updated_at p ->
  process_webhook load_event now key body s
  = ({| content := out_of_order_body; status_code := 200 |},
     save_idempotency_record now key out_of_order_body 200 s).
Proof.
  intros H1 H2 Hz H3. unfold process_webhook. rewrite H1, H2, Hz.
  rewrite bool_decide_eq_false_2 by (intros [? [=]]).
  destruct (Z.ltb_spec (we_timestamp ev) (pt_updated_at p)); [reflexivity|lia].
Qed.

Lemma process_rejected now key body s ev pid p :
  load_event body = inr ev ->
  find_payment (we_payment_intent_id ev) s = Some (pid, p) ->
  we_tzinfo ev = None ->
  pt_updated_at p <= we_timestamp ev ->
  validate_state_transition (pt_status p) (we_status ev) = false ->
  process_webhook load_event now key body s
  = ({| content := invalid_transition_body (pt_status p) (we_status ev); status_code := 400 |},
     save_idempotency_record now key
       (invalid_transition_body (pt_status p) (we_status ev)) 400 s).
Proof.
  intros H1 H2 Hz H3 H4. unfold process_webhook. rewrite H1, H2, Hz, H4.
  rewrite bool_decide_eq_false_2 by (intros [? [=]]).
  destruct (Z.ltb_spec (we_timestamp ev) (pt_updated_at p)); [lia|reflexivity].
Qed.

Lemma process_accepted now key body s ev pid p :
  load_event body = inr ev ->
  find_payment (we_payment_intent_id ev) s = Some (pid, p) ->
  we_tzinfo ev = None ->
  pt_updated_at p <= we_timestamp ev ->
  validate_state_transition (pt_status p) (we_status ev) = true ->
  process_webhook load_event now key body s
  = ({| content := processed_body pid (pt_status p) (apply_transition now ev p);
        status_code := 200 |},
     save_idempotency_record now key
       (processed_body pid (pt_status p) (apply_transition now ev p)) 200
       (accepted now key pid ev p s)).
Proof.
  intros H1 H2 Hz H3 H4. unfold process_webhook. rewrite H1, H2, Hz, H4.
  rewrite bool_decide_eq_false_2 by (intros [? [=]]).
  destruct (Z.ltb_spec (we_timestamp ev) (pt_updated_at p)); [lia|reflexivity].
Qed.

(** Every end of the first-time path but the undecodable body keeps its
    response, in a store that stays coherent. *)
Lemma process_summary now key body s :
  idempotency_keys s !! key = None ->
  let r := fst (process_webhook load_event now key body s) in
  let s' := snd (process_webhook load_event now key body s) in
  (status_code r = 500 /\ s' = s)
  \/ (status_code r <> 500
      /\ exists mid, s' = save_idempotency_record now key (content r) (status_code r) mid
                     /\ idempotency_keys mid = idempotency_keys s
                     /\ redis mid = redis s).
Proof.
  intros Hk. simpl.
  destruct (load_event body) as [err|ev] eqn:Hl.
  { rewrite (process_undecodable _ _ _ _ _ Hl). left. auto. }
  destruct (find_payment (we_payment_intent_id ev) s) as [[pid p]|] eqn:Hf.
  2:{ rewrite (process_not_found _ _ _ _ _ Hl Hf). right. simpl. split; [lia|]. eauto. }
  destruct (we_tzinfo ev) as [offset|] eqn:Hz.
  { rewrite (process_aware _ _ _ _ _ _ _ _ Hl Hf Hz). left. auto. }
  right.
  destruct (Z.lt_ge_cases (we_timestamp ev) (pt_updated_at p)) as [Hlt|Hge].
  { rewrite (process_stale _ _ _ _ _ _ _ Hl Hf Hz Hlt). simpl. split; [lia|]. eauto. }
  destruct (validate_state_transition (pt_status p) (we_status ev)) eqn:Hv.
  - rewrite (process_accepted _ _ _ _ _ _ _ Hl Hf Hz Hge Hv). simpl. split; [lia|].
    exists (accepted now key pid ev p s). auto.
  - rewrite (process_rejected _ _ _ _ _ _ _ Hl Hf Hz Hge Hv). simpl. split; [lia|]. eauto.
Qed.

Lemma process_effect now req s :
  unseen now (idempotency_key_of req) s ->
  effect load_event now req s
    (snd (process_webhook load_event now (idempotency_key_of req) (req_body req) s)).
Proof.
  intros Hun.
  destruct (load_event (req_body req)) as [err|ev] eqn:Hl.
  { rewrite (process_undecodable _ _ _ _ _ Hl). apply Untouched. split; reflexivity. }
  destruct (find_payment (we_payment_intent_id ev) s) as [[pid p]|] eqn:Hf.
  2:{ rewrite (process_not_found _ _ _ _ _ Hl Hf). apply Untouched, save_tables. }
  destruct (we_tzinfo ev) as [offset|] eqn:Hz.
  { rewrite (process_aware _ _ _ _ _ _ _ _ Hl Hf Hz). apply Untouched. split; reflexivity. }
  destruct (Z.lt_ge_cases (we_timestamp ev) (pt_updated_at p)) as [Hlt|Hge].
  { rewrite (process_stale _ _ _ _ _ _ _ Hl Hf Hz Hlt). apply Untouched, save_tables. }
  destruct (validate_state_transition (pt_status p) (we_status ev)) eqn:Hv.
  - rewrite (process_accepted _ _ _ _ _ _ _ Hl Hf Hz Hge Hv).
    apply (Transition load_event _ _ _ _ ev pid p); try assumption.
    apply save_tables.
  - rewrite (process_rejected _ _ _ _ _ _ _ Hl Hf Hz Hge Hv). apply Untouched, save_tables.
Qed.

(** A request under a key whose response is kept is answered with that
    response and changes no table. *)
Lemma handle_replay now req s body status :
  coherent s ->
  stored s (idempotency_key_of req) body status ->
  fst (handle_webhook load_event now req s) = {| content := body; status_code := status |}
  /\ same_tables s (snd (handle_webhook load_event now req s))
  /\ idempotency_keys (snd (handle_webhook load_event now req s)) = idempotency_keys s
  /\ coherent (snd (handle_webhook load_event now req s)).
Proof.
  intros Hc Hst. unfold handle_webhook.
  destruct (check_idempotency_cache now (idempotency_key_of req) s) as [[b st]|] eqn:Hcache.
  - apply (cache_hit_stored _ _ _ _ _ Hc) in Hcache.
    destruct (stored_unique _ _ _ _ _ _ Hst Hcache) as [-> ->]. simpl.
    repeat split; auto.
  - destruct Hst as (rec & Hrec & <- & <-).
    destruct (db_hit now _ _ _ Hrec) as (warmed & -> & Ht & Hk & Hco). simpl.
    repeat split; auto; apply Ht.
Qed.

Lemma handle_summary now req s :
  coherent s ->
  let r := fst (handle_webhook load_event now req s) in
  let s' := snd (handle_webhook load_event now req s) in
  coherent s'
  /\ (forall k b st, stored s k b st -> stored s' k b st)
  /\ (status_code r <> 500 -> stored s' (idempotency_key_of req) (content r) (status_code r))
  /\ effect load_event now req s s'.
Proof.
  intros Hc. simpl.
  destruct (idempotency_keys s !! idempotency_key_of req) as [rec|] eqn:Hrec.
  - assert (Hst : stored s (idempotency_key_of req) (response_body rec) (response_status rec))
      by (exists rec; auto).
    destruct (handle_replay now req s _ _ Hc Hst) as (Hr & Ht & Hk & Hco).
    rewrite Hr. simpl. repeat split; auto.
    + intros k b st. by apply stored_ext.
    + intros _. by apply (stored_ext s).
    + by apply Untouched.
  - destruct (check_idempotency_cache now (idempotency_key_of req) s) as [[b st]|] eqn:Hcache.
    { apply (cache_hit_stored _ _ _ _ _ Hc) in Hcache as (rec & Hrec' & _). congruence. }
    rewrite handle_unseen by (split; assumption).
    split; [|split; [|split]]; [| | |apply process_effect; split; assumption].
    + destruct (process_summary now (idempotency_key_of req) (req_body req) s Hrec)
        as [[_ ->]|(_ & mid & -> & Hk & Hr)]; [assumption|].
      apply save_coherent; [by rewrite Hk|]. by apply (coherent_ext s).
    + intros k b st Hst.
      destruct (process_summary now (idempotency_key_of req) (req_body req) s Hrec)
        as [[_ ->]|(_ & mid & -> & Hk & Hr)]; [assumption|].
      apply save_keeps. by apply (stored_ext s).
    + intros H500.
      destruct (process_summary now (idempotency_key_of req) (req_body req) s Hrec)
        as [[H _]|(_ & mid & -> & Hk & Hr)]; [contradiction|].
      apply save_stored. by rewrite Hk.
Qed.

Lemma handle_all_summary reqs : forall s,
  coherent s ->
  coherent (handle_all load_event reqs s)
  /\ (forall k b st, stored s k b st -> stored (handle_all load_event reqs s) k b st).
Proof.
  induction reqs as [|[now req] rest IH]; intros s Hc; simpl; [auto|].
  destruct (handle_summary now req s Hc) as (Hc' & Hkeep & _ & _).
  destruct (IH _ Hc') as [Hc'' Hkeep'']. auto.
Qed.

(** The stores reached from a cold cache are coherent. *)
Lemma coherent_reachable reqs s :
  redis s = ∅ -> coherent (handle_all load_event reqs s).
Proof.
  intros H. apply handle_all_summary. by apply coherent_empty_cache.
Qed.

End WithDecoder.

End PaymentFacts.

(** ** Properties of the webhook *)

(** The second scenario of the specification: the authorization is
    processed once, the intent reaches version 2, and one transition record
    exists after its redelivery. *)
Example webhook_then_duplicate :
  fst WebhookScenario.authorized
  = {| Payment.content :=
         [ ("status", Json.Str "processed");
           ("payment_id", Json.Str "00000000-0000-0000-0000-00000000002a");
           ("old_status", Json.Str "INITIATED");
           ("new_status", Json.Str "AUTHORIZED");
           ("version", Json.Int 2) ];
       Payment.status_code := 200 |}
  /\ fst (WebhookScenario.post (WebhookScenario.ten_oclock 8) "AUTHORIZED at 10:00:06" "K1"
            (snd WebhookScenario.authorized))
     = fst WebhookScenario.authorized
  /\ WebhookScenario.version_in
       (snd (WebhookScenario.post (WebhookScenario.ten_oclock 8) "AUTHORIZED at 10:00:06" "K1"
               (snd WebhookScenario.authorized)))
     = Some 2
  /\ length (Payment.payment_state_history
               (snd (WebhookScenario.post (WebhookScenario.ten_oclock 8)
                       "AUTHORIZED at 10:00:06" "K1" (snd WebhookScenario.authorized))))
     = 1%nat.
Proof. repeat split; vm_compute; reflexivity. Qed.

(** C1. Once a request has been processed under a key (answered otherwise
    than by a 500), every later request that carries the key, served after
    any number of other requests and at any instant, is answered with the
    same body and the same status, and leaves the table of payment intents
    (hence version, status and updated_at of each) and the table of
    transition records as it found them; when it follows the first request
    directly, they are as the first request left them. *)
Theorem webhook_replay load_event s now1 req1 between now2 req2 :
  PaymentSpec.coherent s ->
  Payment.status_code (fst (Payment.handle_webhook load_event now1 req1 s)) <> 500 ->
  Payment.idempotency_key_of req2 = Payment.idempotency_key_of req1 ->
  let first := Payment.handle_webhook load_event now1 req1 s in
  let before := Payment.handle_all load_event between (snd first) in
  let second := Payment.handle_webhook load_event now2 req2 before in
  fst second = fst first
  /\ Payment.payment_transactions (snd second) = Payment.payment_transactions before
  /\ Payment.payment_state_history (snd second) = Payment.payment_state_history before
  /\ (between = [] ->
      Payment.payment_transactions (snd second) = Payment.payment_transactions (snd first)
      /\ Payment.payment_state_history (snd second)
         = Payment.payment_state_history (snd first)).
Proof.
  intros Hc H500 Hkey first before second.
  destruct (PaymentFacts.handle_summary load_event now1 req1 s Hc) as (Hc1 & _ & Hst & _).
  specialize (Hst H500). fold first in Hc1, Hst.
  destruct (PaymentFacts.handle_all_summary load_event between (snd first) Hc1)
    as [Hc2 Hkeep].
  apply Hkeep in Hst. fold before in Hc2, Hst. rewrite <- Hkey in Hst.
  destruct (PaymentFacts.handle_replay load_event now2 req2 before _ _ Hc2 Hst)
    as (Hr & [Hp Hh] & _ & _).
  fold second in Hr, Hp, Hh.
  assert (Hfirst : fst second = fst first) by (rewrite Hr; by destruct (fst first)).
  split; [assumption|]. split; [assumption|]. split; [assumption|].
  intros Hb. rewrite Hp, Hh. unfold before. rewrite Hb. split; reflexivity.
Qed.

Lemma webhook_replay_witness :
  fst WebhookScenario.redelivered = fst WebhookScenario.authorized
  /\ Payment.payment_transactions (snd WebhookScenario.redelivered)
     = Payment.payment_transactions (snd WebhookScenario.captured)
  /\ Payment.payment_state_history (snd WebhookScenario.redelivered)
     = Payment.payment_state_history (snd WebhookScenario.captured).
Proof.
  destruct (webhook_replay WebhookScenario.decode WebhookScenario.store
              (WebhookScenario.ten_oclock 7)
              (WebhookScenario.request "AUTHORIZED at 10:00:06" "K1")
              [(WebhookScenario.ten_oclock 9,
                WebhookScenario.request "CAPTURED at 10:00:08" "K2")]
              (WebhookScenario.ten_oclock 30)
              (WebhookScenario.request "AUTHORIZED at 10:00:06" "K1"))
    as (H1 & H2 & H3 & _).
  - apply PaymentFacts.coherent_empty_cache. reflexivity.
  - vm_compute. discriminate.
  - reflexivity.
  - repeat split; assumption.
Defined.

(** The edges of the transition graph. *)
Lemma transition_graph cur new :
  Payment.validate_state_transition cur new = true
  <-> In (cur, new)
        [ ("INITIATED", "AUTHORIZED"); ("INITIATED", "FAILED");
          ("AUTHORIZED", "CAPTURED"); ("AUTHORIZED", "FAILED"); ("AUTHORIZED", "REFUNDED");
          ("CAPTURED", "REFUNDED") ].
Proof.
  unfold Payment.validate_state_transition, Payment.VALID_TRANSITIONS.
  rewrite bool_decide_eq_true. simpl.
  repeat (rewrite lookup_insert; case_decide; subst; simpl;
          [rewrite ?list_elem_of_In; simpl; intuition congruence|]).
  rewrite lookup_empty. simpl. rewrite list_elem_of_In. simpl. intuition congruence.
Qed.

(** What one request does to one payment intent. *)
Lemma handle_webhook_row load_event now req s pid p :
  Payment.payment_transactions s !! pid = Some p ->
  exists p',
    Payment.payment_transactions (snd (Payment.handle_webhook load_event now req s)) !! pid
    = Some p'
    /\ (p' = p
        \/ exists ev,
             load_event (Payment.req_body req) = inr ev
             /\ Payment.we_tzinfo ev = None
             /\ Payment.pt_updated_at p <= Payment.we_timestamp ev
             /\ Payment.validate_state_transition (Payment.pt_status p) (Payment.we_status ev)
                = true
             /\ p' = Payment.apply_transition now ev p).
Proof.
  intros Hp.
  destruct (Payment.idempotency_keys s !! Payment.idempotency_key_of req) as [rec|] eqn:Hrec.
  - destruct (PaymentFacts.db_hit now _ _ _ Hrec) as (warmed & Hdb & [Ht _] & _).
    unfold Payment.handle_webhook.
    destruct (Payment.check_idempotency_cache now (Payment.idempotency_key_of req) s)
      as [[b st]|]; simpl; [eauto|].
    rewrite Hdb. simpl. rewrite Ht. eauto.
  - unfold Payment.handle_webhook.
    destruct (Payment.check_idempotency_cache now (Payment.idempotency_key_of req) s)
      as [[b st]|] eqn:Hcache; simpl; [eauto|].
    rewrite PaymentFacts.db_miss by assumption.
    destruct (PaymentFacts.process_effect load_event now req s (conj Hcache Hrec))
      as [[Ht _]|ev pid' p0 _ Hl Hf Hz Hge Hv [Ht _]].
    + rewrite Ht. eauto.
    + rewrite Ht. simpl.
      apply PaymentFacts.find_payment_Some in Hf as [Hp0 _].
      destruct (decide (pid' = pid)) as [->|Hne].
      * rewrite lookup_insert_eq. assert (p0 = p) as -> by congruence.
        eexists. split; [reflexivity|]. right. exists ev. auto.
      * rewrite lookup_insert_ne by assumption. eauto.
Qed.

Lemma handle_all_row load_event reqs : forall s pid p,
  Payment.payment_transactions s !! pid = Some p ->
  exists p',
    Payment.payment_transactions (Payment.handle_all load_event reqs s) !! pid = Some p'
    /\ (p' = p \/ Payment.pt_version p < Payment.pt_version p')
    /\ (forall t, Payment.pt_updated_at p <= t -> PaymentSpec.punctual load_event t reqs ->
          Payment.pt_updated_at p <= Payment.pt_updated_at p').
Proof.
  induction reqs as [|[now req] rest IH]; intros s pid p Hp; simpl.
  - exists p. split; [assumption|]. split; [auto|]. intros; lia.
  - destruct (handle_webhook_row load_event now req s pid p Hp) as (p1 & Hp1 & Hstep).
    destruct (IH _ pid p1 Hp1) as (p' & Hp' & Hv & Hu).
    exists p'. split; [assumption|].
    destruct Hstep as [->|(ev & Hl & _ & Hge & _ & ->)].
    + split; [assumption|]. intros t Ht (Hnow & _ & Hrest).
      apply (Hu now); [lia|assumption].
    + split.
      * right. destruct Hv as [->|Hv]; simpl in *; lia.
      * intros t Ht (Hnow & Hev & Hrest). specialize (Hev ev Hl).
        assert (Hstamp : Payment.pt_updated_at p
                         <= Payment.pt_updated_at (Payment.apply_transition now ev p) <= now).
        { simpl. destruct (Z.eqb_spec (Payment.we_timestamp ev) (Payment.pt_updated_at p)); lia. }
        specialize (Hu now ltac:(lia) Hrest). lia.
Qed.

(** C3, as stated, fails. An AUTHORIZED proposed to an INITIATED intent is in
    the graph, yet it is not applied when its time stamp is older than the
    intent (nor is an illegal proposal answered 400 then: it is ignored with
    a 200); and a legal, timely proposal is not applied when it arrives under
    a key whose response is kept: it is answered with that response. Nor is
    updated_at weakly increasing: an authorization stamped 10:00:20 by a
    gateway whose clock is ahead is served at 10:00:07, and the capture that
    carries the same stamp is served at 10:00:09; the column is assigned the
    value it holds, so [onupdate] stamps it with the clock of the server and
    updated_at goes back from 10:00:20 to 10:00:09. *)
Lemma transition_not_always_applied :
  Payment.validate_state_transition "INITIATED" "AUTHORIZED" = true
  /\ fst (WebhookScenario.post (WebhookScenario.ten_oclock 7) "AUTHORIZED at 10:00:02" "K0"
            WebhookScenario.store)
     = {| Payment.content := Payment.out_of_order_body; Payment.status_code := 200 |}
  /\ WebhookScenario.status_of
       (snd (WebhookScenario.post (WebhookScenario.ten_oclock 7) "AUTHORIZED at 10:00:02" "K0"
               WebhookScenario.store))
     = Some "INITIATED"
  /\ Payment.validate_state_transition "INITIATED" "CAPTURED" = false
  /\ Payment.status_code
       (fst (WebhookScenario.post (WebhookScenario.ten_oclock 7) "CAPTURED at 10:00:02" "K0"
               WebhookScenario.store))
     = 200
  /\ WebhookScenario.status_of (snd WebhookScenario.authorized) = Some "AUTHORIZED"
  /\ Payment.validate_state_transition "AUTHORIZED" "CAPTURED" = true
  /\ fst WebhookScenario.key_reused = fst WebhookScenario.authorized
  /\ WebhookScenario.status_of (snd WebhookScenario.key_reused) = Some "AUTHORIZED"
  /\ WebhookScenario.version_in (snd WebhookScenario.key_reused) = Some 2
  /\ WebhookScenario.status_of (snd WebhookScenario.ahead) = Some "AUTHORIZED"
  /\ WebhookScenario.updated_in (snd WebhookScenario.ahead)
     = Some (WebhookScenario.ten_oclock 20)
  /\ WebhookScenario.status_of (snd WebhookScenario.same_stamp) = Some "CAPTURED"
  /\ WebhookScenario.version_in (snd WebhookScenario.same_stamp) = Some 3
  /\ WebhookScenario.updated_in (snd WebhookScenario.same_stamp)
     = Some (WebhookScenario.ten_oclock 9)
  /\ WebhookScenario.ten_oclock 9 < WebhookScenario.ten_oclock 20.
Proof. repeat split; vm_compute; reflexivity. Qed.

(** C3, amended. For every webhook event served for the first time under its
    key (no response is kept for the key) that proposes a status to an
    existing intent, carries an offset-naive time stamp and is not older
    than the intent: the transition is applied if and only if it is an edge
    of the graph; an illegal one is answered 400 with reason
    invalid_transition and changes no table; an accepted one sets the
    status, adds exactly one to the version, appends one transition record
    and sets updated_at to the time stamp of the event, or to the clock of
    the server when that time stamp is the one the intent holds. Whatever
    the request, one request either leaves an intent as it is or applies
    such a transition to it; so along any sequence of requests the version
    of an intent grows strictly with each change, and updated_at never
    decreases as long as the clock of the server does not run backwards and
    no event is stamped later than the clock reads when it is served. *)
Theorem transition_graph_enforced :
  (forall cur new,
      Payment.validate_state_transition cur new = true
      <-> In (cur, new)
            [ ("INITIATED", "AUTHORIZED"); ("INITIATED", "FAILED");
              ("AUTHORIZED", "CAPTURED"); ("AUTHORIZED", "FAILED");
              ("AUTHORIZED", "REFUNDED"); ("CAPTURED", "REFUNDED") ])
  /\ (forall load_event now req s ev pid p,
      PaymentSpec.unseen now (Payment.idempotency_key_of req) s ->
      load_event (Payment.req_body req) = inr ev ->
      Payment.find_payment (Payment.we_payment_intent_id ev) s = Some (pid, p) ->
      Payment.we_tzinfo ev = None ->
      Payment.pt_updated_at p <= Payment.we_timestamp ev ->
      let r := fst (Payment.handle_webhook load_event now req s) in
      let s' := snd (Payment.handle_webhook load_event now req s) in
      if Payment.validate_state_transition (Payment.pt_status p) (Payment.we_status ev)
      then
        exists p',
          Payment.payment_transactions s' = <[ pid := p' ]> (Payment.payment_transactions s)
          /\ Payment.pt_status p' = Payment.we_status ev
          /\ Payment.pt_version p' = Payment.pt_version p + 1
          /\ Payment.pt_updated_at p'
             = (if Payment.we_timestamp ev =? Payment.pt_updated_at p
                then now else Payment.we_timestamp ev)
          /\ Payment.payment_state_history s'
             = Payment.payment_state_history s
               ++ [PaymentSpec.history_row now (Payment.idempotency_key_of req) pid ev p]
          /\ r = {| Payment.content := Payment.processed_body pid (Payment.pt_status p) p';
                    Payment.status_code := 200 |}
      else
        r = {| Payment.content :=
                 Payment.invalid_transition_body (Payment.pt_status p) (Payment.we_status ev);
               Payment.status_code := 400 |}
        /\ Payment.payment_transactions s' = Payment.payment_transactions s
        /\ Payment.payment_state_history s' = Payment.payment_state_history s)
  /\ (forall load_event now req s pid p,
      Payment.payment_transactions s !! pid = Some p ->
      exists p',
        Payment.payment_transactions (snd (Payment.handle_webhook load_event now req s)) !! pid
        = Some p'
        /\ (p' = p
            \/ exists ev,
                 load_event (Payment.req_body req) = inr ev
                 /\ Payment.pt_updated_at p <= Payment.we_timestamp ev
                 /\ Payment.validate_state_transition (Payment.pt_status p) (Payment.pt_status p')
                    = true
                 /\ Payment.pt_status p' = Payment.we_status ev
                 /\ Payment.pt_version p' = Payment.pt_version p + 1
                 /\ Payment.pt_updated_at p'
                    = (if Payment.we_timestamp ev =? Payment.pt_updated_at p
                       then now else Payment.we_timestamp ev)))
  /\ (forall load_event reqs s pid p,
      Payment.payment_transactions s !! pid = Some p ->
      exists p',
        Payment.payment_transactions (Payment.handle_all load_event reqs s) !! pid = Some p'
        /\ (p' = p \/ Payment.pt_version p < Payment.pt_version p')
        /\ (forall t, Payment.pt_updated_at p <= t ->
              PaymentSpec.punctual load_event t reqs ->
              Payment.pt_updated_at p <= Payment.pt_updated_at p')).
Proof.
  split; [exact transition_graph|]. split; [|split].
  - intros load_event now req s ev pid p Hun Hl Hf Hz Hge r s'. subst r s'.
    rewrite (PaymentFacts.handle_unseen load_event now req s Hun).
    destruct (Payment.validate_state_transition (Payment.pt_status p) (Payment.we_status ev))
      eqn:Hv.
    + rewrite (PaymentFacts.process_accepted load_event _ _ _ _ _ _ _ Hl Hf Hz Hge Hv). simpl.
      exists (Payment.apply_transition now ev p). repeat split.
    + rewrite (PaymentFacts.process_rejected load_event _ _ _ _ _ _ _ Hl Hf Hz Hge Hv). simpl.
      repeat split.
  - intros load_event now req s pid p Hp.
    destruct (handle_webhook_row load_event now req s pid p Hp) as (p' & Hp' & Hstep).
    exists p'. split; [assumption|].
    destruct Hstep as [->|(ev & Hl & _ & Hge & Hv & ->)]; [auto|].
    right. exists ev. repeat split; assumption.
  - intros load_event reqs. exact (handle_all_row load_event reqs).
Qed.

Lemma transition_graph_enforced_witness :
  exists p',
    Payment.payment_transactions (snd WebhookScenario.authorized)
    = <[ 42%N := p' ]> (Payment.payment_transactions WebhookScenario.store)
    /\ Payment.pt_status p' = "AUTHORIZED"
    /\ Payment.pt_version p' = 2
    /\ Payment.pt_updated_at p' = WebhookScenario.ten_oclock 6.
Proof.
  destruct transition_graph_enforced as (_ & H & _).
  specialize (H WebhookScenario.decode (WebhookScenario.ten_oclock 7)
                (WebhookScenario.request "AUTHORIZED at 10:00:06" "K1")
                WebhookScenario.store
                (WebhookScenario.event "AUTHORIZED" (WebhookScenario.ten_oclock 6))
                42%N WebhookScenario.intent).
  simpl in H.
  destruct H as (p' & Hp & Hs & Hv & Hu & _).
  - split; reflexivity.
  - reflexivity.
  - vm_compute. reflexivity.
  - reflexivity.
  - vm_compute. discriminate.
  - exists p'. repeat split; assumption.
Defined.

(** C6, as stated, fails. The authorization stamped 10:00:06 is processed,
    then a capture stamped 10:00:08; when the gateway sends the authorization
    again under its key, the event is older than the intent, yet the answer
    is the kept response of its first delivery (processed), not the
    out-of-order one, and the response kept for the key is unchanged. *)
Lemma stale_replay_not_ignored :
  Payment.pt_updated_at <$> Payment.payment_transactions (snd WebhookScenario.captured) !! 42%N
  = Some (WebhookScenario.ten_oclock 8)
  /\ WebhookScenario.ten_oclock 6 < WebhookScenario.ten_oclock 8
  /\ fst WebhookScenario.redelivered
     = {| Payment.content :=
            [ ("status", Json.Str "processed");
              ("payment_id", Json.Str "00000000-0000-0000-0000-00000000002a");
              ("old_status", Json.Str "INITIATED");
              ("new_status", Json.Str "AUTHORIZED");
              ("version", Json.Int 2) ];
          Payment.status_code := 200 |}
  /\ Payment.response_body <$> Payment.idempotency_keys (snd WebhookScenario.redelivered) !! "K1"
     = Some (Payment.content (fst WebhookScenario.authorized)).
Proof. repeat split; vm_compute; reflexivity. Qed.

(** C6, amended. A webhook event whose time stamp is strictly earlier than
    the updated_at of the stored intent never changes the tables of intents
    and of transition records. When it carries an offset-naive time stamp and
    is served for the first time under its key (no response is kept for the
    key), the answer is 200 with status ignored and reason out_of_order, and
    that answer is kept for the key in the table and, for the next 24 hours,
    in the cache. *)
Theorem stale_event_ignored load_event now req s ev pid p :
  load_event (Payment.req_body req) = inr ev ->
  Payment.find_payment (Payment.we_payment_intent_id ev) s = Some (pid, p) ->
  Payment.we_timestamp ev < Payment.pt_updated_at p ->
  let r := fst (Payment.handle_webhook load_event now req s) in
  let s' := snd (Payment.handle_webhook load_event now req s) in
  Payment.payment_transactions s' = Payment.payment_transactions s
  /\ Payment.payment_state_history s' = Payment.payment_state_history s
  /\ (PaymentSpec.unseen now (Payment.idempotency_key_of req) s ->
      Payment.we_tzinfo ev = None ->
      r = {| Payment.content :=
               [ ("status", Json.Str "ignored");
                 ("reason", Json.Str "out_of_order");
                 ("message", Json.Str "Event is older than current state") ];
             Payment.status_code := 200 |}
      /\ PaymentSpec.stored s' (Payment.idempotency_key_of req) (Payment.content r) 200
      /\ forall t, t < now + Payment.idempotency_ttl ->
           Payment.check_idempotency_cache t (Payment.idempotency_key_of req) s'
           = Some (Payment.content r, 200)).
Proof.
  intros Hl Hf Hlt r s'. subst r s'.
  assert (Hfirst : PaymentSpec.unseen now (Payment.idempotency_key_of req) s ->
                   Payment.we_tzinfo ev = None ->
                   Payment.handle_webhook load_event now req s
                   = ({| Payment.content := Payment.out_of_order_body;
                         Payment.status_code := 200 |},
                      Payment.save_idempotency_record now (Payment.idempotency_key_of req)
                        Payment.out_of_order_body 200 s)).
  { intros Hun Hz. rewrite (PaymentFacts.handle_unseen load_event now req s Hun).
    exact (PaymentFacts.process_stale load_event _ _ _ _ _ _ _ Hl Hf Hz Hlt). }
  assert (Htables : PaymentSpec.same_tables s
                      (snd (Payment.handle_webhook load_event now req s))).
  { destruct (Payment.idempotency_keys s !! Payment.idempotency_key_of req) as [rec|] eqn:Hrec.
    - destruct (PaymentFacts.db_hit now _ _ _ Hrec) as (warmed & Hdb & Ht & _).
      unfold Payment.handle_webhook.
      destruct (Payment.check_idempotency_cache now (Payment.idempotency_key_of req) s)
        as [[b st]|]; simpl; [split; reflexivity|].
      rewrite Hdb. exact Ht.
    - destruct (Payment.check_idempotency_cache now (Payment.idempotency_key_of req) s)
        as [[b st]|] eqn:Hcache.
      + unfold Payment.handle_webhook. rewrite Hcache. split; reflexivity.
      + destruct (Payment.we_tzinfo ev) as [offset|] eqn:Hz.
        * rewrite (PaymentFacts.handle_unseen load_event now req s (conj Hcache Hrec)).
          rewrite (PaymentFacts.process_aware load_event _ _ _ _ _ _ _ _ Hl Hf Hz).
          split; reflexivity.
        * rewrite (Hfirst (conj Hcache Hrec) eq_refl). apply PaymentFacts.save_tables. }
  destruct Htables as [Hp Hh].
  split; [exact Hp|]. split; [exact Hh|].
  intros Hun Hz. rewrite (Hfirst Hun Hz). simpl. split; [reflexivity|].
  split.
  - apply PaymentFacts.save_stored. apply Hun.
  - intros t Ht. by apply PaymentFacts.save_cached.
Qed.

Lemma stale_event_ignored_witness :
  fst (WebhookScenario.post (WebhookScenario.ten_oclock 7) "AUTHORIZED at 10:00:02" "K0"
         WebhookScenario.store)
  = {| Payment.content :=
         [ ("status", Json.Str "ignored");
           ("reason", Json.Str "out_of_order");
           ("message", Json.Str "Event is older than current state") ];
       Payment.status_code := 200 |}
  /\ Payment.payment_transactions
       (snd (WebhookScenario.post (WebhookScenario.ten_oclock 7) "AUTHORIZED at 10:00:02" "K0"
               WebhookScenario.store))
     = Payment.payment_transactions WebhookScenario.store.
Proof.
  destruct (stale_event_ignored WebhookScenario.decode (WebhookScenario.ten_oclock 7)
              (WebhookScenario.request "AUTHORIZED at 10:00:02" "K0")
              WebhookScenario.store
              (WebhookScenario.event "AUTHORIZED" (WebhookScenario.ten_oclock 2))
              42%N WebhookScenario.intent)
    as (Hp & _ & Hr).
  - reflexivity.
  - vm_compute. reflexivity.
  - vm_compute. reflexivity.
  - destruct Hr as (Hr & _); [split; reflexivity | reflexivity |].
    split; [exact Hr | exact Hp].
Defined.

(** An event whose time stamp carries an offset cannot be compared with the
    updated_at of the intent: the request ends in a 500, nothing is changed
    and no response is kept, whether the event is old or not. *)
Example aware_stamp_is_an_error :
  WebhookScenario.post (WebhookScenario.ten_oclock 7) "AUTHORIZED at 10:00:02Z" "K5"
    WebhookScenario.store
  = ({| Payment.content :=
          [("error", Json.Str "can't compare offset-naive and offset-aware datetimes")];
        Payment.status_code := 500 |},
     WebhookScenario.store).
Proof. vm_compute. reflexivity. Qed.

(* ===================================================================== *)
(** ** Derived idempotency keys                                            *)
(* ===================================================================== *)

(** C4, as stated, fails for the transfer endpoint. The same body, sent
    twice without the header one second apart, derives two different keys:
    the text that is hashed ends with the reading of the clock. *)
Lemma transfer_key_follows_clock :
  Bank.transfer_key None LedgerScenario.move75 LedgerScenario.noon
  = Sha256.hexdigest "2025010100000001:2025010100000002:75.0:2025-01-01T00:00:00"
  /\ Bank.transfer_key None LedgerScenario.move75 LedgerScenario.later
     = Sha256.hexdigest "2025010100000001:2025010100000002:75.0:2025-01-01T00:00:01"
  /\ Bank.transfer_key None LedgerScenario.move75 LedgerScenario.noon
     = "892eadb9599af47f82b035ad73bc866e5e3b000f34c2750acdc0b24a61154f72"
  /\ Bank.transfer_key None LedgerScenario.move75 LedgerScenario.later
     = "e5df6c046dba99d703584dfefb00b0458a15f36991280a4653ab2e8867cd5166"
  /\ Bank.transfer_key None LedgerScenario.move75 LedgerScenario.noon
     <> Bank.transfer_key None LedgerScenario.move75 LedgerScenario.later.
Proof.
  assert (H1 : Bank.transfer_key None LedgerScenario.move75 LedgerScenario.noon
               = "892eadb9599af47f82b035ad73bc866e5e3b000f34c2750acdc0b24a61154f72")
    by (vm_compute; reflexivity).
  assert (H2 : Bank.transfer_key None LedgerScenario.move75 LedgerScenario.later
               = "e5df6c046dba99d703584dfefb00b0458a15f36991280a4653ab2e8867cd5166")
    by (vm_compute; reflexivity).
  split; [vm_compute; reflexivity|]. split; [vm_compute; reflexivity|].
  split; [exact H1|]. split; [exact H2|].
  rewrite H1, H2. discriminate.
Qed.

(** C4, amended. Without the header (or with an empty one) the webhook
    derives its key as the SHA-256 of the body alone: two such requests with
    the same body derive the same key, and once the first was processed the
    second is answered as its replay and changes no table. The transfer
    endpoint derives its key as the SHA-256 of
    [from:to:amount:utcnow().isoformat()]: the key depends on the account
    numbers, the amount and the reading of the clock, so two requests with
    the same body derive the same key when the clock reads the same. *)
Theorem derived_idempotency_keys :
  (forall req,
      Payment.x_idempotency_key req = None \/ Payment.x_idempotency_key req = Some "" ->
      Payment.idempotency_key_of req = Sha256.hexdigest (Payment.req_body req))
  /\ (forall load_event s now1 req1 now2 req2,
      PaymentSpec.coherent s ->
      Payment.x_idempotency_key req1 = None ->
      Payment.x_idempotency_key req2 = None ->
      Payment.req_body req2 = Payment.req_body req1 ->
      Payment.status_code (fst (Payment.handle_webhook load_event now1 req1 s)) <> 500 ->
      let first := Payment.handle_webhook load_event now1 req1 s in
      let second := Payment.handle_webhook load_event now2 req2 (snd first) in
      Payment.idempotency_key_of req2 = Payment.idempotency_key_of req1
      /\ fst second = fst first
      /\ Payment.payment_transactions (snd second) = Payment.payment_transactions (snd first)
      /\ Payment.payment_state_history (snd second)
         = Payment.payment_state_history (snd first))
  /\ (forall t now,
      Bank.transfer_key None t now
      = Sha256.hexdigest
          (Bank.from_account_number t +:+ ":" +:+ Bank.to_account_number t +:+ ":"
           +:+ Text.str_float (Bank.tc_amount t) +:+ ":" +:+ Text.isoformat now))
  /\ (forall t1 t2 now,
      Bank.from_account_number t1 = Bank.from_account_number t2 ->
      Bank.to_account_number t1 = Bank.to_account_number t2 ->
      Bank.tc_amount t1 = Bank.tc_amount t2 ->
      Bank.transfer_key None t1 now = Bank.transfer_key None t2 now).
Proof.
  split; [|split; [|split]].
  - intros req [H|H]; unfold Payment.idempotency_key_of; rewrite H; reflexivity.
  - intros load_event s now1 req1 now2 req2 Hc H1 H2 Hb H500 first second.
    assert (Hkey : Payment.idempotency_key_of req2 = Payment.idempotency_key_of req1)
      by (unfold Payment.idempotency_key_of; rewrite H1, H2, Hb; reflexivity).
    destruct (PaymentFacts.handle_summary load_event now1 req1 s Hc) as (Hc1 & _ & Hst & _).
    specialize (Hst H500). fold first in Hc1, Hst. rewrite <- Hkey in Hst.
    destruct (PaymentFacts.handle_replay load_event now2 req2 (snd first) _ _ Hc1 Hst)
      as (Hr & [Hp Hh] & _ & _).
    fold second in Hr, Hp, Hh.
    repeat split; try assumption.
    rewrite Hr. by destruct (fst first).
  - reflexivity.
  - intros t1 t2 now Hf Ht Ha. unfold Bank.transfer_key, Bank.derived_key.
    by rewrite Hf, Ht, Ha.
Qed.

Lemma derived_idempotency_keys_witness :
  Payment.idempotency_key_of
    {| Payment.req_body := "AUTHORIZED at 10:00:06"; Payment.x_idempotency_key := None |}
  = Sha256.hexdigest "AUTHORIZED at 10:00:06"
  /\ Bank.transfer_key None LedgerScenario.move75 LedgerScenario.noon
     = Bank.transfer_key None
         {| Bank.from_account_number := "2025010100000001";
            Bank.to_account_number := "2025010100000002";
            Bank.tc_amount := 7500;
            Bank.tc_description := Some "rent";
            Bank.idempotency_key := Some "unused" |}
         LedgerScenario.noon.
Proof.
  destruct derived_idempotency_keys as (H1 & _ & _ & H4).
  split.
  - apply H1. left. reflexivity.
  - apply H4; reflexivity.
Defined.

(* ===================================================================== *)
(** ** Pledges and their outbox events                                     *)
(* ===================================================================== *)

Module DonationFacts.
Import Donation DonationSpec.

Lemma commits_dec fault id d : {commits fault id d} + {~ commits fault id d}.
Proof.
  unfold commits.
  destruct (raises fault AtFlush); [right; intros [? _]; discriminate|].
  destruct (raises fault AtOutbox); [right; intros (_ & ? & _); discriminate|].
  destruct (raises fault AtCommit); [right; intros (_ & _ & ? & _); discriminate|].
  destruct (donations d !! id); [right; intros (_ & _ & _ & ?); discriminate|].
  left. auto.
Qed.

Lemma create_donation_committed data id now fault d :
  commits fault id d ->
  exists event,
    snd (create_donation data id now fault d)
    = {| donations := <[ id := pledge data now ]> (donations d);
         outbox_events := outbox_events d ++ [event] |}
    /\ aggregate_id event = id
    /\ event_type event = "DonationCreated"
    /\ processed_at event = None
    /\ (fst (create_donation data id now fault d) = inr (id, pledge data now)
        \/ exists msg, raises fault AtRefresh = Some msg
                       /\ fst (create_donation data id now fault d)
                          = inl (HTTPException 500 ("Failed to create donation: " +:+ msg))).
Proof.
  intros (H1 & H2 & H3 & H4). unfold create_donation. simpl.
  rewrite H1, H4, H2, H3. fold (pledge data now).
  destruct (raises fault AtRefresh) as [msg|] eqn:H5; simpl;
    (eexists; split; [reflexivity|]); repeat split; eauto.
Qed.

Lemma create_donation_rolled_back data id now fault d :
  ~ commits fault id d ->
  snd (create_donation data id now fault d) = d
  /\ exists msg, fst (create_donation data id now fault d) = inl (HTTPException 500 msg).
Proof.
  intros Hn. unfold create_donation. simpl.
  destruct (raises fault AtFlush) as [m1|] eqn:H1; [simpl; eauto|].
  destruct (donations d !! id) eqn:H4; [simpl; eauto|].
  destruct (raises fault AtOutbox) as [m2|] eqn:H2; [simpl; eauto|].
  destruct (raises fault AtCommit) as [m3|] eqn:H3; [simpl; eauto|].
  exfalso. apply Hn. repeat split; assumption.
Qed.

Lemma create_donation_paired data id now fault d :
  paired d -> paired (snd (create_donation data id now fault d)).
Proof.
  intros Hp.
  destruct (commits_dec fault id d) as [Hc|Hn].
  - destruct (create_donation_committed data id now fault d Hc)
      as (event & -> & Ha & He & _).
    intros i. unfold created_events. simpl.
    rewrite filter_app, fmap_app, filter_cons, filter_nil.
    destruct (decide (event_type event = "DonationCreated")); [|contradiction].
    simpl. rewrite in_app_iff. simpl. rewrite Ha.
    destruct (decide (i = id)) as [->|Hne].
    + rewrite lookup_insert_eq. split; [auto|eauto].
    + rewrite lookup_insert_ne by congruence. rewrite (Hp i).
      unfold created_events. intuition congruence.
  - by destruct (create_donation_rolled_back data id now fault d Hn) as [-> _].
Qed.

End DonationFacts.

(** C7. [create_donation] writes the pledge and its [DonationCreated] event
    in one transaction, whatever call fails. When no call fails up to the
    commit and the identifier is free, the database gains exactly the pledge
    row and, at the end of the outbox, one unprocessed [DonationCreated] row
    that refers to it (the answer is the pledge, or a 500 if only the later
    refresh fails). In every other case the database is left as it was and
    the answer is a 500. So every run yields both rows or neither, and over
    any sequence of runs, with any failures, each pledge has its outbox row
    and each such outbox row its pledge. *)
Theorem pledge_and_outbox_atomic :
  (forall data id now fault d,
      let result := Donation.create_donation data id now fault d in
      (DonationSpec.commits fault id d
       /\ exists donation event,
            Donation.donations (snd result) = <[ id := donation ]> (Donation.donations d)
            /\ Donation.outbox_events (snd result) = Donation.outbox_events d ++ [event]
            /\ Donation.aggregate_id event = id
            /\ Donation.event_type event = "DonationCreated"
            /\ Donation.processed_at event = None
            /\ (fst result = inr (id, donation)
                \/ exists msg, Donation.raises fault Donation.AtRefresh = Some msg
                               /\ fst result
                                  = inl (HTTPException 500
                                           ("Failed to create donation: " +:+ msg))))
      \/ (~ DonationSpec.commits fault id d
          /\ snd result = d
          /\ exists msg, fst result = inl (HTTPException 500 msg)))
  /\ (forall calls d,
      DonationSpec.paired d -> DonationSpec.paired (Donation.create_all calls d)).
Proof.
  split.
  - intros data id now fault d result. subst result.
    destruct (DonationFacts.commits_dec fault id d) as [Hc|Hn].
    + left. split; [assumption|].
      destruct (DonationFacts.create_donation_committed data id now fault d Hc)
        as (event & Hs & Ha & He & Hp & Hr).
      exists (DonationSpec.pledge data now), event. rewrite Hs. simpl. auto 10.
    + right. split; [assumption|].
      by apply DonationFacts.create_donation_rolled_back.
  - induction calls as [|[[[data id] now] fault] rest IH]; intros d Hp; simpl; [assumption|].
    apply IH. by apply DonationFacts.create_donation_paired.
Qed.

Lemma pledge_and_outbox_atomic_witness :
  In 5%N
    (Donation.created_events
       (Donation.create_all
          [ ({| Donation.dc_campaign_id := 1; Donation.dc_donor_email := "donor@example.org";
                Donation.dc_amount := 10000; Donation.dc_currency := "USD";
                Donation.dc_extra_data := None |}, 5%N, 0, None);
            ({| Donation.dc_campaign_id := 1; Donation.dc_donor_email := "donor@example.org";
                Donation.dc_amount := 2500; Donation.dc_currency := "USD";
                Donation.dc_extra_data := None |}, 6%N, 0,
             Some (Donation.AtCommit, "server closed the connection unexpectedly")) ]
          {| Donation.donations := ∅; Donation.outbox_events := [] |}))
  /\ Donation.donations
       (Donation.create_all
          [ ({| Donation.dc_campaign_id := 1; Donation.dc_donor_email := "donor@example.org";
                Donation.dc_amount := 10000; Donation.dc_currency := "USD";
                Donation.dc_extra_data := None |}, 5%N, 0, None);
            ({| Donation.dc_campaign_id := 1; Donation.dc_donor_email := "donor@example.org";
                Donation.dc_amount := 2500; Donation.dc_currency := "USD";
                Donation.dc_extra_data := None |}, 6%N, 0,
             Some (Donation.AtCommit, "server closed the connection unexpectedly")) ]
          {| Donation.donations := ∅; Donation.outbox_events := [] |}) !! 6%N = None.
Proof.
  destruct pledge_and_outbox_atomic as [_ H].
  split; [|reflexivity].
  apply H.
  - intros id. simpl. rewrite lookup_empty. split; [intros [? ?]; discriminate|tauto].
  - vm_compute. eauto.
Defined.

(* ===================================================================== *)
(** ** Notifications                                                       *)
(* ===================================================================== *)

Module NotificationFacts.
Import Notification.

Lemma rows_for_insert donation id row s s' :
  notifications s !! id = None ->
  notifications s' = <[ id := row ]> (notifications s) ->
  rows_for donation s'
  = if decide (donation_id row = donation) then S (rows_for donation s) else rows_for donation s.
Proof.
  intros Hfresh Heq. unfold rows_for. rewrite Heq.
  rewrite (map_to_list_insert _ _ _ Hfresh). rewrite filter_cons. simpl.
  destruct (decide (donation_id row = donation)); reflexivity.
Qed.

End NotificationFacts.

(** C9, as stated, fails: the table of notifications has no uniqueness
    constraint and the consumer looks for no earlier row. Two deliveries of
    the same [DonationCreated] message leave two rows for the donation and
    two mails to the donor, and both deliveries are acknowledged. *)
Lemma duplicate_delivery_notifies_twice :
  Notification.rows_for NotificationScenario.donation NotificationScenario.delivered_twice
  = 2%nat
  /\ Notification.mails_to "donor@example.org" NotificationScenario.delivered_twice = 2%nat
  /\ Notification.acks NotificationScenario.delivered_twice = [1; 2]
  /\ Notification.nacks NotificationScenario.delivered_twice = [].
Proof. repeat split; vm_compute; reflexivity. Qed.

(** C9, amended. Every delivery of a well-formed donation event (a body
    that decodes, with a donation identifier and a donor address) is handled
    on its own: the consumer inserts one new notification row for the
    donation, whether or not rows for that donation exist already, hands one
    mail to the provider, marks the row SENT when the provider accepts it
    (FAILED otherwise) and acknowledges the delivery. Nothing is deduplicated:
    each further delivery of the same event adds one more row and one more
    mail. *)
Theorem every_delivery_notifies d id now accepted s event fields donation address :
  Notification.body d = Some event ->
  Notification.ev_payload event = Some fields ->
  Notification.parse_uuid (Notification.p_id fields) = Some donation ->
  Notification.p_donor_email fields = Some address ->
  Notification.notifications s !! id = None ->
  let s' := Notification.callback d id now accepted s in
  Notification.rows_for donation s' = S (Notification.rows_for donation s)
  /\ (exists row,
        Notification.notifications s' = <[ id := row ]> (Notification.notifications s)
        /\ Notification.donation_id row = donation
        /\ Notification.recipient row = address
        /\ Notification.status row = (if accepted then "SENT" else "FAILED"))
  /\ (exists mail,
        Notification.to mail = address
        /\ Notification.mails s'
           = if accepted then Notification.mails s ++ [mail] else Notification.mails s)
  /\ Notification.acks s' = Notification.acks s ++ [Notification.delivery_tag d]
  /\ Notification.nacks s' = Notification.nacks s.
Proof.
  intros Hbody Hpayload Hid Hmail Hfresh s'. subst s'.
  unfold Notification.callback. rewrite Hbody, Hpayload. simpl.
  rewrite Hid, Hmail, Hfresh. simpl.
  split; [|split; [|split; [|split]]].
  - erewrite NotificationFacts.rows_for_insert;
      [| eassumption | simpl; apply insert_insert_eq].
    simpl. by destruct (decide (donation = donation)).
  - eexists. split; [apply insert_insert_eq|]. simpl. auto.
  - eexists. split; [|destruct accepted; reflexivity]. reflexivity.
  - reflexivity.
  - reflexivity.
Qed.

Lemma every_delivery_notifies_witness :
  Notification.rows_for NotificationScenario.donation
    (Notification.callback (NotificationScenario.message 2) 102%N 5000000 true
       (Notification.callback (NotificationScenario.message 1) 101%N 0 true
          NotificationScenario.idle))
  = S (Notification.rows_for NotificationScenario.donation
         (Notification.callback (NotificationScenario.message 1) 101%N 0 true
            NotificationScenario.idle)).
Proof.
  apply (every_delivery_notifies (NotificationScenario.message 2) 102%N 5000000 true
           (Notification.callback (NotificationScenario.message 1) 101%N 0 true
              NotificationScenario.idle)
           {| Notification.ev_event_type := Some "DonationCreated";
              Notification.ev_payload :=
                Some {| Notification.p_id := Some NotificationScenario.donation_text;
                        Notification.p_donor_email := Some "donor@example.org";
                        Notification.p_amount := Some 10000;
                        Notification.p_status := Some "PENDING";
                        Notification.p_currency := Some "USD" |} |}
           {| Notification.p_id := Some NotificationScenario.donation_text;
              Notification.p_donor_email := Some "donor@example.org";
              Notification.p_amount := Some 10000;
              Notification.p_status := Some "PENDING";
              Notification.p_currency := Some "USD" |}
           NotificationScenario.donation "donor@example.org");
    vm_compute; reflexivity.
Defined.

Module PaymentApiFacts.
Import Payment PaymentSpec PaymentApi.

Lemma find_payment_None intent s :
  find_payment intent s = None
  <-> forall i p, payment_transactions s !! i = Some p -> payment_intent_id p <> intent.
Proof.
  unfold find_payment. rewrite fmap_None, list_find_None, Forall_forall. split.
  - intros H i p Hp. apply (H (i, p)). by apply elem_of_map_to_list.
  - intros H [i p] Hin. simpl. apply (H i). by apply elem_of_map_to_list.
Qed.

Lemma find_payment_unique s i p :
  unique_intents s -> payment_transactions s !! i = Some p ->
  find_payment (payment_intent_id p) s = Some (i, p).
Proof.
  intros Hu Hp.
  destruct (find_payment (payment_intent_id p) s) as [[j q]|] eqn:Hf.
  - apply PaymentFacts.find_payment_Some in Hf as [Hq Hn].
    assert (j = i) as -> by (eapply Hu; eauto). congruence.
  - exfalso. eapply find_payment_None; eauto.
Qed.

Lemma steps_left_decrease cur new :
  validate_state_transition cur new = true -> steps_left new + 1 <= steps_left cur.
Proof.
  rewrite transition_graph. simpl.
  intros H. repeat (destruct H as [[= <- <-]|H]; [vm_compute; discriminate|]).
  destruct H.
Qed.

Lemma steps_left_bounds status : 0 <= steps_left status <= 3.
Proof. unfold steps_left. repeat case_bool_decide; lia. Qed.

Lemma walks_length cur path :
  walks cur path = true -> Z.of_nat (length path) <= steps_left cur.
Proof.
  revert cur. induction path as [|next rest IH]; intros cur; simpl.
  - intros _. apply steps_left_bounds.
  - intros [Hedge Hrest]%andb_prop. apply steps_left_decrease in Hedge.
    specialize (IH next Hrest). lia.
Qed.

Lemma stuck_status cur new :
  get_allowed_transitions cur = [] -> validate_state_transition cur new = false.
Proof.
  unfold get_allowed_transitions, validate_state_transition. intros ->.
  apply bool_decide_eq_false_2. apply not_elem_of_nil.
Qed.

Section WithDecoder.

Variable load_event : string -> string + WebhookEvent.

Lemma handle_effect now req s :
  effect load_event now req s (snd (handle_webhook load_event now req s)).
Proof.
  unfold handle_webhook.
  destruct (check_idempotency_cache now (idempotency_key_of req) s) as [[b st]|] eqn:Hcache.
  { apply Untouched. split; reflexivity. }
  destruct (idempotency_keys s !! idempotency_key_of req) as [rec|] eqn:Hrec.
  - destruct (PaymentFacts.db_hit now _ _ _ Hrec) as (warmed & -> & Ht & _).
    by apply Untouched.
  - rewrite PaymentFacts.db_miss by assumption.
    apply PaymentFacts.process_effect. by split.
Qed.

(** What one call does to one intent. *)
Lemma serve_row c s pid p :
  payment_transactions s !! pid = Some p ->
  exists p',
    payment_transactions (serve load_event c s) !! pid = Some p'
    /\ (p' = p
        \/ (validate_state_transition (pt_status p) (pt_status p') = true
            /\ pt_version p' = pt_version p + 1
            /\ payment_intent_id p' = payment_intent_id p)).
Proof.
  intros Hp. destruct c as [data u id now|now req|id now]; simpl.
  - unfold create_payment_intent.
    destruct (payment_transactions s !! id) eqn:Hid; simpl; [eauto|].
    destruct (find_payment (intent_name u) s); simpl; [eauto|].
    rewrite lookup_insert_ne by congruence. eauto.
  - destruct (handle_effect now req s) as [[Ht _]|ev pid' p0 _ _ Hf _ _ Hv [Ht _]].
    + rewrite Ht. eauto.
    + rewrite Ht. simpl. apply PaymentFacts.find_payment_Some in Hf as [Hp0 _].
      destruct (decide (pid' = pid)) as [->|Hne].
      * rewrite lookup_insert_eq. assert (p0 = p) as -> by congruence.
        eexists. split; [reflexivity|]. right. simpl. auto.
      * rewrite lookup_insert_ne by assumption. eauto.
  - unfold refund_payment.
    destruct (payment_transactions s !! id) as [q|] eqn:Hid; simpl; [|eauto].
    case_bool_decide as Hst; simpl; [|eauto].
    destruct (decide (id = pid)) as [->|Hne].
    + rewrite lookup_insert_eq. assert (q = p) as -> by congruence.
      eexists. split; [reflexivity|]. right. simpl. rewrite Hst. auto.
    + rewrite lookup_insert_ne by assumption. eauto.
Qed.

End WithDecoder.

End PaymentApiFacts.

(** ** More on the payment intents *)

(** A lookup in a table into which a row was just written. *)
Ltac look_up H :=
  first [ rewrite lookup_insert_eq in H
        | rewrite lookup_insert_ne in H by congruence ].

Section PaymentCalls.
Import Payment PaymentSpec PaymentApi.

Variable load_event : string -> string + WebhookEvent.

(** X1. An intent whose status has no outgoing transition (FAILED, REFUNDED,
    or a status that the graph does not know) is never changed again,
    whatever intents are created, webhooks received and refunds asked for. *)
Theorem terminal_status_is_final calls : forall s pid p,
  payment_transactions s !! pid = Some p ->
  get_allowed_transitions (pt_status p) = [] ->
  payment_transactions (serve_all load_event calls s) !! pid = Some p.
Proof.
  induction calls as [|c rest IH]; intros s pid p Hp Hstuck; simpl; [assumption|].
  destruct (PaymentApiFacts.serve_row load_event c s pid p Hp) as (p1 & Hp1 & [->|(Hv & _)]).
  - by apply IH.
  - rewrite PaymentApiFacts.stuck_status in Hv by assumption. discriminate.
Qed.

(** X2. Whatever the calls, the statuses that an intent goes through form a
    walk in the transition graph, every change raises its version by exactly
    one (the version grows by the length of the walk), and the walk has at
    most three steps. *)
Theorem at_most_three_transitions calls : forall s pid p,
  payment_transactions s !! pid = Some p ->
  exists p' path,
    payment_transactions (serve_all load_event calls s) !! pid = Some p'
    /\ payment_intent_id p' = payment_intent_id p
    /\ walks (pt_status p) path = true
    /\ pt_status p' = List.last path (pt_status p)
    /\ pt_version p' = pt_version p + Z.of_nat (length path)
    /\ (length path <= 3)%nat.
Proof.
  assert (Hmain : forall calls s pid p,
    payment_transactions s !! pid = Some p ->
    exists p' path,
      payment_transactions (serve_all load_event calls s) !! pid = Some p'
      /\ payment_intent_id p' = payment_intent_id p
      /\ walks (pt_status p) path = true
      /\ pt_status p' = List.last path (pt_status p)
      /\ pt_version p' = pt_version p + Z.of_nat (length path)).
  { clear calls. induction calls as [|c rest IH]; intros s pid p Hp; simpl.
    - exists p, []. simpl. repeat split; auto; lia.
    - destruct (PaymentApiFacts.serve_row load_event c s pid p Hp)
        as (p1 & Hp1 & Hstep).
      destruct (IH _ pid p1 Hp1) as (p' & path & Hp' & Hn & Hw & Hl & Hv).
      destruct Hstep as [->|(Hedge & Hv1 & Hn1)].
      + exists p', path. auto.
      + exists p', (pt_status p1 :: path). split; [assumption|].
        split; [congruence|]. split; [simpl; by rewrite Hedge, Hw|].
        split.
        * rewrite Hl. clear. destruct path as [|x l]; [reflexivity|].
          simpl. revert x. induction l as [|y l IHl]; intros x; [reflexivity|].
          simpl. apply IHl.
        * rewrite Hv, Hv1. simpl length. lia. }
  intros s pid p Hp.
  destruct (Hmain calls s pid p Hp) as (p' & path & Hp' & Hn & Hw & Hl & Hv).
  exists p', path. repeat split; try assumption.
  pose proof (PaymentApiFacts.walks_length _ _ Hw) as Hlen.
  pose proof (PaymentApiFacts.steps_left_bounds (pt_status p)). lia.
Qed.

(** X3. Under webhooks alone, the history only grows, every record added is
    an edge of the transition graph, and the version of an intent grows by
    the number of records added for it. *)
Theorem version_counts_records reqs : forall s pid p,
  payment_transactions s !! pid = Some p ->
  exists p' added,
    payment_transactions (handle_all load_event reqs s) !! pid = Some p'
    /\ payment_state_history (handle_all load_event reqs s)
       = payment_state_history s ++ added
    /\ Forall (fun r => validate_state_transition (default "" (from_status r)) (to_status r)
                        = true) added
    /\ pt_version p' = pt_version p + Z.of_nat (length (records_of pid added)).
Proof.
  induction reqs as [|[now req] rest IH]; intros s pid p Hp; simpl.
  - exists p, []. rewrite app_nil_r. simpl. repeat split; auto. lia.
  - destruct (PaymentApiFacts.handle_effect load_event now req s)
      as [[Ht Hh]|ev pid' p0 _ _ Hf _ _ Hv [Ht Hh]].
    + rewrite <- Ht in Hp. destruct (IH _ pid p Hp) as (p' & added & Hp' & Hh' & Hall & Hv).
      exists p', added. rewrite Hh', Hh. auto.
    + apply PaymentFacts.find_payment_Some in Hf as [Hp0 _].
      simpl in Ht, Hh.
      destruct (decide (pid' = pid)) as [->|Hne].
      * assert (p0 = p) as -> by congruence.
        assert (Hp1 : payment_transactions (snd (handle_webhook load_event now req s)) !! pid
                      = Some (apply_transition now ev p))
          by (rewrite Ht; apply lookup_insert_eq).
        destruct (IH _ pid _ Hp1) as (p' & added & Hp' & Hh' & Hall & Hver).
        exists p', (history_row now (idempotency_key_of req) pid ev p :: added).
        split; [assumption|]. split; [rewrite Hh', Hh, <- app_assoc; reflexivity|].
        split; [constructor; [exact Hv|assumption]|].
        rewrite Hver. unfold records_of. rewrite filter_cons_True by reflexivity.
        cbn [length pt_version apply_transition]. lia.
      * assert (Hp1 : payment_transactions (snd (handle_webhook load_event now req s)) !! pid
                      = Some p)
          by (rewrite Ht, lookup_insert_ne; assumption).
        destruct (IH _ pid _ Hp1) as (p' & added & Hp' & Hh' & Hall & Hver).
        exists p', (history_row now (idempotency_key_of req) pid' ev p0 :: added).
        split; [assumption|]. split; [rewrite Hh', Hh, <- app_assoc; reflexivity|].
        split; [constructor; [exact Hv|assumption]|].
        rewrite Hver. unfold records_of. rewrite filter_cons_False by (simpl; congruence).
        reflexivity.
Qed.

(** X6. The stores that the calls reach hold no two intents of the same
    [payment_intent_id], and the lookup by that name, as the webhook does
    it, returns the row that carries it. *)
Theorem intent_names_stay_unique calls : forall s,
  unique_intents s ->
  unique_intents (serve_all load_event calls s)
  /\ forall i p, payment_transactions (serve_all load_event calls s) !! i = Some p ->
                 find_payment (payment_intent_id p) (serve_all load_event calls s)
                 = Some (i, p).
Proof.
  assert (Hstep : forall c s, unique_intents s -> unique_intents (serve load_event c s)).
  { intros c s Hu. destruct c as [data u id now|now req|id now]; simpl.
    - unfold create_payment_intent.
      destruct (payment_transactions s !! id) eqn:Hid; simpl; [assumption|].
      destruct (find_payment (intent_name u) s) eqn:Hf; simpl; [assumption|].
      intros i j p q Hi Hj Hn. simpl in Hi, Hj.
      pose proof (proj1 (PaymentApiFacts.find_payment_None _ _) Hf) as Hfresh.
      destruct (decide (i = id)) as [->|Hi'], (decide (j = id)) as [->|Hj'];
        look_up Hi; look_up Hj.
      + reflexivity.
      + injection Hi as <-. exfalso. apply (Hfresh j q Hj). by rewrite <- Hn.
      + injection Hj as <-. exfalso. apply (Hfresh i p Hi). by rewrite Hn.
      + by apply (Hu i j p q).
    - destruct (PaymentApiFacts.handle_effect load_event now req s)
        as [[Ht _]|ev pid p0 _ _ Hf _ _ _ [Ht _]];
        intros i j p q Hi Hj Hn; rewrite Ht in Hi, Hj; [by apply (Hu i j p q)|].
      simpl in Hi, Hj. apply PaymentFacts.find_payment_Some in Hf as [Hp0 _].
      destruct (decide (i = pid)) as [->|Hi'], (decide (j = pid)) as [->|Hj'];
        look_up Hi; look_up Hj.
      + reflexivity.
      + injection Hi as <-. by apply (Hu pid j p0 q).
      + injection Hj as <-. by apply (Hu i pid p p0).
      + by apply (Hu i j p q).
    - unfold refund_payment.
      destruct (payment_transactions s !! id) as [p0|] eqn:Hp0; simpl; [|assumption].
      case_bool_decide; simpl; [|assumption].
      intros i j p q Hi Hj Hn. simpl in Hi, Hj.
      destruct (decide (i = id)) as [->|Hi'], (decide (j = id)) as [->|Hj'];
        look_up Hi; look_up Hj.
      + reflexivity.
      + injection Hi as <-. by apply (Hu id j p0 q).
      + injection Hj as <-. by apply (Hu i id p p0).
      + by apply (Hu i j p q). }
  induction calls as [|c rest IH]; intros s Hu; simpl.
  - split; [assumption|]. intros i p. by apply PaymentApiFacts.find_payment_unique.
  - apply IH, Hstep, Hu.
Qed.

End PaymentCalls.

Lemma intent_names_stay_unique_witness :
  exists p,
    Payment.find_payment "pi_X"
      (PaymentApi.serve_all WebhookScenario.decode IntentScenario.calls WebhookScenario.store)
    = Some (42%N, p).
Proof.
  destruct (intent_names_stay_unique WebhookScenario.decode IntentScenario.calls
              WebhookScenario.store) as [_ H].
  { intros i j p q Hi Hj _.
    change (Payment.payment_transactions WebhookScenario.store)
      with ({[ 42%N := WebhookScenario.intent ]} : gmap N Payment.PaymentTransaction)
      in Hi, Hj.
    apply lookup_singleton_Some in Hi as [<- _].
    apply lookup_singleton_Some in Hj as [<- _]. reflexivity. }
  destruct (Payment.payment_transactions
              (PaymentApi.serve_all WebhookScenario.decode IntentScenario.calls
                 WebhookScenario.store) !! 42%N) as [p|] eqn:Hp;
    [|vm_compute in Hp; discriminate].
  exists p. specialize (H 42%N p Hp).
  vm_compute in Hp. injection Hp as <-. exact H.
Defined.

Lemma version_counts_records_witness :
  exists p' added,
    Payment.payment_transactions (snd WebhookScenario.redelivered) !! 42%N = Some p'
    /\ Payment.payment_state_history (snd WebhookScenario.redelivered) = added
    /\ Payment.pt_version p' = 1 + Z.of_nat (length (PaymentApi.records_of 42%N added)).
Proof.
  destruct (version_counts_records WebhookScenario.decode
              [ (WebhookScenario.ten_oclock 7,
                 WebhookScenario.request "AUTHORIZED at 10:00:06" "K1");
                (WebhookScenario.ten_oclock 9,
                 WebhookScenario.request "CAPTURED at 10:00:08" "K2");
                (WebhookScenario.ten_oclock 30,
                 WebhookScenario.request "AUTHORIZED at 10:00:06" "K1") ]
              WebhookScenario.store 42%N WebhookScenario.intent)
    as (p' & added & Hp' & Hh & _ & Hv); [reflexivity|].
  exists p', added. split; [exact Hp'|]. split; [exact Hh|exact Hv].
Defined.

Lemma at_most_three_transitions_witness :
  exists p' path,
    Payment.payment_transactions
      (PaymentApi.serve_all WebhookScenario.decode IntentScenario.life WebhookScenario.store)
      !! 42%N = Some p'
    /\ PaymentApi.walks "INITIATED" path = true
    /\ Payment.pt_status p' = "REFUNDED"
    /\ Payment.pt_version p' = 4
    /\ length path = 3%nat.
Proof.
  destruct (at_most_three_transitions WebhookScenario.decode IntentScenario.life
              WebhookScenario.store 42%N WebhookScenario.intent)
    as (p' & path & Hp' & _ & Hw & _ & Hv & _); [reflexivity|].
  exists p', path. split; [exact Hp'|]. split; [exact Hw|].
  vm_compute in Hp'. injection Hp' as <-. split; [reflexivity|]. split; [reflexivity|].
  simpl in Hv. lia.
Defined.

Lemma terminal_status_is_final_witness :
  Payment.pt_status <$> Payment.payment_transactions IntentScenario.refunded !! 42%N
  = Some "REFUNDED"
  /\ Payment.payment_transactions
       (PaymentApi.serve_all WebhookScenario.decode IntentScenario.calls
          IntentScenario.refunded) !! 42%N
     = Payment.payment_transactions IntentScenario.refunded !! 42%N.
Proof.
  destruct (Payment.payment_transactions IntentScenario.refunded !! 42%N) as [p|] eqn:Hp;
    [|vm_compute in Hp; discriminate].
  split.
  - vm_compute in Hp. injection Hp as <-. reflexivity.
  - apply (terminal_status_is_final WebhookScenario.decode IntentScenario.calls
             IntentScenario.refunded 42%N p Hp).
    vm_compute in Hp. injection Hp as <-. reflexivity.
Defined.

(** X4. A refund is granted to a captured intent and to no other: the intent
    becomes REFUNDED along an edge of the graph, at the next version, no
    record enters the history, and a second refund of the same intent is
    refused. A refund that is refused changes nothing. *)
Theorem refund_once_and_only_captured id now s r s' :
  PaymentApi.refund_payment id now s = (r, s') ->
  match r with
  | inr _ =>
      exists p p',
        Payment.payment_transactions s !! id = Some p
        /\ Payment.pt_status p = "CAPTURED"
        /\ Payment.payment_transactions s' = <[ id := p' ]> (Payment.payment_transactions s)
        /\ Payment.validate_state_transition (Payment.pt_status p) (Payment.pt_status p') = true
        /\ Payment.pt_status p' = "REFUNDED"
        /\ Payment.pt_version p' = Payment.pt_version p + 1
        /\ Payment.pt_updated_at p' = now
        /\ Payment.pt_amount p' = Payment.pt_amount p
        /\ Payment.payment_state_history s' = Payment.payment_state_history s
        /\ Payment.idempotency_keys s' = Payment.idempotency_keys s
        /\ forall later,
             PaymentApi.refund_payment id later s'
             = (inl (HTTPException 400 "Cannot refund payment in status: REFUNDED"), s')
  | inl e =>
      s' = s
      /\ ((Payment.payment_transactions s !! id = None
           /\ e = HTTPException 404 "Payment not found")
          \/ exists p, Payment.payment_transactions s !! id = Some p
                       /\ Payment.pt_status p <> "CAPTURED"
                       /\ e = HTTPException 400 ("Cannot refund payment in status: "
                                                 +:+ Payment.pt_status p))
  end.
Proof.
  unfold PaymentApi.refund_payment.
  destruct (Payment.payment_transactions s !! id) as [p|] eqn:Hp.
  2:{ intros [= <- <-]. split; [reflexivity|]. left. auto. }
  case_bool_decide as Hst; simpl.
  2:{ intros [= <- <-]. split; [reflexivity|]. right. eauto. }
  intros [= <- <-]. eexists p, _. split; [reflexivity|]. split; [assumption|].
  simpl. rewrite Hst.
  repeat (split; [reflexivity|]).
  intros later. rewrite lookup_insert_eq. reflexivity.
Qed.

Lemma refund_once_and_only_captured_witness :
  exists p',
    Payment.payment_transactions IntentScenario.refunded !! 42%N = Some p'
    /\ Payment.pt_status p' = "REFUNDED"
    /\ Payment.pt_version p' = 4
    /\ fst (PaymentApi.refund_payment 42%N (WebhookScenario.ten_oclock 40)
              IntentScenario.refunded)
       = inl (HTTPException 400 "Cannot refund payment in status: REFUNDED").
Proof.
  destruct (PaymentApi.refund_payment 42%N (WebhookScenario.ten_oclock 20)
              (snd WebhookScenario.captured)) as [r s'] eqn:Hrun.
  pose proof (refund_once_and_only_captured _ _ _ _ _ Hrun) as H.
  assert (Hs : s' = IntentScenario.refunded)
    by (unfold IntentScenario.refunded; rewrite Hrun; reflexivity).
  destruct r as [e|body]; [vm_compute in Hrun; discriminate|].
  destruct H as (p & p' & Hp & _ & Ht & _ & Hst & Hv & _ & _ & _ & _ & Htwice).
  exists p'. rewrite <- Hs. split; [rewrite Ht; apply lookup_insert_eq|].
  split; [exact Hst|]. split.
  - rewrite Hv. vm_compute in Hp. injection Hp as <-. reflexivity.
  - rewrite Htwice. reflexivity.
Defined.

(** X5. An intent that was created is the one that the webhook finds under
    its name and the one that [get_payment_status] returns; it starts
    INITIATED at version 1, and creation touches no other row, no record and
    no key. A creation that fails changes nothing. *)
Theorem created_intent_is_found data u id now s r s' :
  PaymentApi.create_payment_intent data u id now s = (r, s') ->
  match r with
  | inr row =>
      row = (id, PaymentApi.initiated data (PaymentApi.intent_name u) now)
      /\ Payment.payment_transactions s !! id = None
      /\ Payment.find_payment (PaymentApi.intent_name u) s = None
      /\ Payment.find_payment (PaymentApi.intent_name u) s' = Some row
      /\ PaymentApi.get_payment_status id s' = inr row
      /\ (forall j, j <> id ->
            Payment.payment_transactions s' !! j = Payment.payment_transactions s !! j)
      /\ Payment.payment_state_history s' = Payment.payment_state_history s
      /\ Payment.idempotency_keys s' = Payment.idempotency_keys s
      /\ Payment.redis s' = Payment.redis s
  | inl e => s' = s /\ exists text, e = HTTPException 500 text
  end.
Proof.
  unfold PaymentApi.create_payment_intent.
  destruct (Payment.payment_transactions s !! id) as [p|] eqn:Hid.
  { intros [= <- <-]. split; [reflexivity|]. eauto. }
  destruct (Payment.find_payment (PaymentApi.intent_name u) s) as [q|] eqn:Hf.
  { intros [= <- <-]. split; [reflexivity|]. eauto. }
  intros [= <- <-]. split; [reflexivity|]. split; [reflexivity|]. split; [reflexivity|].
  set (row := PaymentApi.initiated data (PaymentApi.intent_name u) now).
  set (s1 := {| Payment.payment_transactions := <[ id := row ]> (Payment.payment_transactions s);
                Payment.payment_state_history := Payment.payment_state_history s;
                Payment.idempotency_keys := Payment.idempotency_keys s;
                Payment.redis := Payment.redis s |}).
  split.
  { destruct (Payment.find_payment (PaymentApi.intent_name u) s1) as [[j q]|] eqn:Hf1.
    - apply PaymentFacts.find_payment_Some in Hf1 as [Hq Hn]. simpl in Hq.
      destruct (decide (j = id)) as [->|Hne].
      + rewrite lookup_insert_eq in Hq. congruence.
      + rewrite lookup_insert_ne in Hq by congruence.
        exfalso. eapply PaymentApiFacts.find_payment_None; eauto.
    - exfalso. eapply (proj1 (PaymentApiFacts.find_payment_None _ _) Hf1 id row).
      + simpl. apply lookup_insert_eq.
      + reflexivity. }
  split.
  { unfold PaymentApi.get_payment_status. simpl. by rewrite lookup_insert_eq. }
  split; [|auto].
  intros j Hj. simpl. by rewrite lookup_insert_ne.
Qed.

Lemma created_intent_is_found_witness :
  Payment.find_payment "pi_000000000000000000000000"
    (snd (PaymentApi.create_payment_intent IntentScenario.order 5%N 43%N
            (WebhookScenario.ten_oclock 50) WebhookScenario.store))
  = Some (43%N, PaymentApi.initiated IntentScenario.order "pi_000000000000000000000000"
                  (WebhookScenario.ten_oclock 50)).
Proof.
  destruct (PaymentApi.create_payment_intent IntentScenario.order 5%N 43%N
              (WebhookScenario.ten_oclock 50) WebhookScenario.store) as [r s'] eqn:Hrun.
  pose proof (created_intent_is_found _ _ _ _ _ _ _ Hrun) as H.
  destruct r as [e|row]; [vm_compute in Hrun; discriminate|].
  destruct H as (-> & _ & _ & Hf & _). exact Hf.
Defined.

Module BankApiFacts.
Import Bank BankSpec BankApi.

(** A request that ends in an error leaves the world as it was. *)
Lemma create_transfer_error t hdr tx_id now w e w' cps :
  create_transfer t hdr tx_id now w = (inl e, w', cps) ->
  w' = w /\ Forall (fun c => c = w) cps
  /\ exists status detail,
       e = HTTPException status detail /\ (status = 404 \/ status = 400 \/ status = 500).
Proof.
  intros Hrun.
  assert (Hfirst : first_time t hdr now w).
  { unfold create_transfer, create_transfer_in in Hrun. simpl in Hrun. unfold first_time.
    destruct (redis_get now _ (cache w)); [discriminate|].
    destruct (transfer_idempotency (database w) !! transfer_key hdr t now);
      [discriminate|]. auto. }
  destruct (BankFacts.create_transfer_first_time t hdr tx_id now w Hfirst)
    as (status & detail & cps' & Hrun' & Hcps & Hstatus & _).
  rewrite Hrun' in Hrun. injection Hrun as <- <- <-. eauto 10.
Qed.

End BankApiFacts.

(** ** More on the ledger *)

(** X8. A transfer request that ends in an error (404, 400 or 500) has
    changed nothing: no balance, no entry, no cache entry, and no response
    is kept for its key, so that the request can be sent again. *)
Theorem failed_transfer_changes_nothing t hdr tx_id now w e w' cps :
  Bank.create_transfer t hdr tx_id now w = (inl e, w', cps) ->
  w' = w
  /\ Forall (fun c => c = w) cps
  /\ BankSpec.first_time t hdr now w'
  /\ exists status detail,
       e = HTTPException status detail /\ (status = 404 \/ status = 400 \/ status = 500).
Proof.
  intros Hrun.
  destruct (BankApiFacts.create_transfer_error _ _ _ _ _ _ _ _ Hrun) as (-> & Hcps & He).
  split; [reflexivity|]. split; [assumption|]. split; [|assumption].
  unfold Bank.create_transfer, Bank.create_transfer_in in Hrun. simpl in Hrun.
  unfold BankSpec.first_time.
  destruct (Bank.redis_get now _ (Bank.cache w)); [discriminate|].
  destruct (Bank.transfer_idempotency (Bank.database w) !! Bank.transfer_key hdr t now);
    [discriminate|]. auto.
Qed.

Lemma failed_transfer_changes_nothing_witness :
  exists e,
    Bank.create_transfer AccountScenario.move600 (Some "key-5") 78%N LedgerScenario.noon
      LedgerScenario.world
    = (inl e, LedgerScenario.world, []).
Proof.
  destruct (Bank.create_transfer AccountScenario.move600 (Some "key-5") 78%N LedgerScenario.noon
              LedgerScenario.world) as [[[e|r] w1] cps] eqn:Hrun;
    [|vm_compute in Hrun; discriminate].
  destruct (failed_transfer_changes_nothing _ _ _ _ _ _ _ _ Hrun) as (-> & _).
  exists e. f_equal. vm_compute in Hrun. by injection Hrun as _ <-.
Defined.

Lemma reverse_transaction_inv id tx_id now db r db1 :
  Bank.reverse_transaction id tx_id now db = (inr r, db1) ->
  exists orig a b ra rb,
    Bank.transactions (Bank.pending db) !! id = Some orig
    /\ Bank.tx_status orig = "COMPLETED"
    /\ Bank.transaction_type orig = "TRANSFER"
    /\ Bank.from_account_id orig = Some a
    /\ Bank.to_account_id orig = Some b
    /\ Bank.bank_accounts (Bank.pending db) !! a = Some ra
    /\ Bank.bank_accounts (Bank.pending db) !! b = Some rb
    /\ Bank.transactions (Bank.pending db) !! tx_id = None
    /\ Bank.reverse_transaction id tx_id now db
       = (inr (tx_id, BankSpec.completed_entry b a (Bank.ba_currency rb) (Bank.amount orig)
                        (BankSpec.reversal_text id) now),
          let db0 := Bank.commit (Bank.with_pending
                       (BankSpec.moved b a rb (Bank.amount orig) (BankSpec.reversal_text id)
                          tx_id now (Bank.pending db)) db) in
          Bank.commit (Bank.with_pending (BankSpec.mark_reversed id (Bank.pending db0)) db0)).
Proof.
  intros Hrun. pose proof Hrun as Hrun'. unfold Bank.reverse_transaction in Hrun'.
  destruct (Bank.transactions (Bank.pending db) !! id) as [orig|] eqn:Ho; [|discriminate].
  case_bool_decide as Hs; simpl in Hrun'; [|discriminate].
  case_bool_decide as Ht; simpl in Hrun'; [|discriminate].
  match type of Hrun' with context [Bank.execute_transfer ?f ?t ?x ?d ?i ?n ?s] =>
    destruct (Bank.execute_transfer f t x d i n s) as [[e|r0] db0] eqn:E
  end; [discriminate|].
  apply BankFacts.execute_transfer_inv in E
    as (b & a & rb & ra & x & Hto & Hfrom & _ & Hb & Ha & Hfresh & _ & _).
  apply fmap_Some in Hto as ([b' rb'] & Hlb & [= ->]).
  apply fmap_Some in Hfrom as ([a' ra'] & Hla & [= ->]).
  apply BankFacts.load_account_Some in Hlb as [Hto _].
  apply BankFacts.load_account_Some in Hla as [Hfrom _].
  exists orig, a', b', ra, rb. split; [reflexivity|]. repeat (split; [assumption|]).
  by apply (BankFacts.reverse_transaction_ok db id orig a' b' ra rb).
Qed.

(** X9. A transfer is reversed at most once: once a reversal went through,
    every further reversal of the same entry is refused with an error and
    changes nothing. *)
Theorem reversal_only_once id tx1 now1 db r db1 :
  Bank.reverse_transaction id tx1 now1 db = (inr r, db1) ->
  Bank.tx_status <$> Bank.transactions (Bank.durable db1) !! id = Some "REVERSED"
  /\ forall tx2 now2,
       Bank.reverse_transaction id tx2 now2 db1
       = (inl (ValueError "Only completed transactions can be reversed"), db1).
Proof.
  intros Hrun.
  destruct (reverse_transaction_inv _ _ _ _ _ _ Hrun)
    as (orig & a & b & ra & rb & Ho & _ & _ & _ & _ & _ & _ & Hfresh & Heq).
  rewrite Heq in Hrun. injection Hrun as _ <-. simpl.
  assert (Hid : alter (fun t => Bank.set_tx_status "REVERSED" (Bank.completed_at t) t) id
                  (<[ tx1 := BankSpec.completed_entry b a (Bank.ba_currency rb)
                               (Bank.amount orig) (BankSpec.reversal_text id) now1 ]>
                     (Bank.transactions (Bank.pending db))) !! id
                = Some (Bank.set_tx_status "REVERSED" (Bank.completed_at orig) orig)).
  { rewrite lookup_alter_eq, lookup_insert_ne by congruence. by rewrite Ho. }
  split; [by rewrite Hid|].
  intros tx2 now2. unfold Bank.reverse_transaction. simpl. rewrite Hid. reflexivity.
Qed.

Lemma reversal_only_once_witness :
  exists r db1,
    Bank.reverse_transaction 77%N 79%N LedgerScenario.later
      (Bank.open_session LedgerScenario.settled) = (inr r, db1)
    /\ Bank.reverse_transaction 77%N 80%N LedgerScenario.later db1
       = (inl (ValueError "Only completed transactions can be reversed"), db1).
Proof.
  destruct (Bank.reverse_transaction 77%N 79%N LedgerScenario.later
              (Bank.open_session LedgerScenario.settled)) as [[e|r] db1] eqn:Hrun;
    [vm_compute in Hrun; discriminate|].
  exists r, db1. split; [reflexivity|].
  apply (reversal_only_once _ _ _ _ _ _ Hrun).
Defined.

(** X10. The entry that a reversal records is an ordinary COMPLETED
    TRANSFER and can be reversed in its turn: the money goes again from the
    first account to the second, every balance is then what it was before
    the first reversal, and both the original entry and the reversal are
    REVERSED. *)
Theorem reversal_can_be_reversed id tx1 now1 db r1 db1 tx2 now2 :
  Bank.reverse_transaction id tx1 now1 db = (inr r1, db1) ->
  Bank.transactions (Bank.pending db1) !! tx2 = None ->
  exists r2 db2,
    Bank.reverse_transaction (fst r1) tx2 now2 db1 = (inr r2, db2)
    /\ Bank.from_account_id (snd r2) = Bank.to_account_id (snd r1)
    /\ Bank.to_account_id (snd r2) = Bank.from_account_id (snd r1)
    /\ (forall c, Bank.balance_of c (Bank.durable db2) = Bank.balance_of c (Bank.pending db))
    /\ Bank.tx_status <$> Bank.transactions (Bank.durable db2) !! id = Some "REVERSED"
    /\ Bank.tx_status <$> Bank.transactions (Bank.durable db2) !! fst r1 = Some "REVERSED"
    /\ Bank.tx_status <$> Bank.transactions (Bank.durable db2) !! tx2 = Some "COMPLETED".
Proof.
  intros Hrun Hfresh2.
  destruct (reverse_transaction_inv _ _ _ _ _ _ Hrun)
    as (orig & a & b & ra & rb & Ho & _ & _ & _ & _ & Ha & Hb & Hfresh & Heq).
  rewrite Heq in Hrun. injection Hrun as <- <-. simpl in Hfresh2 |- *.
  assert (Hid1 : tx1 <> id) by congruence.
  assert (Hid2 : tx2 <> tx1).
  { intros ->. rewrite lookup_alter_ne, lookup_insert_eq in Hfresh2 by congruence.
    discriminate. }
  assert (Hid3 : tx2 <> id).
  { intros ->. rewrite lookup_alter_eq, lookup_insert_ne, Ho in Hfresh2 by congruence.
    discriminate. }
  set (m := Bank.bank_accounts (Bank.pending db)) in *.
  set (x := Bank.amount orig) in *.
  set (m1 := alter (Bank.credit x now1) a (alter (Bank.debit x now1) b m)).
  assert (Ha1 : is_Some (m1 !! a)).
  { unfold m1. rewrite lookup_alter_is_Some.
    rewrite lookup_alter_is_Some. eauto. }
  assert (Hb1 : is_Some (m1 !! b)).
  { unfold m1. rewrite lookup_alter_is_Some.
    rewrite lookup_alter_is_Some. eauto. }
  destruct Ha1 as [ra1 Ha1], Hb1 as [rb1 Hb1].
  set (entry := BankSpec.completed_entry b a (Bank.ba_currency rb) x
                  (BankSpec.reversal_text id) now1) in *.
  match goal with |- context [Bank.reverse_transaction tx1 tx2 now2 ?s] => set (s1 := s) end.
  assert (Hrev := BankFacts.reverse_transaction_ok s1 tx1 entry b a rb1 ra1 tx2 now2).
  simpl in Hrev. rewrite lookup_alter_ne, lookup_insert_eq in Hrev by congruence.
  specialize (Hrev eq_refl eq_refl eq_refl eq_refl eq_refl Hb1 Ha1 Hfresh2).
  rewrite Hrev. eexists _, _. split; [reflexivity|]. simpl.
  split; [reflexivity|]. split; [reflexivity|].
  split; [|split; [|split]].
  - intros c. unfold Bank.balance_of. simpl. fold m.
    destruct (roundtrip_balances m b a rb ra x now1 now2 Hb Ha) as [H1 H2].
    destruct (decide (c = a)) as [->|Hca]; [by rewrite H2, Ha|].
    destruct (decide (c = b)) as [->|Hcb]; [by rewrite H1, Hb|].
    by rewrite !lookup_alter_ne by congruence.
  - rewrite lookup_alter_ne, lookup_insert_ne, lookup_alter_eq, lookup_insert_ne, Ho
      by congruence. reflexivity.
  - rewrite lookup_alter_eq, lookup_insert_ne, lookup_alter_ne, lookup_insert_eq
      by congruence. reflexivity.
  - rewrite lookup_alter_ne, lookup_insert_eq by congruence. reflexivity.
Qed.

Lemma reversal_can_be_reversed_witness :
  exists r1 db1 r2 db2,
    Bank.reverse_transaction 77%N 79%N LedgerScenario.later
      (Bank.open_session LedgerScenario.settled) = (inr r1, db1)
    /\ Bank.reverse_transaction 79%N 80%N LedgerScenario.later db1 = (inr r2, db2)
    /\ Bank.balance_of LedgerScenario.alice (Bank.durable db2) = Some 42500
    /\ Bank.balance_of LedgerScenario.bob (Bank.durable db2) = Some 17500.
Proof.
  destruct (Bank.reverse_transaction 77%N 79%N LedgerScenario.later
              (Bank.open_session LedgerScenario.settled)) as [[e|r1] db1] eqn:Hrun;
    [vm_compute in Hrun; discriminate|].
  destruct (reversal_can_be_reversed _ _ _ _ _ _ 80%N LedgerScenario.later Hrun)
    as (r2 & db2 & Hrun2 & _ & _ & Hbal & _).
  { vm_compute in Hrun. injection Hrun as _ <-. reflexivity. }
  assert (Hr1 : fst r1 = 79%N) by (vm_compute in Hrun; injection Hrun as <- _; reflexivity).
  rewrite Hr1 in Hrun2.
  exists r1, db1, r2, db2. split; [reflexivity|]. split; [exact Hrun2|].
  rewrite !Hbal. split; reflexivity.
Defined.

(** X11. The entry that the ledger records for a transfer that completes is
    the one that [get_transaction] returns for its identifier; once that
    entry is reversed, [get_transaction] shows it REVERSED, its other columns
    unchanged. *)
Theorem completed_transfer_is_readable f t amount descr tx_id now w r db1 tx2 now2 :
  Bank.execute_transfer f t amount descr tx_id now (Bank.open_session w) = (inr r, db1) ->
  Bank.transactions (Bank.durable db1) !! tx2 = None ->
  BankApi.get_transaction (fst r) (Bank.world_of db1) = inr r
  /\ Bank.tx_status (snd r) = "COMPLETED"
  /\ BankApi.get_transaction (fst r)
       (Bank.perform (Bank.Reversal (fst r) tx2 now2) (Bank.world_of db1))
     = inr (fst r, Bank.set_tx_status "REVERSED" (Bank.completed_at (snd r)) (snd r)).
Proof.
  intros Hrun Hfresh.
  apply BankFacts.execute_transfer_inv in Hrun
    as (a & b & ra & rb & x & -> & -> & -> & Ha & Hb & Hx & -> & ->).
  simpl in Ha, Hb, Hx, Hfresh |- *.
  unfold BankApi.get_transaction. simpl. rewrite lookup_insert_eq.
  split; [reflexivity|]. split; [reflexivity|].
  assert (Hne : tx2 <> tx_id).
  { intros ->. rewrite lookup_insert_eq in Hfresh. discriminate. }
  set (entry := BankSpec.completed_entry a b (Bank.ba_currency ra) x descr now) in *.
  match goal with |- context [Bank.reverse_transaction tx_id tx2 now2 ?s] => set (s1 := s) end.
  assert (Ha1 : is_Some (Bank.bank_accounts (Bank.pending s1) !! a)).
  { simpl. rewrite !lookup_alter_is_Some. eauto. }
  assert (Hb1 : is_Some (Bank.bank_accounts (Bank.pending s1) !! b)).
  { simpl. rewrite !lookup_alter_is_Some. eauto. }
  destruct Ha1 as [ra1 Ha1], Hb1 as [rb1 Hb1].
  assert (Hrev := BankFacts.reverse_transaction_ok s1 tx_id entry a b ra1 rb1 tx2 now2).
  simpl in Hrev. rewrite lookup_insert_eq in Hrev.
  specialize (Hrev eq_refl eq_refl eq_refl eq_refl eq_refl Ha1 Hb1 Hfresh).
  rewrite Hrev. simpl.
  rewrite lookup_alter_eq, lookup_insert_ne, lookup_insert_eq by congruence. reflexivity.
Qed.

Lemma completed_transfer_is_readable_witness :
  exists r,
    BankApi.get_transaction 77%N LedgerScenario.settled = inr r
    /\ Bank.amount (snd r) = 7500
    /\ Bank.tx_status (snd r) = "COMPLETED".
Proof.
  unfold LedgerScenario.settled, Bank.perform.
  destruct (Bank.execute_transfer (Some LedgerScenario.alice) (Some LedgerScenario.bob)
              (Bank.Decimal 7500) "rent" 77%N LedgerScenario.noon
              (Bank.open_session LedgerScenario.world)) as [[e|r] db1] eqn:Hrun;
    [vm_compute in Hrun; discriminate|].
  destruct (completed_transfer_is_readable _ _ _ _ _ _ _ _ _ 79%N LedgerScenario.later Hrun)
    as (Hget & Hstatus & _).
  { vm_compute in Hrun. injection Hrun as _ <-. reflexivity. }
  assert (Hr : fst r = 77%N) by (vm_compute in Hrun; injection Hrun as <- _; reflexivity).
  exists r. simpl snd. rewrite <- Hr. split; [exact Hget|]. split; [|exact Hstatus].
  vm_compute in Hrun. injection Hrun as <- _. reflexivity.
Defined.

Module AccountFacts.
Import Bank BankSpec BankApi.

Lemma find_account_None number d :
  find_account number d = None
  <-> forall i a, bank_accounts d !! i = Some a -> account_number a <> number.
Proof.
  unfold find_account. rewrite fmap_None, list_find_None, Forall_forall. split.
  - intros H i a Ha. apply (H (i, a)). by apply elem_of_map_to_list.
  - intros H [i a] Hin. simpl. apply (H i). by apply elem_of_map_to_list.
Qed.

Lemma find_user_None user d :
  find_user user d = None
  <-> forall i a, bank_accounts d !! i = Some a -> user_id a <> user.
Proof.
  unfold find_user. rewrite fmap_None, list_find_None, Forall_forall. split.
  - intros H i a Ha. apply (H (i, a)). by apply elem_of_map_to_list.
  - intros H [i a] Hin. simpl. apply (H i). by apply elem_of_map_to_list.
Qed.

Lemma find_user_Some user d id a :
  find_user user d = Some (id, a) ->
  bank_accounts d !! id = Some a /\ user_id a = user.
Proof.
  unfold find_user. intros H.
  apply fmap_Some in H as [[i [k x]] [Hfind Heq]]. simpl in Heq.
  injection Heq as <- <-.
  apply list_find_Some in Hfind as (Hl & Hp & _).
  split; [|exact Hp].
  apply elem_of_map_to_list. eapply list_elem_of_lookup_2. exact Hl.
Qed.

(** Under [one_account_each], a number and a user each lead to their row. *)
Lemma find_account_unique w i a :
  one_account_each w -> bank_accounts (database w) !! i = Some a ->
  find_account (account_number a) (database w) = Some (i, a).
Proof.
  intros Hu Ha.
  destruct (find_account (account_number a) (database w)) as [[j b]|] eqn:Hf.
  - apply BankFacts.find_account_Some in Hf as [Hb Hn].
    assert (j = i) as -> by (eapply Hu; eauto). congruence.
  - exfalso. eapply find_account_None; eauto.
Qed.

Lemma find_user_unique w i a :
  one_account_each w -> bank_accounts (database w) !! i = Some a ->
  find_user (user_id a) (database w) = Some (i, a).
Proof.
  intros Hu Ha.
  destruct (find_user (user_id a) (database w)) as [[j b]|] eqn:Hf.
  - apply find_user_Some in Hf as [Hb Hn].
    assert (j = i) as -> by (eapply Hu; eauto). congruence.
  - exfalso. eapply find_user_None; eauto.
Qed.

Lemma same_holders_refl m : same_holders m m.
Proof. intros j b Hb. eauto. Qed.

Lemma same_holders_alter m i f :
  (forall a, user_id (f a) = user_id a /\ account_number (f a) = account_number a) ->
  same_holders m (alter f i m).
Proof.
  intros Hf j b' Hb'.
  destruct (decide (j = i)) as [->|Hne].
  - rewrite lookup_alter_eq in Hb'. apply fmap_Some in Hb' as (b & Hb & ->).
    exists b. destruct (Hf b). auto.
  - rewrite lookup_alter_ne in Hb' by congruence. eauto.
Qed.

Lemma same_holders_trans m1 m2 m3 :
  same_holders m1 m2 -> same_holders m2 m3 -> same_holders m1 m3.
Proof.
  intros H12 H23 j b3 Hb3.
  destruct (H23 j b3 Hb3) as (b2 & Hb2 & Hu & Hn).
  destruct (H12 j b2 Hb2) as (b1 & Hb1 & Hu' & Hn').
  exists b1. split; [assumption|]. split; congruence.
Qed.

Lemma same_holders_moved a b ra x descr tx_id now d :
  same_holders (bank_accounts d) (bank_accounts (moved a b ra x descr tx_id now d)).
Proof.
  unfold moved. simpl.
  eapply same_holders_trans; apply same_holders_alter; intros; split; reflexivity.
Qed.

Lemma execute_transfer_holders f t x descr tx_id now db :
  clean db ->
  let db' := snd (execute_transfer f t x descr tx_id now db) in
  clean db' /\ same_holders (bank_accounts (durable db)) (bank_accounts (durable db')).
Proof.
  intros Hc.
  destruct (execute_transfer f t x descr tx_id now db) as [[e|r] db'] eqn:E; simpl.
  - apply BankFacts.execute_transfer_failure in E as (Hd & Hp & _). unfold clean.
    rewrite Hd, Hp. split; [reflexivity|apply same_holders_refl].
  - apply BankFacts.execute_transfer_inv in E
      as (a & b & ra & rb & y & _ & _ & _ & _ & _ & _ & _ & ->).
    split; [apply BankFacts.clean_commit|]. simpl. rewrite <- Hc.
    apply (same_holders_moved a b ra y descr tx_id now (pending db)).
Qed.

Lemma reverse_transaction_holders id tx_id now db :
  clean db ->
  let db' := snd (reverse_transaction id tx_id now db) in
  same_holders (bank_accounts (durable db)) (bank_accounts (durable db')).
Proof.
  intros Hc. unfold reverse_transaction.
  destruct (transactions (pending db) !! id) as [orig|]; [|apply same_holders_refl].
  destruct (negb (bool_decide (tx_status orig = "COMPLETED"))); [apply same_holders_refl|].
  destruct (negb (bool_decide (transaction_type orig = "TRANSFER")));
    [apply same_holders_refl|].
  match goal with |- context [execute_transfer ?f ?t ?x ?d ?i ?n ?s] =>
    pose proof (execute_transfer_holders f t x d i n s Hc) as [Hc' Hs];
    destruct (execute_transfer f t x d i n s) as [[e|r] db1]
  end; simpl in *; [assumption|].
  by rewrite Hc'.
Qed.

Lemma create_transfer_holders t hdr tx_id now w :
  same_holders (bank_accounts (database w))
    (bank_accounts (database (snd (fst (create_transfer t hdr tx_id now w))))).
Proof.
  unfold create_transfer.
  assert (Hc : clean (open_session w)) by apply BankFacts.clean_open.
  change (database w) with (durable (open_session w)).
  generalize dependent (open_session w). intros db Hc.
  unfold create_transfer_in.
  destruct (redis_get _ _ _); [apply same_holders_refl|].
  destruct (transfer_idempotency (pending db) !! _); [apply same_holders_refl|].
  destruct (find_account (from_account_number t) (pending db)) as [from_row|];
    [|apply same_holders_refl].
  destruct (find_account (to_account_number t) (pending db)) as [to_row|];
    [|apply same_holders_refl].
  destruct (validate_transfer from_row to_row (Float (tc_amount t))) as [ok msg].
  destruct ok; simpl; [|apply same_holders_refl].
  match goal with |- context [execute_transfer ?f ?to ?x ?d ?i ?n ?s] =>
    pose proof (execute_transfer_holders f to x d i n s Hc) as [Hc' Hs];
    destruct (execute_transfer f to x d i n s) as [[e|r] db1]
  end; simpl in *.
  - destruct e; simpl; assumption.
  - destruct (transfer_idempotency (pending db1) !! _); simpl; [assumption|].
    by rewrite Hc'.
Qed.

Lemma one_account_each_holders w w' :
  same_holders (bank_accounts (database w)) (bank_accounts (database w')) ->
  one_account_each w -> one_account_each w'.
Proof.
  intros Hs Hu i j a b Ha Hb Heq.
  destruct (Hs i a Ha) as (a0 & Ha0 & Hua & Hna).
  destruct (Hs j b Hb) as (b0 & Hb0 & Hub & Hnb).
  apply (Hu i j a0 b0 Ha0 Hb0). destruct Heq; [left|right]; congruence.
Qed.

Lemma serve_one_account_each c w :
  one_account_each w -> one_account_each (serve c w).
Proof.
  intros Hu. destruct c as [[t hdr tx_id now|f t x descr tx_id now|id tx_id now]
                           |data today sequence id now]; simpl.
  - eapply one_account_each_holders; [apply create_transfer_holders|assumption].
  - eapply one_account_each_holders; [|exact Hu].
    apply (execute_transfer_holders f t x descr tx_id now (open_session w)
             (BankFacts.clean_open w)).
  - eapply one_account_each_holders; [|exact Hu].
    apply (reverse_transaction_holders id tx_id now (open_session w)
             (BankFacts.clean_open w)).
  - unfold create_account.
    destruct (find_user (ac_user_id data) (database w)) eqn:Hfu; simpl; [assumption|].
    destruct (bank_accounts (database w) !! id) eqn:Hid; simpl; [assumption|].
    destruct (find_account _ (database w)) eqn:Hfa; simpl; [assumption|].
    pose proof (proj1 (find_user_None _ _) Hfu) as Huser.
    pose proof (proj1 (find_account_None _ _) Hfa) as Hnumber.
    intros i j a b Ha Hb Heq. simpl in Ha, Hb.
    destruct (decide (i = id)) as [->|Hi], (decide (j = id)) as [->|Hj];
      look_up Ha; look_up Hb.
    + reflexivity.
    + injection Ha as <-. exfalso. simpl in Heq.
      destruct Heq as [Heq|Heq]; [by apply (Huser j b Hb)|by apply (Hnumber j b Hb)].
    + injection Hb as <-. exfalso. simpl in Heq.
      destruct Heq as [Heq|Heq]; [by apply (Huser i a Ha)|by apply (Hnumber i a Ha)].
    + by apply (Hu i j a b).
Qed.

End AccountFacts.

(** X12. Opening an account succeeds for a user who holds none: the row
    starts ACTIVE at version 1 with the deposit as its balance, it is the
    row that [get_account] returns for its number, the sum of all balances
    grows by the deposit, and no ledger entry, key or cache entry is
    written. A second account for the same user is refused with a 400, a
    number or an identifier that is taken with a 500; a refusal changes
    nothing. *)
Theorem account_opening data today sequence id now w r w' :
  BankApi.create_account data today sequence id now w = (r, w') ->
  match r with
  | inr row =>
      row = (id, BankApi.opened data (BankApi.generate_account_number today sequence) now)
      /\ BankApi.find_user (BankApi.ac_user_id data) (Bank.database w) = None
      /\ BankApi.get_account (Bank.account_number (snd row)) w' = inr row
      /\ BankApi.get_account_balance id (Bank.database w')
         = inr (BankApi.initial_deposit data)
      /\ Bank.total_balance (Bank.database w')
         = Bank.total_balance (Bank.database w) + BankApi.initial_deposit data
      /\ (forall j, j <> id ->
            Bank.bank_accounts (Bank.database w') !! j
            = Bank.bank_accounts (Bank.database w) !! j)
      /\ Bank.transactions (Bank.database w') = Bank.transactions (Bank.database w)
      /\ Bank.transfer_idempotency (Bank.database w')
         = Bank.transfer_idempotency (Bank.database w)
      /\ Bank.cache w' = Bank.cache w
  | inl e =>
      w' = w
      /\ ((is_Some (BankApi.find_user (BankApi.ac_user_id data) (Bank.database w))
           /\ e = HTTPException 400 "User already has a bank account")
          \/ (BankApi.find_user (BankApi.ac_user_id data) (Bank.database w) = None
              /\ exists text, e = HTTPException 500 text))
  end.
Proof.
  unfold BankApi.create_account.
  destruct (BankApi.find_user (BankApi.ac_user_id data) (Bank.database w)) as [u|] eqn:Hfu.
  { intros [= <- <-]. split; [reflexivity|]. left. eauto. }
  destruct (Bank.bank_accounts (Bank.database w) !! id) eqn:Hid.
  { intros [= <- <-]. split; [reflexivity|]. right. eauto. }
  destruct (Bank.find_account _ (Bank.database w)) eqn:Hfa.
  { intros [= <- <-]. split; [reflexivity|]. right. eauto. }
  intros [= <- <-]. split; [reflexivity|]. split; [reflexivity|].
  set (number := BankApi.generate_account_number today sequence) in *.
  set (row := BankApi.opened data number now).
  split.
  { unfold BankApi.get_account. simpl.
    match goal with |- context [Bank.find_account number ?d] =>
      destruct (Bank.find_account number d) as [[j q]|] eqn:Hf1 end.
    - apply BankFacts.find_account_Some in Hf1 as [Hq Hn]. simpl in Hq.
      destruct (decide (j = id)) as [->|Hne].
      + rewrite lookup_insert_eq in Hq. congruence.
      + rewrite lookup_insert_ne in Hq by congruence.
        exfalso. eapply AccountFacts.find_account_None; eauto.
    - exfalso. eapply (proj1 (AccountFacts.find_account_None _ _) Hf1 id row).
      + simpl. apply lookup_insert_eq.
      + reflexivity. }
  split.
  { unfold BankApi.get_account_balance. simpl. by rewrite lookup_insert_eq. }
  split.
  { unfold Bank.total_balance. simpl.
    rewrite (BankFacts.sum_balances_insert _ _ _ Hid). simpl.
    unfold BankSpec.sum_balances. lia. }
  split; [|auto].
  intros j Hj. simpl. by rewrite lookup_insert_ne.
Qed.

Lemma account_opening_witness :
  BankApi.get_account "2025010112345678"
    (snd (BankApi.create_account AccountScenario.carol LedgerScenario.noon 12345678 1%N
            LedgerScenario.noon AccountScenario.nothing))
  = inr (1%N, BankApi.opened AccountScenario.carol "2025010112345678" LedgerScenario.noon).
Proof.
  destruct (BankApi.create_account AccountScenario.carol LedgerScenario.noon 12345678 1%N
              LedgerScenario.noon AccountScenario.nothing) as [[e|row] w'] eqn:Hrun;
    [vm_compute in Hrun; discriminate|].
  destruct (account_opening _ _ _ _ _ _ _ _ Hrun) as (-> & _ & Hget & _). exact Hget.
Defined.

(** X13. In every world that the calls reach, a user holds at most one
    account and a number names at most one account, so that the lookups by
    number ([get_account], [create_transfer]) and by user return the one row
    that carries it. *)
Theorem one_account_per_user calls : forall w,
  BankApi.one_account_each w ->
  BankApi.one_account_each (BankApi.serve_all calls w)
  /\ forall i a,
       Bank.bank_accounts (Bank.database (BankApi.serve_all calls w)) !! i = Some a ->
       BankApi.get_account (Bank.account_number a) (BankApi.serve_all calls w) = inr (i, a)
       /\ BankApi.find_user (Bank.user_id a) (Bank.database (BankApi.serve_all calls w))
          = Some (i, a).
Proof.
  induction calls as [|c rest IH]; intros w Hu; simpl.
  - split; [assumption|]. intros i a Ha. unfold BankApi.get_account.
    rewrite (AccountFacts.find_account_unique w i a Hu Ha).
    split; [reflexivity|]. by apply AccountFacts.find_user_unique.
  - apply IH. by apply AccountFacts.serve_one_account_each.
Qed.

Lemma one_account_per_user_witness :
  exists a,
    BankApi.get_account "2025010112345678"
      (BankApi.serve_all AccountScenario.opening AccountScenario.nothing) = inr (1%N, a)
    /\ Bank.user_id a = 11%N
    /\ Bank.balance a = 50000.
Proof.
  destruct (one_account_per_user AccountScenario.opening AccountScenario.nothing) as [_ H].
  { intros i j a b Ha. simpl in Ha. rewrite lookup_empty in Ha. discriminate. }
  destruct (Bank.bank_accounts
              (Bank.database (BankApi.serve_all AccountScenario.opening AccountScenario.nothing))
              !! 1%N) as [a|] eqn:Ha; [|vm_compute in Ha; discriminate].
  destruct (H 1%N a Ha) as [Hget _].
  exists a. vm_compute in Ha. injection Ha as <-.
  split; [exact Hget|]. split; reflexivity.
Defined.

Module TextFacts.

Lemma length_append (a b : string) :
  String.length (a +:+ b) = (String.length a + String.length b)%nat.
Proof. induction a as [|c a IH]; simpl; [reflexivity|]. cbn. by rewrite IH. Qed.

Lemma length_of_list (l : list ascii) : String.length (string_of_list_ascii l) = length l.
Proof. induction l as [|c l IH]; simpl; [reflexivity|]. by rewrite IH. Qed.

(** The decimal rendering of a number of [k] digits has [k] characters. *)
Lemma dec_digits_length k : forall fuel n acc,
  (k <= fuel)%nat -> 0 <= n < 10 ^ Z.of_nat (S k) -> (k = 0%nat \/ 10 ^ Z.of_nat k <= n) ->
  String.length (Text.dec_digits (S fuel) n acc) = (S k + String.length acc)%nat.
Proof.
  induction k as [|k IH]; intros fuel n acc Hfuel Hn Hlow.
  - simpl. destruct (Z.ltb_spec n 10); [reflexivity|]. simpl in Hn. lia.
  - destruct fuel as [|fuel]; [lia|].
    assert (Hpow : 10 ^ Z.of_nat (S k) = 10 * 10 ^ Z.of_nat k)
      by (rewrite Nat2Z.inj_succ, Z.pow_succ_r by lia; reflexivity).
    assert (Hpow' : 10 ^ Z.of_nat (S (S k)) = 10 * 10 ^ Z.of_nat (S k))
      by (rewrite (Nat2Z.inj_succ (S k)), Z.pow_succ_r by lia; reflexivity).
    assert (Hpos : 0 < 10 ^ Z.of_nat k) by (apply Z.pow_pos_nonneg; lia).
    destruct Hlow as [Hlow|Hlow]; [discriminate|].
    change (Text.dec_digits (S (S fuel)) n acc)
      with (let acc' := String (ascii_of_N (Z.to_N (48 + n mod 10))) acc in
            if n <? 10 then acc' else Text.dec_digits (S fuel) (n / 10) acc').
    cbv zeta. destruct (Z.ltb_spec n 10); [lia|].
    rewrite IH.
    + simpl. lia.
    + lia.
    + split; [apply Z.div_pos; lia|]. apply Z.div_lt_upper_bound; lia.
    + destruct k; [by left|right]. apply Z.div_le_lower_bound; lia.
Qed.

Lemma str_nat_length k n :
  0 <= n < 10 ^ Z.of_nat (S k) -> (k = 0%nat \/ 10 ^ Z.of_nat k <= n) ->
  String.length (Text.str_nat n) = S k.
Proof.
  intros Hn Hlow. unfold Text.str_nat.
  rewrite (dec_digits_length k); [simpl; lia| |assumption|assumption].
  destruct Hlow as [->|Hlow]; [lia|].
  assert (Z.of_nat k <= Z.log2 n); [|lia].
  transitivity (Z.log2 (2 ^ Z.of_nat k)); [rewrite Z.log2_pow2; lia|].
  apply Z.log2_le_mono. transitivity (10 ^ Z.of_nat k); [|assumption].
  apply Z.pow_le_mono_l. lia.
Qed.

Lemma two_digits n : 0 <= n < 100 -> String.length (Text.str_padded 2 n) = 2%nat.
Proof.
  intros Hn. unfold Text.str_padded. rewrite length_append, length_of_list, repeat_length.
  destruct (Z.lt_ge_cases n 10).
  - rewrite (str_nat_length 0) by (simpl; auto; lia). reflexivity.
  - rewrite (str_nat_length 1) by (simpl; auto; lia). reflexivity.
Qed.

Lemma four_digits n : 1000 <= n < 10000 -> String.length (Text.str_padded 4 n) = 4%nat.
Proof.
  intros Hn. unfold Text.str_padded. rewrite length_append, length_of_list, repeat_length.
  rewrite (str_nat_length 3) by (simpl; auto; lia). reflexivity.
Qed.

(** The date that [civil_from_days] makes of a day between 1970 and 9999. *)
Lemma civil_ranges days :
  0 <= days < 2932897 ->
  let '(y, m, d) := Text.civil_from_days days in
  1600 <= y <= 9999 /\ 1 <= m <= 12 /\ 1 <= d <= 31.
Proof.
  intros Hd. unfold Text.civil_from_days.
  set (z := days + 719468).
  set (era := z / 146097).
  set (doe := z - era * 146097).
  set (yoe := (doe - doe / 1460 + doe / 36524 - doe / 146096) / 365).
  set (doy := doe - (365 * yoe + yoe / 4 - yoe / 100)).
  set (mp := (5 * doy + 2) / 153).
  assert (Hera : 4 <= era <= 24) by (unfold era, z; Z.div_mod_to_equations; lia).
  assert (Hdoe : 0 <= doe <= 146096) by (unfold doe, era; Z.div_mod_to_equations; lia).
  assert (Hyoe : 0 <= yoe <= 399) by (unfold yoe; Z.div_mod_to_equations; lia).
  assert (Hdoy : 0 <= doy <= 365) by (unfold doy, yoe; Z.div_mod_to_equations; lia).
  assert (Hmp : 0 <= mp <= 11) by (unfold mp; Z.div_mod_to_equations; lia).
  assert (Hdd : 1 <= doy - (153 * mp + 2) / 5 + 1 <= 31)
    by (unfold mp; Z.div_mod_to_equations; lia).
  destruct (Z.ltb_spec mp 10).
  - destruct (Z.leb_spec (mp + 3) 2); [lia|].
    split; [|split; [lia|assumption]].
    unfold doy, yoe in *. clear Hdd. Z.div_mod_to_equations. lia.
  - destruct (Z.leb_spec (mp - 9) 2); [|lia].
    split; [|split; [lia|assumption]].
    unfold mp, doy, yoe, doe, era, z in *. clear Hdd. Z.div_mod_to_equations. lia.
Qed.

End TextFacts.

(** X14. An account number drawn at any instant from 1970 to the end of the
    year 9999 has sixteen characters, eight for the date and eight for the
    sequence: it fits the column of twenty characters and the bounds of ten
    and twenty that the transfer request puts on an account number. *)
Theorem account_number_has_sixteen_digits today sequence :
  0 <= today < 253402300800000000 ->
  10000000 <= sequence <= 99999999 ->
  String.length (BankApi.generate_account_number today sequence) = 16%nat.
Proof.
  intros Ht Hs. unfold BankApi.generate_account_number.
  pose proof (TextFacts.civil_ranges (today / 1000000 / 86400)) as Hr.
  destruct (Text.civil_from_days (today / 1000000 / 86400)) as [[y m] d].
  destruct Hr as (Hy & Hm & Hd).
  { split; [apply Z.div_pos; [apply Z.div_pos|]; lia|].
    apply Z.div_lt_upper_bound; [lia|]. apply Z.div_lt_upper_bound; lia. }
  rewrite !TextFacts.length_append.
  rewrite TextFacts.four_digits, !TextFacts.two_digits by lia.
  unfold Text.str_int. destruct (Z.ltb_spec sequence 0); [lia|].
  rewrite (TextFacts.str_nat_length 7) by (simpl; auto; lia). reflexivity.
Qed.

Lemma account_number_has_sixteen_digits_witness :
  BankApi.generate_account_number LedgerScenario.noon 12345678 = "2025010112345678"
  /\ String.length (BankApi.generate_account_number LedgerScenario.noon 12345678) = 16%nat.
Proof.
  split; [reflexivity|].
  apply (account_number_has_sixteen_digits LedgerScenario.noon 12345678);
    unfold LedgerScenario.noon; lia.
Defined.
